(** * LUL Layout Manager: the layout document and its undo engine

    A shallow embedding of [LUL_Layout_Manager.py]: the grid snapping, the
    [DraggableWidget] objects and their drag handlers, the [GUIBuilder]
    document (widget list, undo and redo stacks), the loader, the saver and
    the code generator, followed by the properties of the specification that
    hold of them and the inputs at which the others break.

    Python objects are shared between [GUIBuilder.widgets] and the tuples on
    the two stacks, so the model keeps an explicit object store ([heap]) and
    passes references around.  Exceptions are values: a handler returns the
    state it reached together with [Ok] or the exception it raised. *)

From Stdlib Require Import ZArith Lia Ascii.
From stdpp Require Import base option list strings pretty gmap.

Local Open Scope string_scope.
Local Open Scope list_scope.
Local Open Scope Z_scope.

(** ** Grid snapping *)

Definition GRID_SIZE : Z := 20.

(** [round(v / unit)] for integers [v] and [unit > 0]: Python 3 divides in
    floating point and [round] takes the nearest integer, a tie going to the
    even neighbour.  The quotient is computed exactly here; the double the
    program goes through carries the same nearest integer for every
    coordinate below 2^50 in magnitude, far beyond any canvas. *)
Definition py_round_div (v unit : Z) : Z :=
  let q := v / unit in
  let r := v mod unit in
  if 2 * r <? unit then q
  else if unit <? 2 * r then q + 1
  else if Z.even q then q else q + 1.

(** [round(v / GRID_SIZE) * GRID_SIZE], as written in [place_widget] and
    [on_drag]. *)
Definition snap (v : Z) : Z := py_round_div v GRID_SIZE * GRID_SIZE.

Definition aligned (v : Z) : Prop := v mod GRID_SIZE = 0.

(** ** Exceptions *)

Inductive exn := TclError | ValueError | AttributeError.

Inductive result (A : Type) : Type :=
  | Ok (a : A)
  | Raise (e : exn).
Arguments Ok {A} a.
Arguments Raise {A} e.

Definition rbind {A B} (m : result A) (k : A -> result B) : result B :=
  match m with
  | Ok a => k a
  | Raise e => Raise e
  end.

Notation "'let?' x := m 'in' k" := (rbind m (fun x => k))
  (at level 10, x name, m at level 100, k at level 200, only parsing).

(** ** The toolkit boundary

    The widgets themselves belong to Tk.  What the program needs of them is
    kept here: a widget is alive until [destroy], it has the option names of
    its class, [cget] and [config] raise [TclError] on an option the class
    does not have and on a destroyed widget.  Which class has which option
    is Tk's table, not the program's, and is taken as a parameter; option
    values are the strings Tcl holds. *)

Record Toolkit := {
  (* class -> the option names [keys()] lists, synonyms included *)
  tk_keys : string -> list string;
  (* option name -> the name it is a synonym of, or itself *)
  tk_canon : string -> string;
  (* class -> option -> the value of an option never configured *)
  tk_default : string -> string -> string;
  (* class -> option -> value -> whether [config] takes the value *)
  tk_accepts : string -> string -> string -> bool
}.

Record TkWidget := {
  tk_class : string;
  tk_alive : bool;
  tk_conf : list (string * string);
  tk_items : list string
}.

Fixpoint assoc (k : string) (l : list (string * string)) : option string :=
  match l with
  | [] => None
  | (k', v) :: l' => if decide (k = k') then Some v else assoc k l'
  end.

Fixpoint assoc_set (k v : string) (l : list (string * string))
  : list (string * string) :=
  match l with
  | [] => [(k, v)]
  | (k', v') :: l' =>
      if decide (k = k') then (k, v) :: l' else (k', v') :: assoc_set k v l'
  end.

Definition tk_new (class : string) (conf : list (string * string)) : TkWidget :=
  {| tk_class := class; tk_alive := true; tk_conf := conf; tk_items := [] |}.

Definition tk_insert (item : string) (w : TkWidget) : TkWidget :=
  {| tk_class := tk_class w; tk_alive := tk_alive w; tk_conf := tk_conf w;
     tk_items := tk_items w ++ [item] |}.

Definition destroy (w : TkWidget) : TkWidget :=
  {| tk_class := tk_class w; tk_alive := false; tk_conf := tk_conf w;
     tk_items := tk_items w |}.

Section Widgets.
Context (tk : Toolkit).

Definition keys (w : TkWidget) : result (list string) :=
  if tk_alive w then Ok (tk_keys tk (tk_class w)) else Raise TclError.

Definition cget (w : TkWidget) (opt : string) : result string :=
  if tk_alive w && bool_decide (opt ∈ tk_keys tk (tk_class w)) then
    Ok (default (tk_default tk (tk_class w) (tk_canon tk opt))
                (assoc (tk_canon tk opt) (tk_conf w)))
  else Raise TclError.

Definition config (w : TkWidget) (opt value : string) : result TkWidget :=
  if tk_alive w && bool_decide (opt ∈ tk_keys tk (tk_class w))
     && tk_accepts tk (tk_class w) opt value then
    Ok {| tk_class := tk_class w; tk_alive := true;
          tk_conf := assoc_set (tk_canon tk opt) value (tk_conf w);
          tk_items := tk_items w |}
  else Raise TclError.

(** [w.cget(opt) if opt in w.keys() else ''] *)
Definition cget_or (w : TkWidget) (opt fallback : string) : result string :=
  let? ks := keys w in
  if bool_decide (opt ∈ ks) then cget w opt else Ok fallback.
End Widgets.

(** The constructor calls of [place_widget], one per supported type. *)
Definition SUPPORTED_WIDGETS : list string :=
  ["Button"; "Label"; "Entry"; "Text"; "Checkbutton"; "Radiobutton"; "Scale";
   "Listbox"; "Scrollbar"; "Frame"; "LabelFrame"; "Combobox"; "Progressbar"].

Definition make_widget (widget_type : string) : option TkWidget :=
  if decide (widget_type = "Button") then
    Some (tk_new "ttk.Button" [("text", "Button")])
  else if decide (widget_type = "Label") then
    Some (tk_new "ttk.Label" [("text", "Label")])
  else if decide (widget_type = "Entry") then
    Some (tk_new "ttk.Entry" [])
  else if decide (widget_type = "Text") then
    Some (tk_new "tk.Text" [("width", "30"); ("height", "5")])
  else if decide (widget_type = "Checkbutton") then
    Some (tk_new "ttk.Checkbutton" [("text", "Checkbutton")])
  else if decide (widget_type = "Radiobutton") then
    Some (tk_new "ttk.Radiobutton" [("text", "Radiobutton")])
  else if decide (widget_type = "Scale") then
    Some (tk_new "ttk.Scale" [("from", "0"); ("to", "100")])
  else if decide (widget_type = "Listbox") then
    Some (fold_left (fun w item => tk_insert item w)
            ["Item 1"; "Item 2"; "Item 3"]
            (tk_new "tk.Listbox" [("height", "4")]))
  else if decide (widget_type = "Scrollbar") then
    Some (tk_new "ttk.Scrollbar" [])
  else if decide (widget_type = "Frame") then
    Some (tk_new "ttk.Frame"
            [("width", "200"); ("height", "200"); ("relief", "ridge")])
  else if decide (widget_type = "LabelFrame") then
    Some (tk_new "ttk.LabelFrame"
            [("text", "LabelFrame"); ("width", "200"); ("height", "200")])
  else if decide (widget_type = "Combobox") then
    Some (tk_new "ttk.Combobox"
            [("values", "{Option 1} {Option 2} {Option 3}")])
  else if decide (widget_type = "Progressbar") then
    Some (tk_new "ttk.Progressbar"
            [("length", "200"); ("mode", "determinate"); ("value", "50.0")])
  else None.

(** ** The canvas

    Window items in stacking order, bottom first.  Item ids are handed out
    by a counter and never reused, also when [create_window] fails. *)

Record CanvasItem := {
  item_id : nat;
  item_x : Z;
  item_y : Z;
  item_window : nat;
  item_width : Z;
  item_tagged : bool
}.

Record Canvas := {
  items : list CanvasItem;
  next_item : nat
}.

Definition create_window (x y : Z) (window : nat) (tagged : bool) (c : Canvas)
  : nat * Canvas :=
  (next_item c,
   {| items := items c ++
        [{| item_id := next_item c; item_x := x; item_y := y;
            item_window := window; item_width := 0; item_tagged := tagged |}];
      next_item := S (next_item c) |}).

(** [create_window] naming a destroyed window: Tk reports a bad window path
    name and keeps no item. *)
Definition create_window_failed (c : Canvas) : Canvas :=
  {| items := items c; next_item := S (next_item c) |}.

Definition canvas_delete (i : nat) (c : Canvas) : Canvas :=
  {| items := filter (fun it => item_id it ≠ i) (items c);
     next_item := next_item c |}.

Definition on_item (i : nat) (f : CanvasItem -> CanvasItem) (c : Canvas) : Canvas :=
  {| items := map (fun it => if decide (item_id it = i) then f it else it)
                  (items c);
     next_item := next_item c |}.

Definition canvas_move (i : nat) (dx dy : Z) : Canvas -> Canvas :=
  on_item i (fun it =>
    {| item_id := item_id it; item_x := item_x it + dx; item_y := item_y it + dy;
       item_window := item_window it; item_width := item_width it;
       item_tagged := item_tagged it |}).

Definition itemconfig_width (i : nat) (width : Z) : Canvas -> Canvas :=
  on_item i (fun it =>
    {| item_id := item_id it; item_x := item_x it; item_y := item_y it;
       item_window := item_window it; item_width := width;
       item_tagged := item_tagged it |}).

Definition find_withtag_widget (c : Canvas) : list nat :=
  item_id <$> filter (fun it => item_tagged it = true) (items c).

Definition tag_raise (i : nat) (c : Canvas) : Canvas :=
  {| items := filter (fun it => item_id it ≠ i) (items c) ++
              filter (fun it => item_id it = i) (items c);
     next_item := next_item c |}.

Definition tag_lower (i : nat) (c : Canvas) : Canvas :=
  {| items := filter (fun it => item_id it = i) (items c) ++
              filter (fun it => item_id it ≠ i) (items c);
     next_item := next_item c |}.

(** ** Objects and the builder state *)

(** A reference to a [DraggableWidget] object: its index in the store. *)
Abbreviation ref := nat (only parsing).

Record DraggableWidget := {
  widget : TkWidget;
  widget_type : string;
  dw_x : Z;
  dw_y : Z;
  properties : list (string * string);
  selected : bool;
  original_x : Z;
  original_y : Z;
  dw_id : nat;
  start_x : option Z;
  start_y : option Z
}.

Definition set_widget (t : TkWidget) (w : DraggableWidget) : DraggableWidget :=
  {| widget := t; widget_type := widget_type w; dw_x := dw_x w; dw_y := dw_y w;
     properties := properties w; selected := selected w;
     original_x := original_x w; original_y := original_y w; dw_id := dw_id w;
     start_x := start_x w; start_y := start_y w |}.

Definition set_x (v : Z) (w : DraggableWidget) : DraggableWidget :=
  {| widget := widget w; widget_type := widget_type w; dw_x := v; dw_y := dw_y w;
     properties := properties w; selected := selected w;
     original_x := original_x w; original_y := original_y w; dw_id := dw_id w;
     start_x := start_x w; start_y := start_y w |}.

Definition set_y (v : Z) (w : DraggableWidget) : DraggableWidget :=
  {| widget := widget w; widget_type := widget_type w; dw_x := dw_x w; dw_y := v;
     properties := properties w; selected := selected w;
     original_x := original_x w; original_y := original_y w; dw_id := dw_id w;
     start_x := start_x w; start_y := start_y w |}.

Definition set_selected (b : bool) (w : DraggableWidget) : DraggableWidget :=
  {| widget := widget w; widget_type := widget_type w; dw_x := dw_x w;
     dw_y := dw_y w; properties := properties w; selected := b;
     original_x := original_x w; original_y := original_y w; dw_id := dw_id w;
     start_x := start_x w; start_y := start_y w |}.

Definition set_original (ox oy : Z) (w : DraggableWidget) : DraggableWidget :=
  {| widget := widget w; widget_type := widget_type w; dw_x := dw_x w;
     dw_y := dw_y w; properties := properties w; selected := selected w;
     original_x := ox; original_y := oy; dw_id := dw_id w;
     start_x := start_x w; start_y := start_y w |}.

Definition set_id (i : nat) (w : DraggableWidget) : DraggableWidget :=
  {| widget := widget w; widget_type := widget_type w; dw_x := dw_x w;
     dw_y := dw_y w; properties := properties w; selected := selected w;
     original_x := original_x w; original_y := original_y w; dw_id := i;
     start_x := start_x w; start_y := start_y w |}.

Definition set_start (sx sy : Z) (w : DraggableWidget) : DraggableWidget :=
  {| widget := widget w; widget_type := widget_type w; dw_x := dw_x w;
     dw_y := dw_y w; properties := properties w; selected := selected w;
     original_x := original_x w; original_y := original_y w; dw_id := dw_id w;
     start_x := Some sx; start_y := Some sy |}.

(** The tuples pushed on the stacks: [('create', dw)], [('delete', dw)] and
    [('move', dw, old_x, old_y)]. *)
Inductive action :=
  | Create (dw : ref)
  | Delete (dw : ref)
  | Move (dw : ref) (old_x old_y : Z).

Record GUIBuilder := {
  active_widget : option string;
  widgets : list ref;
  current_file : option string;
  undo_stack : list action;
  redo_stack : list action;
  canvas : Canvas;
  heap : list DraggableWidget;
  errors : list string
}.

Definition set_active_widget (a : option string) (s : GUIBuilder) : GUIBuilder :=
  {| active_widget := a; widgets := widgets s; current_file := current_file s;
     undo_stack := undo_stack s; redo_stack := redo_stack s; canvas := canvas s;
     heap := heap s; errors := errors s |}.

Definition set_widgets (l : list ref) (s : GUIBuilder) : GUIBuilder :=
  {| active_widget := active_widget s; widgets := l;
     current_file := current_file s; undo_stack := undo_stack s;
     redo_stack := redo_stack s; canvas := canvas s; heap := heap s;
     errors := errors s |}.

Definition set_current_file (f : option string) (s : GUIBuilder) : GUIBuilder :=
  {| active_widget := active_widget s; widgets := widgets s; current_file := f;
     undo_stack := undo_stack s; redo_stack := redo_stack s; canvas := canvas s;
     heap := heap s; errors := errors s |}.

Definition set_undo_stack (l : list action) (s : GUIBuilder) : GUIBuilder :=
  {| active_widget := active_widget s; widgets := widgets s;
     current_file := current_file s; undo_stack := l;
     redo_stack := redo_stack s; canvas := canvas s; heap := heap s;
     errors := errors s |}.

Definition set_redo_stack (l : list action) (s : GUIBuilder) : GUIBuilder :=
  {| active_widget := active_widget s; widgets := widgets s;
     current_file := current_file s; undo_stack := undo_stack s;
     redo_stack := l; canvas := canvas s; heap := heap s; errors := errors s |}.

Definition set_canvas (c : Canvas) (s : GUIBuilder) : GUIBuilder :=
  {| active_widget := active_widget s; widgets := widgets s;
     current_file := current_file s; undo_stack := undo_stack s;
     redo_stack := redo_stack s; canvas := c; heap := heap s;
     errors := errors s |}.

Definition set_heap (h : list DraggableWidget) (s : GUIBuilder) : GUIBuilder :=
  {| active_widget := active_widget s; widgets := widgets s;
     current_file := current_file s; undo_stack := undo_stack s;
     redo_stack := redo_stack s; canvas := canvas s; heap := h;
     errors := errors s |}.

(** [messagebox.showerror] and [logging.error]: the message is kept, the
    text of the exception is not. *)
Definition show_error (msg : string) (s : GUIBuilder) : GUIBuilder :=
  {| active_widget := active_widget s; widgets := widgets s;
     current_file := current_file s; undo_stack := undo_stack s;
     redo_stack := redo_stack s; canvas := canvas s; heap := heap s;
     errors := errors s ++ [msg] |}.

Definition on_canvas (f : Canvas -> Canvas) (s : GUIBuilder) : GUIBuilder :=
  set_canvas (f (canvas s)) s.

Definition update_dw (dw : ref) (f : DraggableWidget -> DraggableWidget)
  (s : GUIBuilder) : GUIBuilder :=
  set_heap (alter f dw (heap s)) s.

(** [GUIBuilder.__init__]: an empty document on an empty canvas. *)
Definition init : GUIBuilder :=
  {| active_widget := None; widgets := []; current_file := None;
     undo_stack := []; redo_stack := [];
     canvas := {| items := []; next_item := 1 |}; heap := []; errors := [] |}.

(** Handlers that can raise: the state reached, with [Ok] or the exception
    that left the handler. *)
Definition M (A : Type) : Type := GUIBuilder -> result A * GUIBuilder.

Definition ret {A} (a : A) : M A := fun s => (Ok a, s).

Definition raise {A} (e : exn) : M A := fun s => (Raise e, s).

Definition bind {A B} (m : M A) (k : A -> M B) : M B :=
  fun s => match m s with
           | (Ok a, s') => k a s'
           | (Raise e, s') => (Raise e, s')
           end.

Definition lift (f : GUIBuilder -> GUIBuilder) : M unit :=
  fun s => (Ok tt, f s).

Notation "'let*' x := m 'in' k" := (bind m (fun x => k))
  (at level 10, x name, m at level 100, k at level 200, only parsing).
Notation "m ;;; k" := (bind m (fun _ => k))
  (at level 100, k at level 200, right associativity, only parsing).

(** [for v in l: body v], stopping at the first exception. *)
Fixpoint for_each {A} (l : list A) (body : A -> M unit) : M unit :=
  match l with
  | [] => ret tt
  | v :: l' => body v ;;; for_each l' body
  end.

(** The state a handler leaves behind, whether or not it raised: Tk's event
    loop reports the exception and goes on. *)
Definition run {A} (m : M A) (s : GUIBuilder) : GUIBuilder := snd (m s).

(** [l.pop()] on a non-empty list: the last element and the rest. *)
Definition pop {A} (l : list A) : option (A * list A) :=
  match reverse l with
  | [] => None
  | a :: r => Some (a, reverse r)
  end.

(** [l.remove(v)]: drops the first occurrence, [None] for [ValueError]. *)
Fixpoint list_remove (v : ref) (l : list ref) : option (list ref) :=
  match l with
  | [] => None
  | v' :: l' =>
      if decide (v = v') then Some l' else cons v' <$> list_remove v l'
  end.

(** ** GUIBuilder.push_undo *)

Definition push_undo (a : action) (s : GUIBuilder) : GUIBuilder :=
  set_redo_stack [] (set_undo_stack (undo_stack s ++ [a]) s).

(** ** DraggableWidget

    A method on an object takes the reference [self]; the branch for a
    reference outside the store is never taken by the program and leaves the
    state alone. *)

Definition update_appearance (self : ref) (s : GUIBuilder) : GUIBuilder :=
  match heap s !! self with
  | Some w =>
      on_canvas (itemconfig_width (dw_id w) (if selected w then 2 else 1)) s
  | None => s
  end.

(** The attributes [__init__] assigns; [start_x] and [start_y] do not exist
    before the first press. *)
Definition fresh_dw (t : TkWidget) (wtype : string) (x y : Z) (i : nat)
  : DraggableWidget :=
  {| widget := t; widget_type := wtype; dw_x := x; dw_y := y;
     properties := []; selected := false;
     original_x := x; original_y := y; dw_id := i;
     start_x := None; start_y := None |}.

(** [DraggableWidget.__init__]: the canvas window tagged ["widget"], then the
    object with [selected = False] and the creation point as
    [original_x], [original_y]. *)
Definition new_draggable (t : TkWidget) (wtype : string) (x y : Z)
  (s : GUIBuilder) : ref * GUIBuilder :=
  let self := length (heap s) in
  let '(i, c) := create_window x y self true (canvas s) in
  let w := fresh_dw t wtype x y i in
  (self, update_appearance self (set_heap (heap s ++ [w]) (set_canvas c s))).

(** [select]: the loop resets the outline width of every canvas item tagged
    ["widget"]; the only [selected] attribute written is [self]'s. *)
Definition select (self : ref) (s : GUIBuilder) : GUIBuilder :=
  let s := on_canvas (fun c =>
             fold_left (fun c item => itemconfig_width item 1 c)
                       (find_withtag_widget c) c) s in
  let s := update_dw self (set_selected true) s in
  let s := update_appearance self s in
  match heap s !! self with
  | Some w => on_canvas (tag_raise (dw_id w)) s
  | None => s
  end.

Definition deselect (self : ref) (s : GUIBuilder) : GUIBuilder :=
  update_appearance self (update_dw self (set_selected false) s).

Definition on_start (self : ref) (event_x event_y : Z) (s : GUIBuilder)
  : GUIBuilder :=
  let s := update_dw self (fun w =>
             set_original (dw_x w) (dw_y w) (set_start event_x event_y w)) s in
  select self s.

Definition on_drag (self : ref) (event_x event_y : Z) : M unit := fun s =>
  match heap s !! self with
  | Some w =>
      match start_x w, start_y w with
      | Some sx, Some sy =>
          let dx := event_x - sx in
          let dy := event_y - sy in
          let new_x := snap (dw_x w + dx) in
          let new_y := snap (dw_y w + dy) in
          let dx := new_x - dw_x w in
          let dy := new_y - dw_y w in
          if negb (dx =? 0) || negb (dy =? 0) then
            (Ok tt,
             update_dw self (fun w => set_y new_y (set_x new_x w))
               (on_canvas (canvas_move (dw_id w) dx dy) s))
          else (Ok tt, s)
      | _, _ => (Raise AttributeError, s)
      end
  | None => (Ok tt, s)
  end.

Definition on_release (self : ref) (s : GUIBuilder) : GUIBuilder :=
  let s := update_appearance self s in
  match heap s !! self with
  | Some w =>
      if bool_decide ((dw_x w, dw_y w) ≠ (original_x w, original_y w)) then
        push_undo (Move self (original_x w) (original_y w)) s
      else s
  | None => s
  end.

(** [self.canvas.delete(dw.id); dw.widget.destroy()]: the body of
    [DraggableWidget.delete], repeated in [clear_canvas], [delete_selected],
    [undo] and [redo]. *)
Definition delete_item_and_destroy (dw : ref) (s : GUIBuilder) : GUIBuilder :=
  match heap s !! dw with
  | Some w =>
      update_dw dw (fun w => set_widget (destroy (widget w)) w)
        (on_canvas (canvas_delete (dw_id w)) s)
  | None => s
  end.

Definition bring_to_front (self : ref) (s : GUIBuilder) : GUIBuilder :=
  match heap s !! self with
  | Some w => on_canvas (tag_raise (dw_id w)) s
  | None => s
  end.

Definition send_to_back (self : ref) (s : GUIBuilder) : GUIBuilder :=
  match heap s !! self with
  | Some w => on_canvas (tag_lower (dw_id w)) s
  | None => s
  end.

(** ** GUIBuilder: placing, clearing, deleting *)

Definition select_widget (wtype : string) (s : GUIBuilder) : GUIBuilder :=
  set_active_widget (Some wtype) s.

(** Python's truth value of [self.active_widget]: [None] and the empty
    string are false. *)
Definition truthy (a : option string) : bool :=
  match a with
  | Some v => negb (bool_decide (v = ""))
  | None => false
  end.

Definition place_widget (x y : Z) (s : GUIBuilder) : GUIBuilder :=
  match active_widget s with
  | Some wtype =>
      if truthy (Some wtype) then
        let x := snap x in
        let y := snap y in
        match make_widget wtype with
        | Some t =>
            let '(dw, s) := new_draggable t wtype x y s in
            let s := set_widgets (widgets s ++ [dw]) s in
            let s := push_undo (Create dw) s in
            set_active_widget None s
        | None => s
        end
      else s
  | None => s
  end.

Definition canvas_click (event_x event_y : Z) (clicked : option nat)
  (s : GUIBuilder) : GUIBuilder :=
  if truthy (active_widget s) then place_widget event_x event_y s
  else
    match clicked with
    | Some i =>
        match list_find (fun it => item_id it = i) (items (canvas s)) with
        | Some (_, it) =>
            if item_tagged it then
              match list_find (fun dw => dw_id <$> heap s !! dw = Some i)
                              (widgets s) with
              | Some (_, dw) => select dw s
              | None => s
              end
            else s
        | None => s
        end
    | None => s
    end.

Definition clear_canvas (s : GUIBuilder) : GUIBuilder :=
  let s := fold_left (fun s dw => delete_item_and_destroy dw s) (widgets s) s in
  set_redo_stack [] (set_undo_stack [] (set_widgets [] s)).

(** [answer] is what the user replies to "Current project will be lost";
    the question is asked only when the document has widgets. *)
Definition new_project (answer : bool) (s : GUIBuilder) : GUIBuilder :=
  if negb (bool_decide (widgets s = [])) && negb answer then s
  else set_current_file None (clear_canvas s).

Definition widgets_remove (dw : ref) : M unit := fun s =>
  match list_remove dw (widgets s) with
  | Some l => (Ok tt, set_widgets l s)
  | None => (Raise ValueError, s)
  end.

Definition delete_selected : M unit := fun s =>
  let chosen :=
    filter (fun dw => selected <$> heap s !! dw = Some true) (widgets s) in
  for_each chosen (fun dw =>
    lift (push_undo (Delete dw)) ;;;
    lift (delete_item_and_destroy dw) ;;;
    widgets_remove dw) s.

(** ** GUIBuilder: undo and redo *)

(** [dw.id = self.canvas.create_window(dw.x, dw.y, window=dw.widget)]: Tk
    refuses a destroyed window, and then [dw.id] keeps its old value. *)
Definition recreate_window (dw : ref) : M unit := fun s =>
  match heap s !! dw with
  | Some w =>
      if tk_alive (widget w) then
        let '(i, c) := create_window (dw_x w) (dw_y w) dw false (canvas s) in
        (Ok tt, update_dw dw (set_id i) (set_canvas c s))
      else (Raise TclError, on_canvas create_window_failed s)
  | None => (Ok tt, s)
  end.

Definition undo : M unit := fun s =>
  match pop (undo_stack s) with
  | None => (Ok tt, s)
  | Some (a, rest) =>
      let s := set_undo_stack rest s in
      let s := set_redo_stack (redo_stack s ++ [a]) s in
      match a with
      | Create dw =>
          (lift (delete_item_and_destroy dw) ;;; widgets_remove dw) s
      | Delete dw =>
          (lift (fun s => set_widgets (widgets s ++ [dw]) s) ;;;
           recreate_window dw) s
      | Move dw old_x old_y =>
          match heap s !! dw with
          | Some w =>
              let dx := old_x - dw_x w in
              let dy := old_y - dw_y w in
              (Ok tt,
               update_dw dw (fun w => set_y old_y (set_x old_x w))
                 (on_canvas (canvas_move (dw_id w) dx dy) s))
          | None => (Ok tt, s)
          end
      end
  end.

Definition redo : M unit := fun s =>
  match pop (redo_stack s) with
  | None => (Ok tt, s)
  | Some (a, rest) =>
      let s := set_redo_stack rest s in
      let s := set_undo_stack (undo_stack s ++ [a]) s in
      match a with
      | Create dw =>
          (lift (fun s => set_widgets (widgets s ++ [dw]) s) ;;;
           recreate_window dw) s
      | Delete dw =>
          (lift (delete_item_and_destroy dw) ;;; widgets_remove dw) s
      | Move dw old_x old_y =>
          match heap s !! dw with
          | Some w =>
              let dx := dw_x w - old_x in
              let dy := dw_y w - old_y in
              (Ok tt,
               update_dw dw (fun w => set_y old_y (set_x old_x w))
                 (on_canvas (canvas_move (dw_id w) dx dy) s))
          | None => (Ok tt, s)
          end
      end
  end.

(** ** PropertyEditor.update_property *)

Definition digit_of (c : ascii) : option Z :=
  let n := Z.of_nat (nat_of_ascii c) in
  if (48 <=? n) && (n <=? 57) then Some (n - 48) else None.

Fixpoint digits (s : string) (acc : Z) : option Z :=
  match s with
  | EmptyString => Some acc
  | String c s' =>
      match digit_of c with
      | Some d => digits s' (10 * acc + d)
      | None => None
      end
  end.

(** [int(s)] on an optional sign and decimal digits; [None] is
    [ValueError].  Python also accepts blanks around the number and
    underscores between digits; such strings count as ill-formed here. *)
Definition py_int (s : string) : option Z :=
  match s with
  | EmptyString => None
  | String c s' =>
      if decide (c = "-"%char) then
        if decide (s' = "") then None else Z.opp <$> digits s' 0
      else if decide (c = "+"%char) then
        if decide (s' = "") then None else digits s' 0
      else digits s 0
  end.

Section Documents.
Context (tk : Toolkit).

(** [row] is the property name of the row selected in the editor's tree
    ([None]: nothing selected), [new_value] the text of the entry field.
    Every exception of the body is caught and shown. *)
Definition update_property (dw : ref) (row : option string)
  (new_value : string) (s : GUIBuilder) : GUIBuilder :=
  match row, heap s !! dw with
  | Some prop, Some w =>
      if decide (prop = "x") then
        match py_int new_value with
        | Some v =>
            let dx := v - dw_x w in
            update_dw dw (set_x v) (on_canvas (canvas_move (dw_id w) dx 0) s)
        | None => show_error "Failed to update property" s
        end
      else if decide (prop = "y") then
        match py_int new_value with
        | Some v =>
            let dy := v - dw_y w in
            update_dw dw (set_y v) (on_canvas (canvas_move (dw_id w) 0 dy) s)
        | None => show_error "Failed to update property" s
        end
      else
        match config tk (widget w) prop new_value with
        | Ok t => update_dw dw (set_widget t) s
        | Raise _ => show_error "Failed to update property" s
        end
  | _, _ => s
  end.

(** ** The persisted document *)

(** One element of the ["widgets"] array.  [type], [x] and [y] are read
    with [widget_data[...]], [properties] with [.get('properties', {})]. *)
Record WidgetData := {
  wd_type : string;
  wd_x : Z;
  wd_y : Z;
  wd_properties : option (list (string * string))
}.

Record LayoutFile := {
  version : string;
  file_widgets : list WidgetData
}.

Definition VERSION : string := "0.0.1".

(** [dw.widget.config({prop: value})] inside [try ... except: pass]. *)
Definition try_config (prop value : string) (w : DraggableWidget)
  : DraggableWidget :=
  match config tk (widget w) prop value with
  | Ok t => set_widget t w
  | Raise _ => w
  end.

Definition load_widget (widget_data : WidgetData) (s : GUIBuilder)
  : GUIBuilder :=
  let s := set_active_widget (Some (wd_type widget_data)) s in
  let s := place_widget (wd_x widget_data) (wd_y widget_data) s in
  match last (widgets s) with
  | Some dw =>
      fold_left (fun s pv => update_dw dw (try_config pv.1 pv.2) s)
                (default [] (wd_properties widget_data)) s
  | None => s
  end.

(** [choice] is the file dialog's answer: [None] when it is dismissed,
    otherwise the path with what [json.load] returned ([None] when opening
    or parsing raised). *)
Definition open_project (choice : option (string * option LayoutFile))
  (s : GUIBuilder) : GUIBuilder :=
  match choice with
  | None => s
  | Some (file_path, None) => show_error "Failed to open file" s
  | Some (file_path, Some data) =>
      let s := clear_canvas s in
      let s := set_current_file (Some file_path) s in
      fold_left (fun s widget_data => load_widget widget_data s)
                (file_widgets data) s
  end.

Definition widget_record (w : DraggableWidget) : result WidgetData :=
  let? text := cget_or tk (widget w) "text" "" in
  let? width := cget_or tk (widget w) "width" "" in
  let? height := cget_or tk (widget w) "height" "" in
  let? bg := cget_or tk (widget w) "bg" "" in
  let? fg := cget_or tk (widget w) "fg" "" in
  Ok {| wd_type := widget_type w; wd_x := dw_x w; wd_y := dw_y w;
        wd_properties :=
          Some [("text", text); ("width", width); ("height", height);
                ("background", bg); ("foreground", fg)] |}.

Fixpoint widget_records (h : list DraggableWidget) (l : list ref)
  : result (list WidgetData) :=
  match l with
  | [] => Ok []
  | dw :: l' =>
      match h !! dw with
      | Some w =>
          let? r := widget_record w in
          let? rs := widget_records h l' in
          Ok (r :: rs)
      | None => Raise AttributeError
      end
  end.

(** The [data] dictionary that [_save_to_file] hands to [json.dump]. *)
Definition save_data (s : GUIBuilder) : result LayoutFile :=
  let? rs := widget_records (heap s) (widgets s) in
  Ok {| version := VERSION; file_widgets := rs |}.

(** The file written, if any, and the state afterwards. *)
Definition _save_to_file (file_path : string) (s : GUIBuilder)
  : option (string * LayoutFile) * GUIBuilder :=
  match save_data s with
  | Ok data => (Some (file_path, data), s)
  | Raise _ => (None, show_error "Failed to save file" s)
  end.

(** ** generate_python_code *)

Definition nl : string := String (ascii_of_nat 10) "".

Definition widget_code (i : nat) (w : DraggableWidget) : result (list string) :=
  let var_name := "widget_" +:+ pretty i in
  let? construction :=
    if decide (widget_type w = "Button") then
      let? text := cget_or tk (widget w) "text" "Button" in
      Ok ["    " +:+ var_name +:+ " = ttk.Button(root, text='" +:+ text +:+ "')"]
    else if decide (widget_type w = "Label") then
      let? text := cget_or tk (widget w) "text" "Label" in
      Ok ["    " +:+ var_name +:+ " = ttk.Label(root, text='" +:+ text +:+ "')"]
    else if decide (widget_type w = "Entry") then
      Ok ["    " +:+ var_name +:+ " = ttk.Entry(root)"]
    else Ok [] in
  Ok (construction ++
      ["    " +:+ var_name +:+ ".place(x=" +:+ pretty (dw_x w) +:+
         ", y=" +:+ pretty (dw_y w) +:+ ")";
       ""]).

Fixpoint widgets_code (h : list DraggableWidget) (i : nat) (l : list ref)
  : result (list string) :=
  match l with
  | [] => Ok []
  | dw :: l' =>
      match h !! dw with
      | Some w =>
          let? c := widget_code i w in
          let? cs := widgets_code h (S i) l' in
          Ok (c ++ cs)
      | None => Raise AttributeError
      end
  end.

Definition code_lines (s : GUIBuilder) : result (list string) :=
  let? body := widgets_code (heap s) 0 (widgets s) in
  Ok (["import tkinter as tk";
       "from tkinter import ttk";
       "";
       "def create_gui():";
       "    root = tk.Tk()";
       "    root.title('Generated GUI')";
       ""] ++ body ++
      ["    root.mainloop()";
       "";
       "if __name__ == '__main__':";
       "    create_gui()"]).

Definition generate_python_code (s : GUIBuilder) : result string :=
  let? code := code_lines s in
  Ok (String.concat nl code).

(** ** The events of the view layer *)

Inductive event :=
  | ToolboxButton (wtype : string)
  | CanvasClick (event_x event_y : Z) (clicked : option nat)
  | ButtonPress (dw : ref) (event_x event_y : Z)
  | Motion (dw : ref) (event_x event_y : Z)
  | ButtonRelease (dw : ref)
  | ContextMenu (dw : ref)
  | MenuDelete (dw : ref)
  | MenuBringToFront (dw : ref)
  | MenuSendToBack (dw : ref)
  | EditProperty (dw : ref) (row : option string) (new_value : string)
  | MenuNew (answer : bool)
  | MenuOpen (choice : option (string * option LayoutFile))
  | MenuSaveAs (file_path : string)
  | MenuDeleteSelected
  | MenuUndo
  | MenuRedo.

Definition handle (e : event) (s : GUIBuilder) : GUIBuilder :=
  match e with
  | ToolboxButton wtype => select_widget wtype s
  | CanvasClick ex ey clicked => canvas_click ex ey clicked s
  | ButtonPress dw ex ey => on_start dw ex ey s
  | Motion dw ex ey => run (on_drag dw ex ey) s
  | ButtonRelease dw => on_release dw s
  | ContextMenu dw => select dw s
  | MenuDelete dw => delete_item_and_destroy dw s
  | MenuBringToFront dw => bring_to_front dw s
  | MenuSendToBack dw => send_to_back dw s
  | EditProperty dw row new_value => update_property dw row new_value s
  | MenuNew answer => new_project answer s
  | MenuOpen choice => open_project choice s
  | MenuSaveAs file_path =>
      set_current_file (Some file_path) (_save_to_file file_path s).2
  | MenuDeleteSelected => run delete_selected s
  | MenuUndo => run undo s
  | MenuRedo => run redo s
  end.


(** A whole drag gesture on [dw]: press, the pointer motions, release. *)
Definition drag_session (dw : ref) (press : Z * Z) (moves : list (Z * Z))
  (s : GUIBuilder) : GUIBuilder :=
  let s := on_start dw press.1 press.2 s in
  let s := fold_left (fun s m => run (on_drag dw m.1 m.2) s) moves s in
  on_release dw s.
End Documents.

(** ** A toolkit instance

    Tk 8.6's option table cut down to the option names this program reads
    or writes, for running the model on concrete documents.  [bg] and [fg]
    are the classic widgets' synonyms of [background] and [foreground]; the
    themed widgets do not have them.  Defaults are left empty and every
    value is accepted. *)
Definition tk86 : Toolkit :=
  {| tk_keys := fun class =>
       if decide (class = "ttk.Button") then ["text"; "width"; "command"]
       else if decide (class = "ttk.Label") then
         ["text"; "width"; "background"; "foreground"]
       else if decide (class = "ttk.Entry") then
         ["width"; "show"; "background"; "foreground"]
       else if decide (class = "tk.Text") then
         ["width"; "height"; "background"; "bg"; "foreground"; "fg"; "wrap"]
       else if decide (class = "ttk.Checkbutton") then
         ["text"; "width"; "command"]
       else if decide (class = "ttk.Radiobutton") then
         ["text"; "width"; "command"]
       else if decide (class = "ttk.Scale") then ["from"; "to"; "command"]
       else if decide (class = "tk.Listbox") then
         ["width"; "height"; "background"; "bg"; "foreground"; "fg"]
       else if decide (class = "ttk.Scrollbar") then ["command"]
       else if decide (class = "ttk.Frame") then ["width"; "height"; "relief"]
       else if decide (class = "ttk.LabelFrame") then
         ["text"; "width"; "height"]
       else if decide (class = "ttk.Combobox") then
         ["width"; "height"; "values"; "background"; "foreground"]
       else if decide (class = "ttk.Progressbar") then
         ["length"; "mode"; "value"]
       else [];
     tk_canon := fun opt =>
       if decide (opt = "bg") then "background"
       else if decide (opt = "fg") then "foreground"
       else opt;
     tk_default := fun _ _ => "";
     tk_accepts := fun _ _ _ => true |}.

(** ** What is observed of a document *)

(** Type and position of the widgets, in the order of [widgets]. *)
Definition summary (w : DraggableWidget) : string * Z * Z :=
  (widget_type w, dw_x w, dw_y w).

Definition layout (s : GUIBuilder) : list (option (string * Z * Z)) :=
  (fun dw => summary <$> heap s !! dw) <$> widgets s.

Definition position (dw : ref) (s : GUIBuilder) : option (Z * Z) :=
  (fun w => (dw_x w, dw_y w)) <$> heap s !! dw.

Definition is_selected (dw : ref) (s : GUIBuilder) : option bool :=
  selected <$> heap s !! dw.

(** What [dw.widget.cget(opt)] answers. *)
Definition property (tk : Toolkit) (dw : ref) (opt : string) (s : GUIBuilder)
  : option (result string) :=
  (fun w => cget tk (widget w) opt) <$> heap s !! dw.

(** Every reference of the document denotes an object. *)
Definition wf (s : GUIBuilder) : Prop :=
  Forall (fun dw => (dw < length (heap s))%nat) (widgets s).

(** [w'] is [w] with its Tk widget reconfigured: the same object, alive or
    destroyed as before. *)
Definition reconfigured (w w' : DraggableWidget) : Prop :=
  w' = set_widget (widget w') w /\ tk_alive (widget w') = tk_alive (widget w).

(** The properties of a file entry applied in order, the refused ones
    skipped: what the loop of [load_widget] does to the object. *)
Definition apply_options (tk : Toolkit) (props : list (string * string))
  (w : DraggableWidget) : DraggableWidget :=
  fold_left (fun w pv => try_config tk pv.1 pv.2 w) props w.

(** The entries of a file that [place_widget] has a constructor for, as the
    document shows them once loaded. *)
Definition loaded_entry (wd : WidgetData) : option (string * Z * Z) :=
  Some (wd_type wd, snap (wd_x wd), snap (wd_y wd)).

Definition expected_layout (data : list WidgetData)
  : list (option (string * Z * Z)) :=
  loaded_entry <$> filter (fun wd => wd_type wd ∈ SUPPORTED_WIDGETS) data.

(** Both coordinates, and the recorded start of the last gesture, lie on
    the grid. *)
Definition on_grid (w : DraggableWidget) : Prop :=
  aligned (dw_x w) /\ aligned (dw_y w) /\
  aligned (original_x w) /\ aligned (original_y w).

Definition action_on_grid (a : action) : Prop :=
  match a with
  | Move _ old_x old_y => aligned old_x /\ aligned old_y
  | _ => True
  end.

Definition snapped (s : GUIBuilder) : Prop :=
  Forall on_grid (heap s) /\
  Forall action_on_grid (undo_stack s) /\
  Forall action_on_grid (redo_stack s).


(** The property names [_save_to_file] writes for every widget. *)
Definition saved_keys : list string :=
  ["text"; "width"; "height"; "background"; "foreground"].

(** States reached from the empty document by the events [allowed]. *)
Inductive reachable (tk : Toolkit) (allowed : event -> bool) : GUIBuilder -> Prop :=
  | reachable_init : reachable tk allowed init
  | reachable_step s e :
      reachable tk allowed s -> allowed e = true ->
      reachable tk allowed (handle tk e s).

(** ** The documents of the scenarios *)

(** A button placed with a click at (23, 57), as in the specification's
    scenario; it is object 0 and sits at (20, 60). *)
Definition button_placed : GUIBuilder :=
  place_widget 23 57 (select_widget "Button" init).

Definition button0 : DraggableWidget :=
  {| widget := tk_new "ttk.Button" [("text", "Button")];
     widget_type := "Button"; dw_x := 20; dw_y := 60; properties := [];
     selected := false; original_x := 20; original_y := 60; dw_id := 1;
     start_x := None; start_y := None |}.

(** The button held by the pointer after motions of (+5, +3) and then
    (+40, +0), before the release. *)
Definition button_held : GUIBuilder :=
  run (on_drag 0 45 3) (run (on_drag 0 5 3) (on_start 0 0 0 button_placed)).

Definition button_held0 : DraggableWidget :=
  {| widget := tk_new "ttk.Button" [("text", "Button")];
     widget_type := "Button"; dw_x := 60; dw_y := 60; properties := [];
     selected := true; original_x := 20; original_y := 60; dw_id := 1;
     start_x := Some 0; start_y := Some 0 |}.

(** The button and a label at (100, 100), the button selected. *)
Definition button_and_label : GUIBuilder :=
  select 0 (place_widget 100 100 (select_widget "Label" button_placed)).

(** A text widget alone in the document. *)
Definition text_placed : GUIBuilder :=
  place_widget 23 57 (select_widget "Text" init).

Definition text0 : DraggableWidget :=
  {| widget := tk_new "tk.Text" [("width", "30"); ("height", "5")];
     widget_type := "Text"; dw_x := 20; dw_y := 60; properties := [];
     selected := false; original_x := 20; original_y := 60; dw_id := 1;
     start_x := None; start_y := None |}.

(** The button relabelled ["OK"] in the property editor and selected. *)
Definition button_edited : GUIBuilder :=
  select 0 (update_property tk86 0 (Some "text") "OK" button_placed).

(** The button moved to x = 7 in the property editor. *)
Definition button_off_grid : GUIBuilder :=
  update_property tk86 0 (Some "x") "7" button_placed.


Definition one_button_file : LayoutFile :=
  {| version := VERSION;
     file_widgets :=
       [{| wd_type := "Button"; wd_x := 40; wd_y := 40;
           wd_properties := Some [("text", "Go")] |}] |}.



(** The label and the button after the selected button is deleted and the
    deletion undone. *)
Definition button_restored : GUIBuilder :=
  run undo (run delete_selected button_and_label).



(** What [button_off_grid] is saved as. *)
Definition off_grid_file : LayoutFile :=
  {| version := VERSION;
     file_widgets :=
       [{| wd_type := "Button"; wd_x := 7; wd_y := 60;
           wd_properties :=
             Some [("text", "Button"); ("width", ""); ("height", "");
                   ("background", ""); ("foreground", "")] |}] |}.

(** ** Auxiliary notions for the further properties *)

(** [l.remove(dw)] for each [dw] of [chosen] in turn. *)
Fixpoint remove_each (chosen : list ref) (l : list ref) : option (list ref) :=
  match chosen with
  | [] => Some l
  | dw :: chosen' => list_remove dw l ≫= remove_each chosen'
  end.

(** The widgets [delete_selected] picks: those whose [selected] attribute
    is true. *)
Definition chosen_for_deletion (s : GUIBuilder) : list ref :=
  filter (fun dw => selected <$> heap s !! dw = Some true) (widgets s).

(** The Tk widget of object [dw] has been destroyed. *)
Definition destroyed (dw : ref) (s : GUIBuilder) : Prop :=
  (tk_alive ∘ widget) <$> heap s !! dw = Some false.

(** [w'] is a later state of the object [w]: the same type, still selected
    if it was, still destroyed if it was. *)
Definition later_object (w w' : DraggableWidget) : Prop :=
  widget_type w' = widget_type w /\
  (selected w = true -> selected w' = true) /\
  (tk_alive (widget w) = false -> tk_alive (widget w') = false).

(** Every object of [s] is still there in [s'], as a later state of itself. *)
Definition persists (s s' : GUIBuilder) : Prop :=
  forall dw w, heap s !! dw = Some w ->
    exists w', heap s' !! dw = Some w' /\ later_object w w'.

(** A step that leaves both stacks alone. *)
Definition quiet (s s' : GUIBuilder) : Prop :=
  persists s s' /\
  undo_stack s' = undo_stack s /\ redo_stack s' = redo_stack s.

(** What the stacks say about the objects they name: a creation waiting to
    be undone names an object of the store; a deletion on either stack and
    a creation waiting to be redone name an object whose Tk widget has been
    destroyed. *)
Definition undoable (s : GUIBuilder) (a : action) : Prop :=
  match a with
  | Create dw => is_Some (heap s !! dw)
  | Delete dw => destroyed dw s
  | Move _ _ _ => True
  end.

Definition redoable (s : GUIBuilder) (a : action) : Prop :=
  match a with
  | Create dw => destroyed dw s
  | Delete dw => destroyed dw s
  | Move _ _ _ => True
  end.

Definition history_sound (s : GUIBuilder) : Prop :=
  Forall (undoable s) (undo_stack s) /\ Forall (redoable s) (redo_stack s).

(** Reached through the view layer: the button placed, selected from its
    context menu and deleted; and the button placed and its placement
    undone. *)
Definition button_deleted : GUIBuilder :=
  handle tk86 MenuDeleteSelected
    (handle tk86 (ContextMenu 0)
      (handle tk86 (CanvasClick 23 57 None)
        (handle tk86 (ToolboxButton "Button") init))).

Definition button_unplaced : GUIBuilder :=
  handle tk86 MenuUndo
    (handle tk86 (CanvasClick 23 57 None)
      (handle tk86 (ToolboxButton "Button") init)).

(** What a file entry says of type and position. *)
Definition entry_summary (wd : WidgetData) : string * Z * Z :=
  (wd_type wd, wd_x wd, wd_y wd).

(** A label whose background was set to red. *)
Definition red_label : DraggableWidget :=
  {| widget := tk_new "ttk.Label" [("text", "Label"); ("background", "red")];
     widget_type := "Label"; dw_x := 100; dw_y := 100; properties := [];
     selected := false; original_x := 100; original_y := 100; dw_id := 2;
     start_x := None; start_y := None |}.

Definition red_label_record : WidgetData :=
  {| wd_type := "Label"; wd_x := 100; wd_y := 100;
     wd_properties :=
       Some [("text", "Label"); ("width", ""); ("height", "");
             ("background", ""); ("foreground", "")] |}.

(** ** PropertyEditor: filling the tree, the colour and font buttons *)

Section Editor.
Context (tk : Toolkit).

(** The rows [load_properties] puts in the tree, in order.  Every [cget] is
    made, since a Tk widget always has the method; an option the class does
    not have raises and the tree stays empty. *)
Definition load_properties (w : DraggableWidget)
  : result (list (string * string)) :=
  let? text := cget tk (widget w) "text" in
  let? background := cget tk (widget w) "bg" in
  let? foreground := cget tk (widget w) "fg" in
  let? width := cget tk (widget w) "width" in
  let? height := cget tk (widget w) "height" in
  let common :=
    [("text", text); ("background", background); ("foreground", foreground);
     ("width", width); ("height", height);
     ("x", pretty (dw_x w)); ("y", pretty (dw_y w))] in
  if decide (widget_type w = "Button") then Ok (common ++ [("command", "")])
  else if decide (widget_type w = "Entry") then
    let? show := cget tk (widget w) "show" in
    Ok (common ++ [("show", show)])
  else if decide (widget_type w = "Text") then
    let? wrap := cget tk (widget w) "wrap" in
    Ok (common ++ [("wrap", wrap)])
  else Ok common.


End Editor.

(** The options [load_properties] reads from a widget. *)
Definition editor_options (w : DraggableWidget) : list string :=
  ["text"; "bg"; "fg"; "width"; "height"] ++
  (if decide (widget_type w = "Button") then []
   else if decide (widget_type w = "Entry") then ["show"]
   else if decide (widget_type w = "Text") then ["wrap"]
   else []).



(** A canvas item with its [width] option set. *)
Definition with_width (width : Z) (it : CanvasItem) : CanvasItem :=
  {| item_id := item_id it; item_x := item_x it; item_y := item_y it;
     item_window := item_window it; item_width := width;
     item_tagged := item_tagged it |}.

(** ** The grid *)

(** [range(0, stop, step)] for a positive [step]. *)
Definition py_range0 (stop step : Z) : list Z :=
  (fun k => Z.of_nat k * step) <$> seq 0 (Z.to_nat ((stop + step - 1) / step)).

(** The grid of the canvas: whether it is shown, and the end points
    (x0, y0, x1, y1) of the lines tagged ["grid_line"]. *)
Record Grid := {
  grid_visible : bool;
  grid_lines : list (Z * Z * Z * Z)
}.

(** [width] and [height] are what [winfo_width] and [winfo_height] answer. *)
Definition draw_grid (width height : Z) (g : Grid) : Grid :=
  if negb (grid_visible g) then g
  else
    {| grid_visible := true;
       grid_lines :=
         ((fun x => (x, 0, x, height)) <$> py_range0 width GRID_SIZE) ++
         ((fun y => (0, y, width, y)) <$> py_range0 height GRID_SIZE) |}.

Definition show_grid (width height : Z) (g : Grid) : Grid :=
  draw_grid width height {| grid_visible := true; grid_lines := grid_lines g |}.

(** ** Saving under a name, exporting *)

Section Files.
Context (tk : Toolkit).

(** [choice] is the file dialog's answer, [None] when it is dismissed. *)
Definition save_project_as (choice : option string) (s : GUIBuilder)
  : option (string * LayoutFile) * GUIBuilder :=
  match choice with
  | Some file_path =>
      if truthy (Some file_path) then
        let '(written, s) := _save_to_file tk file_path s in
        (written, set_current_file (Some file_path) s)
      else (None, s)
  | None => (None, s)
  end.

Definition save_project (choice : option string) (s : GUIBuilder)
  : option (string * LayoutFile) * GUIBuilder :=
  match current_file s with
  | Some file_path =>
      if truthy (Some file_path) then _save_to_file tk file_path s
      else save_project_as choice s
  | None => save_project_as choice s
  end.

(** [fs] maps a path to the text of the file there.  [can_open] says
    whether [open(file_path, 'w')] succeeds; when it does the file is
    created or emptied at once, before the code is generated. *)
Definition export_python (choice : option string) (can_open : bool)
  (fs : gmap string string) (s : GUIBuilder) : gmap string string * GUIBuilder :=
  match choice with
  | Some file_path =>
      if truthy (Some file_path) then
        if can_open then
          let fs := <[file_path := ""]> fs in
          match generate_python_code tk s with
          | Ok code => (<[file_path := code]> fs, s)
          | Raise _ => (fs, show_error "Failed to export code" s)
          end
        else (fs, show_error "Failed to export code" s)
      else (fs, s)
  | None => (fs, s)
  end.
End Files.

(** The placement statement of widget number [i]. *)
Definition placement_line (i : nat) (w : DraggableWidget) : string :=
  "    " +:+ ("widget_" +:+ pretty i) +:+ ".place(x=" +:+ pretty (dw_x w)
    +:+ ", y=" +:+ pretty (dw_y w) +:+ ")".

(** A file with a button followed by an entry of unknown type that carries
    a text. *)
Definition button_then_bogus_file : LayoutFile :=
  {| version := VERSION;
     file_widgets :=
       [{| wd_type := "Button"; wd_x := 40; wd_y := 40; wd_properties := Some [] |};
        {| wd_type := "Gauge"; wd_x := 80; wd_y := 80;
           wd_properties := Some [("text", "Oops")] |}] |}.

(** An object as [place_widget] makes them: its type has a constructor, its
    Tk widget is of that constructor's class, and its [properties]
    attribute is the empty dictionary of [__init__]. *)
Definition catalogued (w : DraggableWidget) : Prop :=
  properties w = [] /\
  exists t, make_widget (widget_type w) = Some t /\
            tk_class (widget w) = tk_class t.

(** What loading does to a position. *)
Definition snapped_summary (e : string * Z * Z) : string * Z * Z :=
  (e.1.1, snap e.1.2, snap e.2).

(** * Properties *)

(** ** Grid snapping *)

Lemma py_round_div_mul (m unit : Z) :
  0 < unit -> py_round_div (m * unit) unit = m.
Proof.
  intros Hu. unfold py_round_div.
  rewrite Z.div_mul by lia. rewrite Z.mod_mul by lia.
  replace (2 * 0) with 0 by lia.
  destruct (Z.ltb_spec 0 unit); [reflexivity | lia].
Qed.

Lemma snap_aligned (v : Z) : aligned (snap v).
Proof. unfold aligned, snap. apply Z.mod_mul. discriminate. Qed.

Lemma snap_fixes_aligned (v : Z) : aligned v -> snap v = v.
Proof.
  unfold aligned, snap. intros Hv.
  rewrite (Z.div_mod v GRID_SIZE) at 1 by discriminate.
  rewrite Hv, Z.add_0_r, (Z.mul_comm GRID_SIZE).
  rewrite py_round_div_mul by reflexivity.
  rewrite (Z.div_mod v GRID_SIZE) at 2 by discriminate. lia.
Qed.

(** C9: snapping is idempotent and its result is an exact multiple of the
    grid unit. *)
Theorem snap_idempotent_multiple (v : Z) :
  snap (snap v) = snap v /\ snap v mod GRID_SIZE = 0.
Proof.
  split.
  - apply snap_fixes_aligned, snap_aligned.
  - apply snap_aligned.
Qed.

(** The rounding of ties, on the coordinates of the specification's
    scenario and on both sides of zero. *)
Example snap_values :
  (snap 23, snap 57, snap 65, snap 10, snap 30, snap (-10), snap (-30))
  = (20, 60, 60, 0, 40, 0, -40).
Proof. reflexivity. Qed.

(** ** Stacks and the store *)

Lemma pop_snoc {A} (l : list A) (a : A) : pop (l ++ [a]) = Some (a, l).
Proof. unfold pop. rewrite reverse_snoc, reverse_involutive. reflexivity. Qed.

Lemma pop_nil {A} : pop (@nil A) = None.
Proof. reflexivity. Qed.

Lemma lookup_alter_same {A} (f : A -> A) (h : list A) (i : nat) (a : A) :
  h !! i = Some a -> alter f i h !! i = Some (f a).
Proof. intros H. rewrite list_lookup_alter_eq, H. reflexivity. Qed.

Lemma select_heap (dw : ref) (s : GUIBuilder) :
  heap (select dw s) = alter (set_selected true) dw (heap s).
Proof.
  unfold select, update_appearance, on_canvas, update_dw. cbn.
  repeat (case_match; cbn); reflexivity.
Qed.

Lemma select_stacks (dw : ref) (s : GUIBuilder) :
  undo_stack (select dw s) = undo_stack s /\
  redo_stack (select dw s) = redo_stack s /\
  widgets (select dw s) = widgets s.
Proof.
  unfold select, update_appearance, on_canvas, update_dw. cbn.
  repeat (case_match; cbn); auto.
Qed.

Lemma update_appearance_heap (dw : ref) (s : GUIBuilder) :
  heap (update_appearance dw s) = heap s /\
  undo_stack (update_appearance dw s) = undo_stack s /\
  redo_stack (update_appearance dw s) = redo_stack s /\
  widgets (update_appearance dw s) = widgets s.
Proof. unfold update_appearance. case_match; cbn; auto. Qed.

(** ** Drag sessions *)

Lemma on_start_lookup (dw : ref) (ex ey : Z) (s : GUIBuilder) (w : DraggableWidget) :
  heap s !! dw = Some w ->
  heap (on_start dw ex ey s) !! dw =
    Some (set_selected true (set_original (dw_x w) (dw_y w) (set_start ex ey w))).
Proof.
  intros H. unfold on_start. rewrite select_heap. cbn.
  erewrite lookup_alter_same; [reflexivity|].
  erewrite lookup_alter_same; [reflexivity|]. exact H.
Qed.

Lemma on_start_stacks (dw : ref) (ex ey : Z) (s : GUIBuilder) :
  undo_stack (on_start dw ex ey s) = undo_stack s /\
  redo_stack (on_start dw ex ey s) = redo_stack s.
Proof.
  unfold on_start.
  destruct (select_stacks dw
    (update_dw dw (fun w => set_original (dw_x w) (dw_y w) (set_start ex ey w)) s))
    as (-> & -> & _).
  auto.
Qed.

(** A pointer motion moves the widget and nothing else: the recorded start
    of the gesture and both stacks stay as they are. *)
Lemma on_drag_keeps (dw : ref) (ex ey : Z) (s : GUIBuilder) (w : DraggableWidget) :
  heap s !! dw = Some w ->
  exists w', heap (run (on_drag dw ex ey) s) !! dw = Some w' /\
    original_x w' = original_x w /\ original_y w' = original_y w /\
    undo_stack (run (on_drag dw ex ey) s) = undo_stack s /\
    redo_stack (run (on_drag dw ex ey) s) = redo_stack s.
Proof.
  intros H. unfold run, on_drag. rewrite H.
  destruct (start_x w), (start_y w); cbn; eauto 6.
  case_match; cbn; eauto 6.
  eexists. split; [apply lookup_alter_same; exact H|]. cbn. auto.
Qed.

Lemma drags_keep (dw : ref) (moves : list (Z * Z)) :
  forall (s : GUIBuilder) (w : DraggableWidget),
  heap s !! dw = Some w ->
  let s' := fold_left (fun s m => run (on_drag dw m.1 m.2) s) moves s in
  exists w', heap s' !! dw = Some w' /\
    original_x w' = original_x w /\ original_y w' = original_y w /\
    undo_stack s' = undo_stack s /\ redo_stack s' = redo_stack s.
Proof.
  induction moves as [|m moves IH]; intros s w H; cbn.
  - eauto 6.
  - destruct (on_drag_keeps dw m.1 m.2 s w H) as (w1 & H1 & Hx & Hy & Hu & Hr).
    destruct (IH _ _ H1) as (w2 & H2 & Hx2 & Hy2 & Hu2 & Hr2).
    exists w2. cbn in *. repeat split; congruence.
Qed.

(** C7: a drag session pushes exactly one [Move] when the widget ends away
    from where the pointer went down, whatever the number of motions in
    between, and pushes nothing when it ends where it started.  The command
    holds the widget and the start position, and the end position is the
    one the widget has when the command is pushed: a single [undo] takes
    the widget back over the whole displacement. *)
Theorem drag_session_one_move (dw : ref) (press : Z * Z) (moves : list (Z * Z))
  (s : GUIBuilder) (w : DraggableWidget) :
  heap s !! dw = Some w ->
  let s' := drag_session dw press moves s in
  exists w', heap s' !! dw = Some w' /\
    if bool_decide ((dw_x w', dw_y w') ≠ (dw_x w, dw_y w)) then
      undo_stack s' = undo_stack s ++ [Move dw (dw_x w) (dw_y w)] /\
      redo_stack s' = [] /\
      position dw (run undo s') = Some (dw_x w, dw_y w)
    else
      undo_stack s' = undo_stack s /\ redo_stack s' = redo_stack s.
Proof.
  intros H. unfold drag_session.
  pose proof (on_start_lookup dw press.1 press.2 s w H) as H0.
  destruct (on_start_stacks dw press.1 press.2 s) as [Hu0 Hr0].
  destruct (drags_keep dw moves _ _ H0) as (w1 & H1 & Hx & Hy & Hu & Hr).
  cbn in Hx, Hy, H1, Hu, Hr.
  set (s1 := fold_left _ moves _) in *.
  unfold on_release.
  destruct (update_appearance_heap dw s1) as (Hh & Hu' & Hr' & _).
  rewrite Hh, H1. exists w1.
  rewrite Hx, Hy.
  destruct (bool_decide _) eqn:E; cbn.
  - rewrite Hh, H1, Hu', Hu, Hu0. split; [reflexivity|].
    split; [reflexivity|]. split; [reflexivity|].
    unfold position, run, undo. cbn. rewrite Hu', pop_snoc. cbn.
    rewrite Hh, H1. cbn. rewrite Hh.
    erewrite lookup_alter_same by exact H1. reflexivity.
  - rewrite Hh, H1, Hu', Hr', Hu, Hr, Hu0, Hr0. auto.
Qed.

Lemma drag_session_one_move_witness :
  heap button_placed !! 0%nat = Some button0 /\
  exists w',
    heap (drag_session 0 (0, 0) [(5, 3); (45, 3)] button_placed) !! 0%nat = Some w' /\
    if bool_decide ((dw_x w', dw_y w') ≠ (dw_x button0, dw_y button0)) then
      undo_stack (drag_session 0 (0, 0) [(5, 3); (45, 3)] button_placed)
        = undo_stack button_placed ++ [Move 0 (dw_x button0) (dw_y button0)] /\
      redo_stack (drag_session 0 (0, 0) [(5, 3); (45, 3)] button_placed) = [] /\
      position 0 (run undo (drag_session 0 (0, 0) [(5, 3); (45, 3)] button_placed))
        = Some (dw_x button0, dw_y button0)
    else
      undo_stack (drag_session 0 (0, 0) [(5, 3); (45, 3)] button_placed)
        = undo_stack button_placed /\
      redo_stack (drag_session 0 (0, 0) [(5, 3); (45, 3)] button_placed)
        = redo_stack button_placed.
Proof.
  split; [reflexivity|].
  apply (drag_session_one_move 0 (0, 0) [(5, 3); (45, 3)] button_placed button0).
  reflexivity.
Defined.

(** The scenario of the specification: one [Move] from (20, 60), the button
    at (60, 60); and the same gesture brought back to its start leaves the
    history alone. *)
Example drag_scenario :
  undo_stack (drag_session 0 (0, 0) [(5, 3); (45, 3)] button_placed)
    = [Create 0; Move 0 20 60] /\
  position 0 (drag_session 0 (0, 0) [(5, 3); (45, 3)] button_placed)
    = Some (60, 60) /\
  undo_stack (drag_session 0 (0, 0) [(5, 3); (45, 3); (-40, 0)] button_placed)
    = [Create 0].
Proof. vm_compute. auto. Qed.

(** ** Undo and redo of a move *)

(** C1 (fails in the code): after a drag from p to q, [undo] puts the widget
    back at p, and [redo] then leaves it at p: [redo] assigns the recorded
    old position again instead of q. *)
Theorem undo_redo_move_returns_to_start (dw : ref) (s : GUIBuilder)
  (w : DraggableWidget) :
  heap s !! dw = Some w ->
  (dw_x w, dw_y w) ≠ (original_x w, original_y w) ->
  position dw (on_release dw s) = Some (dw_x w, dw_y w) /\
  position dw (run undo (on_release dw s))
    = Some (original_x w, original_y w) /\
  position dw (run redo (run undo (on_release dw s)))
    = Some (original_x w, original_y w).
Proof.
  intros H Hne. unfold on_release.
  destruct (update_appearance_heap dw s) as (Hh & Hu & Hr & _).
  rewrite Hh, H. rewrite bool_decide_eq_true_2 by exact Hne.
  set (s1 := update_appearance dw s) in *.
  assert (Hundo : run undo (push_undo (Move dw (original_x w) (original_y w)) s1)
    = update_dw dw (fun w0 => set_y (original_y w) (set_x (original_x w) w0))
       (on_canvas (canvas_move (dw_id w) (original_x w - dw_x w)
                                          (original_y w - dw_y w))
         (set_redo_stack [Move dw (original_x w) (original_y w)]
           (set_undo_stack (undo_stack s1) s1)))).
  { unfold run, undo. cbn. rewrite pop_snoc. cbn. rewrite Hh, H. reflexivity. }
  rewrite Hundo. unfold position. cbn. rewrite Hh, H.
  split; [reflexivity|].
  erewrite lookup_alter_same by exact H. split; [reflexivity|].
  unfold run, redo. cbn. rewrite Hh.
  erewrite lookup_alter_same by exact H. cbn. rewrite Hh.
  erewrite lookup_alter_same; [reflexivity|].
  erewrite lookup_alter_same; [reflexivity|exact H].
Qed.

Lemma undo_redo_move_returns_to_start_witness :
  heap button_held !! 0%nat = Some button_held0 /\
  (dw_x button_held0, dw_y button_held0)
    ≠ (original_x button_held0, original_y button_held0) /\
  position 0 (on_release 0 button_held) = Some (60, 60) /\
  position 0 (run undo (on_release 0 button_held)) = Some (20, 60) /\
  position 0 (run redo (run undo (on_release 0 button_held))) = Some (20, 60).
Proof.
  split; [reflexivity|]. split; [discriminate|].
  apply (undo_redo_move_returns_to_start 0 button_held button_held0).
  - reflexivity.
  - discriminate.
Defined.

(** ** Selection *)

(** C2 (fails in the code): selecting a widget leaves the [selected] flag of
    every other widget as it was; a widget selected earlier stays
    selected. *)
Theorem select_keeps_other_selected (dw other : ref) (s : GUIBuilder) :
  dw ≠ other ->
  is_selected other s = Some true ->
  is_selected other (select dw s) = Some true.
Proof.
  intros Hne H. unfold is_selected in *.
  rewrite select_heap, list_lookup_alter_ne by exact Hne. exact H.
Qed.

Lemma select_keeps_other_selected_witness :
  1%nat ≠ 0%nat /\
  is_selected 0 button_and_label = Some true /\
  is_selected 0 (select 1 button_and_label) = Some true /\
  is_selected 1 (select 1 button_and_label) = Some true.
Proof.
  split; [discriminate|]. split; [reflexivity|].
  split; [|reflexivity].
  apply (select_keeps_other_selected 1 0 button_and_label).
  - discriminate.
  - reflexivity.
Defined.

(** ** Generated source *)

(** C5 (fails in the code): only [Button], [Label] and [Entry] have a
    construction template.  For a widget of any other type the generator
    emits the placement statement alone: there is no generic stub, and the
    placement names a variable that was never constructed. *)
Theorem placement_without_construction (tk : Toolkit) (i : nat)
  (w : DraggableWidget) :
  widget_type w ≠ "Button" -> widget_type w ≠ "Label" ->
  widget_type w ≠ "Entry" ->
  widget_code tk i w =
    Ok ["    " +:+ ("widget_" +:+ pretty i) +:+ ".place(x=" +:+ pretty (dw_x w)
          +:+ ", y=" +:+ pretty (dw_y w) +:+ ")";
        ""].
Proof.
  intros Hb Hl He. unfold widget_code.
  repeat (destruct (decide _); [congruence|]). reflexivity.
Qed.

Lemma placement_without_construction_witness :
  widget_type text0 ≠ "Button" /\ widget_type text0 ≠ "Label" /\
  widget_type text0 ≠ "Entry" /\
  widget_code tk86 0 text0 = Ok ["    widget_0.place(x=20, y=60)"; ""].
Proof.
  repeat (split; [discriminate|]).
  apply (placement_without_construction tk86 0 text0); discriminate.
Defined.

(** The whole text generated for a document holding one text widget, line
    by line, and for the relabelled button. *)
Example generated_for_text :
  heap text_placed !! 0%nat = Some text0 /\
  code_lines tk86 text_placed =
    Ok ["import tkinter as tk";
        "from tkinter import ttk";
        "";
        "def create_gui():";
        "    root = tk.Tk()";
        "    root.title('Generated GUI')";
        "";
        "    widget_0.place(x=20, y=60)";
        "";
        "    root.mainloop()";
        "";
        "if __name__ == '__main__':";
        "    create_gui()"].
Proof. split; reflexivity. Qed.

Example generated_for_button :
  code_lines tk86 button_edited =
    Ok ["import tkinter as tk";
        "from tkinter import ttk";
        "";
        "def create_gui():";
        "    root = tk.Tk()";
        "    root.title('Generated GUI')";
        "";
        "    widget_0 = ttk.Button(root, text='OK')";
        "    widget_0.place(x=20, y=60)";
        "";
        "    root.mainloop()";
        "";
        "if __name__ == '__main__':";
        "    create_gui()"].
Proof. reflexivity. Qed.

(** ** Deleting and undoing *)

Lemma delete_item_and_destroy_lookup (dw : ref) (s : GUIBuilder)
  (w : DraggableWidget) :
  heap s !! dw = Some w ->
  heap (delete_item_and_destroy dw s) !! dw
    = Some (set_widget (destroy (widget w)) w).
Proof.
  intros H. unfold delete_item_and_destroy. rewrite H. cbn.
  rewrite list_lookup_alter_eq, H. reflexivity.
Qed.

(** Undoing a deletion appends the object and then asks the canvas for a
    window on a destroyed widget. *)
Lemma undo_delete_raises (dw : ref) (s : GUIBuilder) (rest : list action)
  (w : DraggableWidget) :
  undo_stack s = rest ++ [Delete dw] ->
  heap s !! dw = Some w ->
  tk_alive (widget w) = false ->
  (undo s).1 = Raise TclError /\
  widgets (run undo s) = widgets s ++ [dw] /\
  heap (run undo s) = heap s.
Proof.
  intros Hu H Hd. unfold run, undo. rewrite Hu, pop_snoc. cbn.
  unfold bind, lift, recreate_window. cbn. rewrite H, Hd. cbn. auto.
Qed.

(** C4 (fails in the code): the button relabelled ["OK"] is deleted and the
    deletion undone.  The object is back in the document at (20, 60), but
    [delete_selected] destroyed its Tk widget: [undo] raises [TclError] at
    [create_window], no canvas window exists, and the text ["OK"] can no
    longer be read. *)
Theorem delete_undo_loses_widget :
  widgets button_edited = [0%nat] /\
  position 0 button_edited = Some (20, 60) /\
  property tk86 0 "text" button_edited = Some (Ok "OK") /\
  widgets (run delete_selected button_edited) = [] /\
  (undo (run delete_selected button_edited)).1 = Raise TclError /\
  widgets (run undo (run delete_selected button_edited)) = [0%nat] /\
  position 0 (run undo (run delete_selected button_edited)) = Some (20, 60) /\
  property tk86 0 "text" (run undo (run delete_selected button_edited))
    = Some (Raise TclError) /\
  items (canvas (run undo (run delete_selected button_edited))) = [].
Proof. vm_compute. repeat split. Qed.

(** ** Loading *)

Lemma make_widget_supported (wtype : string) :
  is_Some (make_widget wtype) <-> wtype ∈ SUPPORTED_WIDGETS.
Proof.
  unfold make_widget, SUPPORTED_WIDGETS. split.
  - repeat (destruct (decide _) as [->|];
            [intros _; repeat first [apply list_elem_of_here
                                    | apply list_elem_of_further]|]).
    intros [? [=]].
  - rewrite !elem_of_cons, elem_of_nil.
    intros H. repeat (destruct H as [->|H]; [cbn; eauto|]). destruct H.
Qed.

Lemma set_widget_same (w : DraggableWidget) : set_widget (widget w) w = w.
Proof. destruct w; reflexivity. Qed.

Lemma reconfigured_refl (w : DraggableWidget) : reconfigured w w.
Proof. split; [symmetry; apply set_widget_same | reflexivity]. Qed.

Lemma reconfigured_trans (a b c : DraggableWidget) :
  reconfigured a b -> reconfigured b c -> reconfigured a c.
Proof.
  intros [Hab Eab] [Hbc Ebc]. split; [|congruence].
  rewrite Hbc at 1. rewrite Hab. reflexivity.
Qed.

Lemma try_config_reconfigured (tk : Toolkit) (prop value : string)
  (w : DraggableWidget) :
  reconfigured w (try_config tk prop value w).
Proof.
  unfold try_config, config.
  destruct (tk_alive (widget w)) eqn:Ha; cbn; [|apply reconfigured_refl].
  destruct (_ && _); [|apply reconfigured_refl].
  split; cbn; [reflexivity | congruence].
Qed.

Lemma apply_options_reconfigured (tk : Toolkit) (props : list (string * string)) :
  forall w, reconfigured w (apply_options tk props w).
Proof.
  unfold apply_options.
  induction props as [|pv props IH]; intros w; cbn.
  - apply reconfigured_refl.
  - eapply reconfigured_trans; [apply try_config_reconfigured | apply IH].
Qed.

Lemma reconfigured_summary (w w' : DraggableWidget) :
  reconfigured w w' -> summary w' = summary w.
Proof. intros [-> _]. reflexivity. Qed.


Lemma update_dw_id (dw : ref) (s : GUIBuilder) :
  update_dw dw (fun w => w) s = s.
Proof.
  unfold update_dw. rewrite list_alter_id by reflexivity.
  destruct s; reflexivity.
Qed.

(** The loop of [load_widget] is one update of the object. *)
Lemma fold_try_config (tk : Toolkit) (dw : ref) (props : list (string * string)) :
  forall s,
  fold_left (fun s pv => update_dw dw (try_config tk pv.1 pv.2) s) props s
  = update_dw dw (apply_options tk props) s.
Proof.
  induction props as [|pv props IH]; intros s; cbn.
  - symmetry. apply update_dw_id.
  - rewrite IH. unfold update_dw. cbn. rewrite list_alter_alter_eq.
    f_equal.
Qed.

Lemma place_widget_some (x y : Z) (s : GUIBuilder) (wtype : string) (t : TkWidget) :
  active_widget s = Some wtype -> make_widget wtype = Some t ->
  exists c,
    place_widget x y s =
      {| active_widget := None;
         widgets := widgets s ++ [length (heap s)];
         current_file := current_file s;
         undo_stack := undo_stack s ++ [Create (length (heap s))];
         redo_stack := [];
         canvas := c;
         heap := heap s ++
                 [fresh_dw t wtype (snap x) (snap y) (next_item (canvas s))];
         errors := errors s |}.
Proof.
  intros Ha Hm. unfold place_widget. rewrite Ha.
  destruct (decide (wtype = "")) as [->|Hne]; [discriminate Hm|].
  cbn [truthy]. rewrite bool_decide_eq_false_2 by exact Hne. cbn [negb].
  rewrite Hm. unfold new_draggable, create_window, update_appearance. cbn.
  rewrite lookup_app_r by lia. rewrite Nat.sub_diag. cbn.
  eexists. reflexivity.
Qed.

Lemma place_widget_none (x y : Z) (s : GUIBuilder) (wtype : string) :
  active_widget s = Some wtype -> make_widget wtype = None ->
  place_widget x y s = s.
Proof.
  intros Ha Hm. unfold place_widget. rewrite Ha, Hm.
  destruct (truthy _); reflexivity.
Qed.

Lemma load_widget_some (tk : Toolkit) (wd : WidgetData) (s : GUIBuilder)
  (t : TkWidget) :
  make_widget (wd_type wd) = Some t ->
  exists c,
    load_widget tk wd s =
      {| active_widget := None;
         widgets := widgets s ++ [length (heap s)];
         current_file := current_file s;
         undo_stack := undo_stack s ++ [Create (length (heap s))];
         redo_stack := [];
         canvas := c;
         heap := heap s ++
                 [apply_options tk (default [] (wd_properties wd))
                    (fresh_dw t (wd_type wd) (snap (wd_x wd)) (snap (wd_y wd))
                       (next_item (canvas s)))];
         errors := errors s |}.
Proof.
  intros Hm. unfold load_widget.
  destruct (place_widget_some (wd_x wd) (wd_y wd)
              (set_active_widget (Some (wd_type wd)) s) (wd_type wd) t
              eq_refl Hm) as [c ->].
  cbn. rewrite last_snoc, fold_try_config. unfold update_dw. cbn.
  rewrite alter_app_r_alt by lia. rewrite Nat.sub_diag. cbn.
  eexists. reflexivity.
Qed.

Lemma load_widget_none (tk : Toolkit) (wd : WidgetData) (s : GUIBuilder) :
  make_widget (wd_type wd) = None ->
  load_widget tk wd s =
    match last (widgets s) with
    | Some dw =>
        update_dw dw (apply_options tk (default [] (wd_properties wd)))
          (set_active_widget (Some (wd_type wd)) s)
    | None => set_active_widget (Some (wd_type wd)) s
    end.
Proof.
  intros Hm. unfold load_widget.
  rewrite (place_widget_none (wd_x wd) (wd_y wd)
             (set_active_widget (Some (wd_type wd)) s) (wd_type wd) eq_refl Hm).
  cbn.
  destruct (last (widgets s)); [apply fold_try_config | reflexivity].
Qed.

Lemma layout_heap_app (h k : list DraggableWidget) (l : list ref) :
  Forall (fun dw => (dw < length h)%nat) l ->
  (fun dw => summary <$> (h ++ k) !! dw) <$> l
  = (fun dw => summary <$> h !! dw) <$> l.
Proof.
  intros Hwf. apply list_fmap_ext. intros i dw Hi.
  rewrite Forall_lookup in Hwf. specialize (Hwf i dw Hi). cbn in Hwf.
  rewrite lookup_app_l by exact Hwf. reflexivity.
Qed.

Lemma layout_heap_alter (F : DraggableWidget -> DraggableWidget)
  (h : list DraggableWidget) (i : ref) (l : list ref) :
  (forall w, summary (F w) = summary w) ->
  (fun dw => summary <$> alter F i h !! dw) <$> l
  = (fun dw => summary <$> h !! dw) <$> l.
Proof.
  intros HF. apply list_fmap_ext. intros _ dw _.
  rewrite list_lookup_alter. destruct (decide (i = dw)) as [->|]; [|reflexivity].
  destruct (h !! dw); cbn; [rewrite HF|]; reflexivity.
Qed.

(** What loading one entry does to a document: an entry of a supported
    type appends one widget and one [Create]; any other entry appends
    nothing. *)
Lemma load_widget_effect (tk : Toolkit) (wd : WidgetData) (s : GUIBuilder) :
  wf s ->
  wf (load_widget tk wd s) /\
  layout (load_widget tk wd s) =
    layout s ++
    (if decide (wd_type wd ∈ SUPPORTED_WIDGETS) then [loaded_entry wd] else []) /\
  errors (load_widget tk wd s) = errors s /\
  (length (heap s) <= length (heap (load_widget tk wd s)))%nat /\
  exists l,
    widgets (load_widget tk wd s) = widgets s ++ l /\
    undo_stack (load_widget tk wd s) = undo_stack s ++ (Create <$> l) /\
    Forall (fun dw => (length (heap s) <= dw)%nat) l /\
    (redo_stack s = [] -> redo_stack (load_widget tk wd s) = []).
Proof.
  intros Hwf. destruct (make_widget (wd_type wd)) as [t|] eqn:Hm.
  - destruct (load_widget_some tk wd s t Hm) as [c ->].
    destruct (decide _) as [_|Hn];
      [|destruct Hn; apply make_widget_supported; eauto].
    unfold wf, layout in *. cbn. rewrite length_app. cbn.
    split; [|split; [|split; [reflexivity|split; [lia|]]]].
    + apply Forall_app. split.
      * eapply Forall_impl; [exact Hwf|]. cbn. intros; lia.
      * constructor; [lia | constructor].
    + rewrite fmap_app. f_equal; [apply layout_heap_app, Hwf|].
      cbn. rewrite lookup_app_r by lia. rewrite Nat.sub_diag. cbn.
      rewrite (reconfigured_summary _ _ (apply_options_reconfigured tk _ _)).
      reflexivity.
    + exists [length (heap s)]. repeat split; auto.
  - destruct (decide _) as [Hy|_];
      [apply make_widget_supported in Hy; rewrite Hm in Hy; destruct Hy as [? [=]]|].
    rewrite (load_widget_none tk wd s Hm), app_nil_r.
    assert (HF : forall w,
      summary (apply_options tk (default [] (wd_properties wd)) w) = summary w)
      by (intros w; apply reconfigured_summary, apply_options_reconfigured).
    unfold wf, layout in *.
    destruct (last (widgets s)) as [dw|]; cbn.
    + rewrite length_alter.
      split; [exact Hwf|]. split; [apply layout_heap_alter, HF|].
      split; [reflexivity|]. split; [lia|].
      exists []. cbn. rewrite !app_nil_r. auto.
    + split; [exact Hwf|]. split; [reflexivity|].
      split; [reflexivity|]. split; [lia|].
      exists []. cbn. rewrite !app_nil_r. auto.
Qed.

Lemma expected_layout_cons (wd : WidgetData) (data : list WidgetData) :
  expected_layout (wd :: data) =
    (if decide (wd_type wd ∈ SUPPORTED_WIDGETS) then [loaded_entry wd] else [])
    ++ expected_layout data.
Proof.
  unfold expected_layout. rewrite filter_cons.
  destruct (decide _); reflexivity.
Qed.

Lemma load_all_effect (tk : Toolkit) (data : list WidgetData) :
  forall s, wf s ->
  let s' := fold_left (fun s wd => load_widget tk wd s) data s in
  wf s' /\
  layout s' = layout s ++ expected_layout data /\
  errors s' = errors s /\
  (length (heap s) <= length (heap s'))%nat /\
  exists l,
    widgets s' = widgets s ++ l /\
    undo_stack s' = undo_stack s ++ (Create <$> l) /\
    Forall (fun dw => (length (heap s) <= dw)%nat) l /\
    (redo_stack s = [] -> redo_stack s' = []).
Proof.
  induction data as [|wd data IH]; intros s Hwf; cbn [fold_left].
  - split; [exact Hwf|]. unfold expected_layout. cbn. rewrite app_nil_r.
    repeat split; auto. exists []. cbn. rewrite !app_nil_r. auto.
  - destruct (load_widget_effect tk wd s Hwf)
      as (Hwf1 & Hl1 & He1 & Hn1 & l1 & Hw1 & Hu1 & Hf1 & Hr1).
    destruct (IH _ Hwf1) as (Hwf2 & Hl2 & He2 & Hn2 & l2 & Hw2 & Hu2 & Hf2 & Hr2).
    split; [exact Hwf2|].
    split; [rewrite Hl2, Hl1, expected_layout_cons, app_assoc; reflexivity|].
    split; [congruence|]. split; [lia|].
    exists (l1 ++ l2).
    split; [rewrite Hw2, Hw1, app_assoc; reflexivity|].
    split; [rewrite Hu2, Hu1, fmap_app, app_assoc; reflexivity|].
    split; [|auto].
    apply Forall_app. split; [exact Hf1|].
    eapply Forall_impl; [exact Hf2|]. cbn. intros; lia.
Qed.

(** ** Clearing *)

Lemma delete_item_and_destroy_keeps (dw : ref) (s : GUIBuilder) :
  errors (delete_item_and_destroy dw s) = errors s /\
  length (heap (delete_item_and_destroy dw s)) = length (heap s) /\
  widgets (delete_item_and_destroy dw s) = widgets s /\
  undo_stack (delete_item_and_destroy dw s) = undo_stack s /\
  redo_stack (delete_item_and_destroy dw s) = redo_stack s /\
  current_file (delete_item_and_destroy dw s) = current_file s.
Proof.
  unfold delete_item_and_destroy. destruct (heap s !! dw); cbn.
  - rewrite length_alter. repeat split.
  - repeat split.
Qed.

Lemma clear_loop_keeps (l : list ref) :
  forall s,
  errors (fold_left (fun s dw => delete_item_and_destroy dw s) l s) = errors s /\
  length (heap (fold_left (fun s dw => delete_item_and_destroy dw s) l s))
    = length (heap s).
Proof.
  induction l as [|dw l IH]; intros s; cbn; [auto|].
  destruct (IH (delete_item_and_destroy dw s)) as [-> ->].
  destruct (delete_item_and_destroy_keeps dw s) as (-> & -> & _). auto.
Qed.

Lemma clear_canvas_effect (s : GUIBuilder) :
  widgets (clear_canvas s) = [] /\
  undo_stack (clear_canvas s) = [] /\
  redo_stack (clear_canvas s) = [] /\
  errors (clear_canvas s) = errors s /\
  length (heap (clear_canvas s)) = length (heap s).
Proof.
  unfold clear_canvas. cbn.
  destruct (clear_loop_keeps (widgets s) s) as [-> ->]. repeat split.
Qed.

(** Loading a parsed file: the old document and its history are dropped,
    no error is shown, and the document is made of the entries of supported
    type, each at its snapped position, with one [Create] per widget on the
    undo stack. *)
Lemma open_project_effect (tk : Toolkit) (file_path : string)
  (data : LayoutFile) (s : GUIBuilder) :
  let s' := open_project tk (Some (file_path, Some data)) s in
  layout s' = expected_layout (file_widgets data) /\
  errors s' = errors s /\
  undo_stack s' = Create <$> widgets s' /\
  redo_stack s' = [] /\
  Forall (fun dw => (length (heap s) <= dw)%nat) (widgets s').
Proof.
  cbn. destruct (clear_canvas_effect s) as (Hw & Hu & Hr & He & Hn).
  set (s0 := set_current_file (Some file_path) (clear_canvas s)).
  assert (Hwf : wf s0) by (unfold wf, s0; cbn; constructor).
  destruct (load_all_effect tk (file_widgets data) s0 Hwf)
    as (_ & Hl & He' & _ & l & Hw' & Hu' & Hf & Hr').
  assert (Hn0 : length (heap s0) = length (heap s)) by exact Hn.
  assert (He0 : errors s0 = errors s) by exact He.
  rewrite Hn0 in Hf. rewrite He0 in He'.
  cbn in Hw', Hu', Hr'. unfold layout in Hl at 2. cbn in Hl.
  fold s0.
  split; [exact Hl|]. split; [congruence|].
  split; [congruence|]. split; [auto|]. rewrite Hw'. exact Hf.
Qed.



(** ** History across a document switch *)





(** ** Saving and loading back *)







(** ** Grid alignment of the reachable documents *)



Lemma on_canvas_snapped (f : Canvas -> Canvas) (s : GUIBuilder) :
  snapped s -> snapped (on_canvas f s).
Proof. exact id. Qed.












Lemma pop_Some {A} (l rest : list A) (a : A) :
  pop l = Some (a, rest) -> l = rest ++ [a].
Proof.
  unfold pop. destruct (reverse l) as [|b r] eqn:E; [discriminate|].
  intros [= -> <-]. rewrite <- (reverse_involutive l), E, reverse_cons.
  reflexivity.
Qed.

Lemma for_each_keeps {A} (P : GUIBuilder -> Prop) (body : A -> M unit)
  (l : list A) :
  (forall v s, P s -> P (run (body v) s)) ->
  forall s, P s -> P (run (for_each l body) s).
Proof.
  intros Hb. induction l as [|v l IH]; intros s Hs; [exact Hs|].
  unfold run in *. cbn. unfold bind.
  specialize (Hb v s Hs). destruct (body v s) as [[[]|e] s1]; cbn in *.
  - apply IH, Hb.
  - exact Hb.
Qed.
















(** * Further properties of the code *)

(** ** Grid snapping: nearest multiple, ties, order *)

Lemma py_round_div_cases (v : Z) :
  exists q r, v = GRID_SIZE * q + r /\ 0 <= r < GRID_SIZE /\
    py_round_div v GRID_SIZE =
      (if 2 * r <? GRID_SIZE then q
       else if GRID_SIZE <? 2 * r then q + 1
       else if Z.even q then q else q + 1).
Proof.
  exists (v / GRID_SIZE), (v mod GRID_SIZE).
  split; [apply Z.div_mod; discriminate|].
  split; [apply Z.mod_pos_bound; reflexivity | reflexivity].
Qed.



(** Snapping keeps the order of coordinates: a widget placed further right
    never ends up further left. *)
Theorem snap_monotone (v v' : Z) : v <= v' -> snap v <= snap v'.
Proof.
  intros Hle. unfold snap.
  destruct (py_round_div_cases v) as (q & r & Hv & Hr & ->).
  destruct (py_round_div_cases v') as (q' & r' & Hv' & Hr' & ->).
  unfold GRID_SIZE in *.
  assert (Hq : q < q' \/ (q = q' /\ r <= r')) by lia.
  destruct Hq as [Hq|[-> Hq]].
  - destruct (Z.ltb_spec (2 * r) 20), (Z.ltb_spec 20 (2 * r)),
      (Z.ltb_spec (2 * r') 20), (Z.ltb_spec 20 (2 * r'));
      destruct (Z.even q), (Z.even q'); lia.
  - destruct (Z.ltb_spec (2 * r) 20), (Z.ltb_spec 20 (2 * r)),
      (Z.ltb_spec (2 * r') 20), (Z.ltb_spec 20 (2 * r'));
      destruct (Z.even q'); lia.
Qed.

Lemma snap_monotone_witness : 23 <= 57 /\ snap 23 <= snap 57.
Proof. split; [lia|]. apply (snap_monotone 23 57). lia. Defined.

(** Within less than half a grid unit of an aligned coordinate, snapping
    gives that coordinate back. *)
Lemma snap_near_aligned (v d : Z) :
  aligned v -> -10 < d < 10 -> snap (v + d) = v.
Proof.
  unfold aligned. intros Ha Hd.
  assert (Hv : v = GRID_SIZE * (v / GRID_SIZE))
    by (rewrite (Z.div_mod v GRID_SIZE) at 1 by discriminate; lia).
  set (k := v / GRID_SIZE) in *. clearbody k. subst v.
  unfold snap. destruct (py_round_div_cases (GRID_SIZE * k + d))
    as (q & r & Hv & Hr & ->).
  unfold GRID_SIZE in *.
  destruct (Z.ltb_spec (2 * r) 20); [lia|].
  destruct (Z.ltb_spec 20 (2 * r)); [lia|]. lia.
Qed.

(** ** Drags shorter than half a grid unit *)

Lemma on_drag_small (dw : ref) (ex ey sx sy : Z) (s : GUIBuilder)
  (w : DraggableWidget) :
  heap s !! dw = Some w ->
  start_x w = Some sx -> start_y w = Some sy ->
  aligned (dw_x w) -> aligned (dw_y w) ->
  -10 < ex - sx < 10 -> -10 < ey - sy < 10 ->
  on_drag dw ex ey s = (Ok tt, s).
Proof.
  intros Hw Hsx Hsy Hx Hy Hdx Hdy. unfold on_drag. rewrite Hw, Hsx, Hsy.
  rewrite !snap_near_aligned by assumption.
  rewrite !Z.sub_diag. reflexivity.
Qed.

(** [on_start], [on_drag], [on_release]: while the pointer stays within
    less than half a grid unit of where it went down, the widget does not
    move, and the gesture leaves both stacks as they were. *)
Theorem small_drag_leaves_widget (dw : ref) (press : Z * Z)
  (moves : list (Z * Z)) (s : GUIBuilder) (w : DraggableWidget) :
  heap s !! dw = Some w ->
  aligned (dw_x w) -> aligned (dw_y w) ->
  Forall (fun m => -10 < m.1 - press.1 < 10 /\ -10 < m.2 - press.2 < 10) moves ->
  position dw (drag_session dw press moves s) = Some (dw_x w, dw_y w) /\
  undo_stack (drag_session dw press moves s) = undo_stack s /\
  redo_stack (drag_session dw press moves s) = redo_stack s.
Proof.
  intros Hw Hx Hy Hm. unfold drag_session.
  pose proof (on_start_lookup dw press.1 press.2 s w Hw) as H0.
  destruct (on_start_stacks dw press.1 press.2 s) as [Hu0 Hr0].
  set (s0 := on_start dw press.1 press.2 s) in *.
  assert (Hfold : fold_left (fun s m => run (on_drag dw m.1 m.2) s) moves s0 = s0).
  { induction Hm as [|m moves [Hm1 Hm2] _ IH]; [reflexivity|]. cbn.
    unfold run at 2.
    rewrite (on_drag_small dw m.1 m.2 press.1 press.2 s0 _ H0) by
      (cbn; first [reflexivity | assumption]).
    exact IH. }
  rewrite Hfold. unfold on_release, position.
  destruct (update_appearance_heap dw s0) as (Hh & Hu & Hr & _).
  rewrite Hh, H0. cbn.
  rewrite bool_decide_eq_false_2 by (intros Hne; apply Hne; reflexivity).
  rewrite Hh, H0, Hu, Hr, Hu0, Hr0. cbn. auto.
Qed.

Lemma small_drag_leaves_widget_witness :
  heap button_placed !! 0%nat = Some button0 /\
  aligned (dw_x button0) /\ aligned (dw_y button0) /\
  position 0 (drag_session 0 (0, 0) [(5, 3); (9, -9)] button_placed)
    = Some (20, 60) /\
  undo_stack (drag_session 0 (0, 0) [(5, 3); (9, -9)] button_placed)
    = undo_stack button_placed /\
  redo_stack (drag_session 0 (0, 0) [(5, 3); (9, -9)] button_placed)
    = redo_stack button_placed.
Proof.
  split; [reflexivity|]. split; [reflexivity|]. split; [reflexivity|].
  apply (small_drag_leaves_widget 0 (0, 0) [(5, 3); (9, -9)] button_placed
           button0); try reflexivity.
  repeat constructor; cbn; lia.
Defined.

(** ** The two stacks under undo and redo *)

Lemma undo_branch_stacks (a : action) (s : GUIBuilder) :
  let s' :=
    (match a with
     | Create dw => (lift (delete_item_and_destroy dw) ;;; widgets_remove dw) s
     | Delete dw =>
         (lift (fun s => set_widgets (widgets s ++ [dw]) s) ;;;
          recreate_window dw) s
     | Move dw old_x old_y =>
         match heap s !! dw with
         | Some w =>
             (Ok tt,
              update_dw dw (fun w => set_y old_y (set_x old_x w))
                (on_canvas (canvas_move (dw_id w) (old_x - dw_x w)
                                                   (old_y - dw_y w)) s))
         | None => (Ok tt, s)
         end
     end).2 in
  undo_stack s' = undo_stack s /\ redo_stack s' = redo_stack s.
Proof.
  destruct a as [dw|dw|dw old_x old_y]; cbn.
  - unfold bind, lift, widgets_remove, delete_item_and_destroy. cbn.
    repeat (case_match; cbn); auto.
  - unfold bind, lift, recreate_window. cbn. repeat (case_match; cbn); auto.
  - case_match; cbn; auto.
Qed.

Lemma redo_branch_stacks (a : action) (s : GUIBuilder) :
  let s' :=
    (match a with
     | Create dw =>
         (lift (fun s => set_widgets (widgets s ++ [dw]) s) ;;;
          recreate_window dw) s
     | Delete dw => (lift (delete_item_and_destroy dw) ;;; widgets_remove dw) s
     | Move dw old_x old_y =>
         match heap s !! dw with
         | Some w =>
             (Ok tt,
              update_dw dw (fun w => set_y old_y (set_x old_x w))
                (on_canvas (canvas_move (dw_id w) (dw_x w - old_x)
                                                   (dw_y w - old_y)) s))
         | None => (Ok tt, s)
         end
     end).2 in
  undo_stack s' = undo_stack s /\ redo_stack s' = redo_stack s.
Proof.
  destruct a as [dw|dw|dw old_x old_y]; cbn.
  - unfold bind, lift, recreate_window. cbn. repeat (case_match; cbn); auto.
  - unfold bind, lift, widgets_remove, delete_item_and_destroy. cbn.
    repeat (case_match; cbn); auto.
  - case_match; cbn; auto.
Qed.

Lemma undo_moves_top (s : GUIBuilder) (rest : list action) (a : action) :
  undo_stack s = rest ++ [a] ->
  undo_stack (run undo s) = rest /\
  redo_stack (run undo s) = redo_stack s ++ [a].
Proof.
  intros Hu. unfold run, undo. rewrite Hu, pop_snoc.
  apply (undo_branch_stacks a
           (set_redo_stack (redo_stack (set_undo_stack rest s) ++ [a])
              (set_undo_stack rest s))).
Qed.

Lemma redo_moves_top (s : GUIBuilder) (rest : list action) (a : action) :
  redo_stack s = rest ++ [a] ->
  redo_stack (run redo s) = rest /\
  undo_stack (run redo s) = undo_stack s ++ [a].
Proof.
  intros Hr. unfold run, redo. rewrite Hr, pop_snoc.
  destruct (redo_branch_stacks a
              (set_undo_stack (undo_stack (set_redo_stack rest s) ++ [a])
                 (set_redo_stack rest s))) as [H1 H2].
  split; [exact H2 | exact H1].
Qed.

(** [undo], [redo]: an undo takes exactly the top action off the undo stack
    and puts it on the redo stack, a redo takes it back, whether or not
    applying the action raised; after both, the two stacks are what they
    were. *)
Theorem undo_then_redo_restores_stacks (s : GUIBuilder) (rest : list action)
  (a : action) :
  undo_stack s = rest ++ [a] ->
  (undo_stack (run undo s) = rest /\
   redo_stack (run undo s) = redo_stack s ++ [a]) /\
  (undo_stack (run redo (run undo s)) = undo_stack s /\
   redo_stack (run redo (run undo s)) = redo_stack s).
Proof.
  intros Hu. destruct (undo_moves_top s rest a Hu) as [H1 H2].
  split; [auto|].
  destruct (redo_moves_top (run undo s) (redo_stack s) a H2) as [H3 H4].
  rewrite H3, H4, H1, Hu. auto.
Qed.

Lemma undo_then_redo_restores_stacks_witness :
  undo_stack button_and_label = [Create 0] ++ [Create 1] /\
  (undo_stack (run undo button_and_label) = [Create 0] /\
   redo_stack (run undo button_and_label)
     = redo_stack button_and_label ++ [Create 1]) /\
  (undo_stack (run redo (run undo button_and_label))
     = undo_stack button_and_label /\
   redo_stack (run redo (run undo button_and_label))
     = redo_stack button_and_label).
Proof.
  split; [reflexivity|].
  apply (undo_then_redo_restores_stacks button_and_label [Create 0] (Create 1)).
  reflexivity.
Defined.

(** ** Placing from the toolbox *)

Lemma supported_not_empty (wtype : string) :
  wtype ∈ SUPPORTED_WIDGETS -> truthy (Some wtype) = true.
Proof.
  intros H. apply make_widget_supported in H. cbn.
  destruct (decide (wtype = "")) as [->|Hne]; [destruct H as [? [=]]|].
  rewrite bool_decide_eq_false_2 by exact Hne. reflexivity.
Qed.

Lemma list_remove_snoc (n : nat) (l : list nat) :
  Forall (fun d => (d < n)%nat) l -> list_remove n (l ++ [n]) = Some l.
Proof.
  induction 1 as [|d l Hd _ IH]; cbn.
  - destruct (decide (n = n)); [reflexivity | contradiction].
  - destruct (decide (n = d)); [lia|]. rewrite IH. reflexivity.
Qed.

(** [select_widget], [canvas_click], [place_widget]: a toolbox choice
    followed by a click on the canvas appends one widget of that type at the
    snapped click point and clears the choice, so that a second click on the
    empty canvas places nothing. *)
Theorem one_placement_per_choice (wtype : string) (x y x' y' : Z)
  (clicked : option nat) (s : GUIBuilder) :
  wtype ∈ SUPPORTED_WIDGETS -> wf s ->
  layout (canvas_click x y clicked (select_widget wtype s))
    = layout s ++ [Some (wtype, snap x, snap y)] /\
  active_widget (canvas_click x y clicked (select_widget wtype s)) = None /\
  canvas_click x' y' None (canvas_click x y clicked (select_widget wtype s))
    = canvas_click x y clicked (select_widget wtype s).
Proof.
  intros Hs Hwf.
  assert (Ht := supported_not_empty wtype Hs).
  destruct (proj2 (make_widget_supported wtype) Hs) as [t Hm].
  assert (E : canvas_click x y clicked (select_widget wtype s)
              = place_widget x y (select_widget wtype s)).
  { unfold canvas_click. cbn [select_widget active_widget set_active_widget].
    rewrite Ht. reflexivity. }
  rewrite E.
  destruct (place_widget_some x y (select_widget wtype s) wtype t eq_refl Hm)
    as [c ->].
  split; [|split; reflexivity].
  unfold layout, wf in *. cbn. rewrite fmap_app. f_equal.
  - apply layout_heap_app, Hwf.
  - cbn. rewrite lookup_app_r by lia. rewrite Nat.sub_diag. reflexivity.
Qed.

Lemma one_placement_per_choice_witness :
  "Label" ∈ SUPPORTED_WIDGETS /\ wf button_placed /\
  layout (canvas_click 100 100 None (select_widget "Label" button_placed))
    = layout button_placed ++ [Some ("Label", snap 100, snap 100)] /\
  active_widget (canvas_click 100 100 None (select_widget "Label" button_placed))
    = None /\
  canvas_click 200 200 None
    (canvas_click 100 100 None (select_widget "Label" button_placed))
    = canvas_click 100 100 None (select_widget "Label" button_placed).
Proof.
  assert (Hs : "Label" ∈ SUPPORTED_WIDGETS)
    by (apply make_widget_supported; cbn; eauto).
  assert (Hwf : wf button_placed) by (repeat constructor).
  split; [exact Hs|]. split; [exact Hwf|].
  apply (one_placement_per_choice "Label" 100 100 200 200 None button_placed
           Hs Hwf).
Defined.

(** ** Undoing and redoing a placement *)

Lemma placed_then_undone (x y : Z) (s : GUIBuilder) (wtype : string)
  (t : TkWidget) :
  active_widget s = Some wtype -> make_widget wtype = Some t -> wf s ->
  exists c,
    undo (place_widget x y s) =
      (Ok tt,
       {| active_widget := None;
          widgets := widgets s;
          current_file := current_file s;
          undo_stack := undo_stack s;
          redo_stack := [Create (length (heap s))];
          canvas := c;
          heap := heap s ++
                  [set_widget (destroy t)
                     (fresh_dw t wtype (snap x) (snap y) (next_item (canvas s)))];
          errors := errors s |}).
Proof.
  intros Ha Hm Hwf. destruct (place_widget_some x y s wtype t Ha Hm) as [c ->].
  unfold undo. cbn. rewrite pop_snoc. cbn.
  unfold bind, lift, delete_item_and_destroy, widgets_remove. cbn.
  rewrite lookup_app_r by lia. rewrite Nat.sub_diag. cbn.
  rewrite list_remove_snoc by exact Hwf.
  unfold update_dw, on_canvas. cbn.
  rewrite alter_app_r_alt by lia. rewrite Nat.sub_diag. cbn.
  eexists. reflexivity.
Qed.

(** [place_widget], [undo]: undoing a placement succeeds and takes exactly
    the placed widget out again: the widget list, the layout and the undo
    stack are what they were before the placement. *)
Theorem place_undo_restores (x y : Z) (s : GUIBuilder) (wtype : string) :
  active_widget s = Some wtype -> wtype ∈ SUPPORTED_WIDGETS -> wf s ->
  (undo (place_widget x y s)).1 = Ok tt /\
  widgets (run undo (place_widget x y s)) = widgets s /\
  layout (run undo (place_widget x y s)) = layout s /\
  undo_stack (run undo (place_widget x y s)) = undo_stack s.
Proof.
  intros Ha Hs Hwf.
  destruct (proj2 (make_widget_supported wtype) Hs) as [t Hm].
  unfold run. destruct (placed_then_undone x y s wtype t Ha Hm Hwf) as [c ->].
  cbn. repeat split. unfold layout. cbn. apply layout_heap_app, Hwf.
Qed.

Lemma place_undo_restores_witness :
  active_widget (select_widget "Label" button_placed) = Some "Label" /\
  "Label" ∈ SUPPORTED_WIDGETS /\ wf (select_widget "Label" button_placed) /\
  (undo (place_widget 100 100 (select_widget "Label" button_placed))).1 = Ok tt /\
  widgets (run undo (place_widget 100 100 (select_widget "Label" button_placed)))
    = widgets (select_widget "Label" button_placed) /\
  layout (run undo (place_widget 100 100 (select_widget "Label" button_placed)))
    = layout (select_widget "Label" button_placed) /\
  undo_stack (run undo (place_widget 100 100 (select_widget "Label" button_placed)))
    = undo_stack (select_widget "Label" button_placed).
Proof.
  assert (Hs : "Label" ∈ SUPPORTED_WIDGETS)
    by (apply make_widget_supported; cbn; eauto).
  assert (Hwf : wf (select_widget "Label" button_placed))
    by (repeat constructor).
  split; [reflexivity|]. split; [exact Hs|]. split; [exact Hwf|].
  apply (place_undo_restores 100 100 (select_widget "Label" button_placed)
           "Label" eq_refl Hs Hwf).
Defined.

(** [push_undo], [redo]: a placement empties the redo stack, so whatever
    had been undone before it can no longer be redone: [redo] right after a
    placement changes nothing. *)
Theorem placement_discards_redo (x y : Z) (s : GUIBuilder) (wtype : string) :
  active_widget s = Some wtype -> wtype ∈ SUPPORTED_WIDGETS ->
  redo_stack (place_widget x y s) = [] /\
  run redo (place_widget x y s) = place_widget x y s.
Proof.
  intros Ha Hs.
  destruct (proj2 (make_widget_supported wtype) Hs) as [t Hm].
  destruct (place_widget_some x y s wtype t Ha Hm) as [c ->].
  split; reflexivity.
Qed.

Lemma placement_discards_redo_witness :
  active_widget (select_widget "Label" (run undo button_placed)) = Some "Label" /\
  "Label" ∈ SUPPORTED_WIDGETS /\
  redo_stack (run undo button_placed) = [Create 0] /\
  redo_stack (place_widget 100 100 (select_widget "Label" (run undo button_placed)))
    = [] /\
  run redo (place_widget 100 100 (select_widget "Label" (run undo button_placed)))
    = place_widget 100 100 (select_widget "Label" (run undo button_placed)).
Proof.
  assert (Hs : "Label" ∈ SUPPORTED_WIDGETS)
    by (apply make_widget_supported; cbn; eauto).
  split; [reflexivity|]. split; [exact Hs|]. split; [reflexivity|].
  apply (placement_discards_redo 100 100
           (select_widget "Label" (run undo button_placed)) "Label" eq_refl Hs).
Defined.

(** ** Deleting the selection *)

Lemma list_remove_middle (a : nat) (pre l : list nat) :
  a ∉ pre -> list_remove a (pre ++ a :: l) = Some (pre ++ l).
Proof.
  induction pre as [|b pre IH]; intros Hn; cbn.
  - destruct (decide (a = a)); [reflexivity | contradiction].
  - apply not_elem_of_cons in Hn. destruct Hn as [Hab Hn].
    destruct (decide (a = b)); [contradiction|]. rewrite IH by exact Hn.
    reflexivity.
Qed.

(** Removing, one after the other, the elements that satisfy [P] leaves the
    elements that do not, in their order: each removal hits the first
    element satisfying [P], since [remove] takes the first equal one. *)
Lemma remove_each_filter (P : nat -> Prop) `{!forall d, Decision (P d)}
  (l : list nat) :
  forall pre, Forall (fun d => ~ P d) pre ->
  remove_each (filter P l) (pre ++ l)
  = Some (pre ++ filter (fun d => ~ P d) l).
Proof.
  induction l as [|a l IH]; intros pre Hpre.
  - reflexivity.
  - rewrite !filter_cons. destruct (decide (P a)) as [Ha|Ha].
    + destruct (decide (~ P a)) as [Hn|_]; [contradiction|].
      cbn. rewrite list_remove_middle; [cbn; apply IH, Hpre|].
      intros Hin. rewrite Forall_forall in Hpre. exact (Hpre a Hin Ha).
    + destruct (decide (~ P a)) as [_|Hn]; [|contradiction].
      replace (pre ++ a :: l) with ((pre ++ [a]) ++ l)
        by (rewrite <- app_assoc; reflexivity).
      rewrite IH.
      * rewrite <- app_assoc. reflexivity.
      * apply Forall_app. split; [exact Hpre | repeat constructor; exact Ha].
Qed.

Lemma delete_one (dw : ref) (s : GUIBuilder) (l : list ref) :
  list_remove dw (widgets s) = Some l ->
  (lift (push_undo (Delete dw)) ;;;
   lift (delete_item_and_destroy dw) ;;;
   widgets_remove dw) s
  = (Ok tt,
     set_widgets l (delete_item_and_destroy dw (push_undo (Delete dw) s))).
Proof.
  intros Hl. unfold bind, lift, widgets_remove. cbn.
  destruct (delete_item_and_destroy_keeps dw (push_undo (Delete dw) s))
    as (_ & _ & -> & _).
  cbn. rewrite Hl. reflexivity.
Qed.

Lemma delete_one_other (dw other : ref) (s : GUIBuilder) (l : list ref) :
  dw ≠ other ->
  heap (set_widgets l (delete_item_and_destroy dw (push_undo (Delete dw) s)))
    !! other = heap s !! other.
Proof.
  intros Hne. unfold delete_item_and_destroy. cbn.
  destruct (heap s !! dw); cbn; [|reflexivity].
  apply list_lookup_alter_ne, Hne.
Qed.

Lemma delete_loop (chosen : list ref) :
  forall (s : GUIBuilder) (l : list ref),
  remove_each chosen (widgets s) = Some l ->
  exists s',
    for_each chosen (fun dw =>
      lift (push_undo (Delete dw)) ;;;
      lift (delete_item_and_destroy dw) ;;;
      widgets_remove dw) s = (Ok tt, s') /\
    widgets s' = l /\
    undo_stack s' = undo_stack s ++ (Delete <$> chosen) /\
    (chosen = [] -> s' = s) /\
    (chosen ≠ [] -> redo_stack s' = []) /\
    (forall other, other ∉ chosen -> heap s' !! other = heap s !! other).
Proof.
  induction chosen as [|dw chosen IH]; intros s l Hl; cbn in Hl.
  - injection Hl as <-. exists s. cbn. rewrite app_nil_r.
    repeat split; auto. intros H; contradiction.
  - destruct (list_remove dw (widgets s)) as [l1|] eqn:H1; [|discriminate].
    cbn in Hl.
    set (s1 := set_widgets l1
                 (delete_item_and_destroy dw (push_undo (Delete dw) s))).
    assert (Hw1 : widgets s1 = l1) by reflexivity.
    destruct (IH s1 l (eq_trans (f_equal (remove_each chosen) Hw1) Hl))
      as (s' & Hrun & Hw & Hu & Hnil & Hr & Hother).
    exists s'. cbn [for_each]. unfold bind at 1.
    rewrite (delete_one dw s l1 H1). fold s1. rewrite Hrun.
    assert (Hu1 : undo_stack s1 = undo_stack s ++ [Delete dw]).
    { unfold s1. cbn.
      destruct (delete_item_and_destroy_keeps dw (push_undo (Delete dw) s))
        as (_ & _ & _ & -> & _). reflexivity. }
    assert (Hr1 : redo_stack s1 = []).
    { unfold s1. cbn.
      destruct (delete_item_and_destroy_keeps dw (push_undo (Delete dw) s))
        as (_ & _ & _ & _ & -> & _). reflexivity. }
    split; [reflexivity|]. split; [exact Hw|].
    split; [rewrite Hu, Hu1, <- app_assoc; reflexivity|].
    split; [discriminate|]. split.
    + intros _. destruct chosen as [|d chosen'].
      * rewrite (Hnil eq_refl). exact Hr1.
      * apply Hr. discriminate.
    + intros other Ho. apply not_elem_of_cons in Ho. destruct Ho as [Hne Ho].
      rewrite (Hother other Ho). unfold s1.
      apply delete_one_other. congruence.
Qed.

(** [delete_selected]: it never raises; it removes from the document all
    the widgets whose [selected] attribute is true and only those, keeping
    the others in order and untouched, and pushes one [Delete] per removed
    widget, in document order. *)
Theorem delete_selected_removes_selected (s : GUIBuilder) :
  (delete_selected s).1 = Ok tt /\
  widgets (run delete_selected s)
    = filter (fun dw => ~ (selected <$> heap s !! dw = Some true)) (widgets s) /\
  undo_stack (run delete_selected s)
    = undo_stack s ++ (Delete <$> chosen_for_deletion s) /\
  (forall dw, dw ∉ chosen_for_deletion s ->
     heap (run delete_selected s) !! dw = heap s !! dw).
Proof.
  pose proof (remove_each_filter
                (fun dw => selected <$> heap s !! dw = Some true)
                (widgets s) [] (Forall_nil_2 _)) as Hrem.
  cbn [app] in Hrem.
  destruct (delete_loop (chosen_for_deletion s) s _ Hrem)
    as (s' & Hrun & Hw & Hu & _ & _ & Hother).
  unfold run, delete_selected. fold (chosen_for_deletion s).
  rewrite Hrun. cbn. auto.
Qed.

(** The button and the label both selected: both go, in document order. *)
Example delete_selected_both :
  widgets (run delete_selected (select 1 button_and_label)) = [] /\
  undo_stack (run delete_selected (select 1 button_and_label))
    = [Create 0; Create 1; Delete 0; Delete 1].
Proof. vm_compute. auto. Qed.

(** ** What no event undoes: selection and destruction *)

Lemma later_object_refl (w : DraggableWidget) : later_object w w.
Proof. repeat split; auto. Qed.

Lemma later_object_trans (a b c : DraggableWidget) :
  later_object a b -> later_object b c -> later_object a c.
Proof.
  intros (Ht & Hs & Hd) (Ht' & Hs' & Hd'). repeat split; [congruence|auto..].
Qed.

Lemma reconfigured_later (w w' : DraggableWidget) :
  reconfigured w w' -> later_object w w'.
Proof.
  intros [E Ha]. rewrite E. repeat split; cbn; [auto|]. congruence.
Qed.

Lemma persists_refl (s : GUIBuilder) : persists s s.
Proof. intros dw w H. exists w. split; [exact H | apply later_object_refl]. Qed.

Lemma persists_trans (a b c : GUIBuilder) :
  persists a b -> persists b c -> persists a c.
Proof.
  intros Hab Hbc dw w H. destruct (Hab dw w H) as (w1 & H1 & L1).
  destruct (Hbc dw w1 H1) as (w2 & H2 & L2). exists w2.
  split; [exact H2 | eapply later_object_trans; eassumption].
Qed.

Lemma persists_heap (s s' : GUIBuilder) : heap s' = heap s -> persists s s'.
Proof. intros E dw w H. exists w. rewrite E. split; [exact H | apply later_object_refl]. Qed.

Lemma persists_update_dw (dw : ref) (f : DraggableWidget -> DraggableWidget)
  (s : GUIBuilder) :
  (forall w, heap s !! dw = Some w -> later_object w (f w)) ->
  persists s (update_dw dw f s).
Proof.
  intros Hf d w H. cbn. rewrite list_lookup_alter.
  destruct (decide (dw = d)) as [->|].
  - rewrite H. cbn. eauto.
  - exists w. split; [exact H | apply later_object_refl].
Qed.

Lemma persists_app (s s' : GUIBuilder) (k : list DraggableWidget) :
  heap s' = heap s ++ k -> persists s s'.
Proof.
  intros E dw w H. exists w. rewrite E.
  split; [apply lookup_app_l_Some, H | apply later_object_refl].
Qed.

Lemma quiet_refl (s : GUIBuilder) : quiet s s.
Proof. split; [apply persists_refl | auto]. Qed.

Lemma quiet_same (s s' : GUIBuilder) :
  heap s' = heap s -> undo_stack s' = undo_stack s ->
  redo_stack s' = redo_stack s -> quiet s s'.
Proof. intros Hh Hu Hr. split; [apply persists_heap, Hh | auto]. Qed.

Lemma quiet_trans (a b c : GUIBuilder) : quiet a b -> quiet b c -> quiet a c.
Proof.
  intros (P1 & U1 & R1) (P2 & U2 & R2).
  split; [eapply persists_trans; eassumption | split; congruence].
Qed.

Lemma quiet_update_dw (dw : ref) (f : DraggableWidget -> DraggableWidget)
  (s : GUIBuilder) :
  (forall w, heap s !! dw = Some w -> later_object w (f w)) ->
  quiet s (update_dw dw f s).
Proof. intros Hf. split; [apply persists_update_dw, Hf | auto]. Qed.

Lemma select_quiet (dw : ref) (s : GUIBuilder) : quiet s (select dw s).
Proof.
  destruct (select_stacks dw s) as (Hu & Hr & _).
  split; [|auto]. intros d w H. rewrite select_heap, list_lookup_alter.
  destruct (decide (dw = d)) as [->|].
  - rewrite H. cbn. eexists. split; [reflexivity|]. repeat split; auto.
  - exists w. split; [exact H | apply later_object_refl].
Qed.

Lemma on_start_quiet (dw : ref) (ex ey : Z) (s : GUIBuilder) :
  quiet s (on_start dw ex ey s).
Proof.
  unfold on_start. eapply quiet_trans; [|apply select_quiet].
  apply quiet_update_dw. intros w _. repeat split; auto.
Qed.

Lemma on_drag_quiet (dw : ref) (ex ey : Z) (s : GUIBuilder) :
  quiet s (run (on_drag dw ex ey) s).
Proof.
  unfold run, on_drag. destruct (heap s !! dw) as [w|]; [|apply quiet_refl].
  destruct (start_x w), (start_y w); try apply quiet_refl.
  case_match; [|apply quiet_refl]. cbn.
  apply (quiet_update_dw dw _ (on_canvas _ s)). intros w' _. repeat split; auto.
Qed.

Lemma delete_item_and_destroy_quiet (dw : ref) (s : GUIBuilder) :
  quiet s (delete_item_and_destroy dw s).
Proof.
  unfold delete_item_and_destroy.
  destruct (heap s !! dw) as [w|]; [|apply quiet_refl].
  apply (quiet_update_dw dw _ (on_canvas _ s)). intros w' _. repeat split; auto.
Qed.

Lemma recreate_window_quiet (dw : ref) (s : GUIBuilder) :
  quiet s (run (recreate_window dw) s).
Proof.
  unfold run, recreate_window.
  destruct (heap s !! dw) as [w|]; [|apply quiet_refl].
  destruct (tk_alive (widget w)); cbn; [|apply quiet_same; reflexivity].
  apply (quiet_update_dw dw _ (set_canvas _ s)). intros w' _. repeat split; auto.
Qed.

Lemma widgets_remove_quiet (dw : ref) (s : GUIBuilder) :
  quiet s (run (widgets_remove dw) s).
Proof.
  unfold run, widgets_remove.
  destruct (list_remove dw (widgets s)); apply quiet_same; reflexivity.
Qed.

Lemma config_later (tk : Toolkit) (w : DraggableWidget) (prop value : string)
  (t : TkWidget) :
  config tk (widget w) prop value = Ok t -> later_object w (set_widget t w).
Proof.
  unfold config. destruct (tk_alive (widget w)) eqn:Ha; cbn; [|discriminate].
  destruct (_ && _); [|discriminate]. intros [= <-].
  repeat split; auto. congruence.
Qed.

Lemma update_property_quiet (tk : Toolkit) (dw : ref) (row : option string)
  (new_value : string) (s : GUIBuilder) :
  quiet s (update_property tk dw row new_value s).
Proof.
  unfold update_property. destruct row as [prop|]; [|apply quiet_refl].
  destruct (heap s !! dw) as [w|] eqn:Hw; [|apply quiet_refl].
  destruct (decide (prop = "x")).
  { destruct (py_int new_value); [|apply quiet_same; reflexivity].
    apply (quiet_update_dw dw _ (on_canvas _ s)). intros; repeat split; auto. }
  destruct (decide (prop = "y")).
  { destruct (py_int new_value); [|apply quiet_same; reflexivity].
    apply (quiet_update_dw dw _ (on_canvas _ s)). intros; repeat split; auto. }
  destruct (config tk (widget w) prop new_value) as [t|] eqn:Hc;
    [|apply quiet_same; reflexivity].
  apply quiet_update_dw. intros w' Hw'. rewrite Hw in Hw'. injection Hw' as <-.
  eapply config_later, Hc.
Qed.

Lemma place_widget_persists (x y : Z) (s : GUIBuilder) :
  persists s (place_widget x y s).
Proof.
  destruct (active_widget s) as [wtype|] eqn:Ha;
    [|unfold place_widget; rewrite Ha; apply persists_refl].
  destruct (make_widget wtype) as [t|] eqn:Hm.
  - destruct (place_widget_some x y s wtype t Ha Hm) as [c ->].
    eapply persists_app. reflexivity.
  - rewrite (place_widget_none x y s wtype Ha Hm). apply persists_refl.
Qed.

Lemma canvas_click_persists (ex ey : Z) (clicked : option nat) (s : GUIBuilder) :
  persists s (canvas_click ex ey clicked s).
Proof.
  unfold canvas_click. destruct (truthy _); [apply place_widget_persists|].
  repeat (case_match; try apply persists_refl). apply select_quiet.
Qed.

Lemma clear_loop_persists (l : list ref) :
  forall s, persists s (fold_left (fun s dw => delete_item_and_destroy dw s) l s).
Proof.
  induction l as [|dw l IH]; intros s; cbn; [apply persists_refl|].
  eapply persists_trans; [apply delete_item_and_destroy_quiet | apply IH].
Qed.

Lemma clear_canvas_persists (s : GUIBuilder) : persists s (clear_canvas s).
Proof.
  unfold clear_canvas.
  eapply persists_trans; [apply (clear_loop_persists (widgets s))|].
  apply persists_heap. reflexivity.
Qed.

Lemma load_widget_persists (tk : Toolkit) (wd : WidgetData) (s : GUIBuilder) :
  persists s (load_widget tk wd s).
Proof.
  destruct (make_widget (wd_type wd)) as [t|] eqn:Hm.
  - destruct (load_widget_some tk wd s t Hm) as [c ->].
    eapply persists_app. reflexivity.
  - rewrite (load_widget_none tk wd s Hm).
    destruct (last (widgets s)); [|apply persists_heap; reflexivity].
    apply (persists_update_dw _ _ (set_active_widget _ s)).
    intros w _. apply reconfigured_later, apply_options_reconfigured.
Qed.

Lemma open_project_persists (tk : Toolkit)
  (choice : option (string * option LayoutFile)) (s : GUIBuilder) :
  persists s (open_project tk choice s).
Proof.
  destruct choice as [[file_path [data|]]|]; cbn;
    try (apply persists_heap; reflexivity).
  assert (Hl : forall l s,
    persists s (fold_left (fun s wd => load_widget tk wd s) l s)).
  { induction l as [|wd l IH]; intros s1; cbn; [apply persists_refl|].
    eapply persists_trans; [apply load_widget_persists | apply IH]. }
  eapply persists_trans; [apply clear_canvas_persists|].
  eapply persists_trans; [|apply Hl]. apply persists_heap. reflexivity.
Qed.

Lemma for_each_keeps_in {A} (P : GUIBuilder -> Prop) (body : A -> M unit)
  (l : list A) :
  (forall v s, v ∈ l -> P s -> P (run (body v) s)) ->
  forall s, P s -> P (run (for_each l body) s).
Proof.
  induction l as [|v l IH]; intros Hb s Hs; [exact Hs|].
  unfold run in *. cbn. unfold bind.
  pose proof (Hb v s (list_elem_of_here _ _) Hs) as H1.
  destruct (body v s) as [[[]|e] s1]; cbn in *; [|exact H1].
  apply IH; [|exact H1]. intros v' s' Hin. apply Hb. right. exact Hin.
Qed.

Lemma delete_body_persists (dw : ref) (s : GUIBuilder) :
  persists s (run (lift (push_undo (Delete dw)) ;;;
                   lift (delete_item_and_destroy dw) ;;;
                   widgets_remove dw) s).
Proof.
  unfold run, bind, lift. cbn.
  eapply persists_trans; [|apply (widgets_remove_quiet dw)].
  eapply persists_trans; [|apply delete_item_and_destroy_quiet].
  apply persists_heap. reflexivity.
Qed.

Lemma delete_selected_persists (s : GUIBuilder) :
  persists s (run delete_selected s).
Proof.
  unfold delete_selected.
  apply (for_each_keeps (persists s)); [|apply persists_refl].
  intros dw s1 H1. eapply persists_trans; [exact H1|].
  apply delete_body_persists.
Qed.

Lemma undo_persists (s : GUIBuilder) : persists s (run undo s).
Proof.
  unfold run, undo.
  destruct (pop (undo_stack s)) as [[a rest]|]; [|apply persists_refl].
  set (s1 := set_redo_stack _ _).
  assert (H1 : persists s s1) by (apply persists_heap; reflexivity).
  eapply persists_trans; [exact H1|]. clearbody s1.
  destruct a as [dw|dw|dw old_x old_y].
  - unfold bind, lift. cbn.
    eapply persists_trans; [apply delete_item_and_destroy_quiet|].
    apply (widgets_remove_quiet dw).
  - unfold bind, lift. cbn.
    eapply persists_trans; [|apply (recreate_window_quiet dw)].
    apply persists_heap. reflexivity.
  - destruct (heap s1 !! dw); [|apply persists_refl]. cbn.
    apply (persists_update_dw dw _ (on_canvas _ s1)).
    intros; repeat split; auto.
Qed.

Lemma redo_persists (s : GUIBuilder) : persists s (run redo s).
Proof.
  unfold run, redo.
  destruct (pop (redo_stack s)) as [[a rest]|]; [|apply persists_refl].
  set (s1 := set_undo_stack _ _).
  assert (H1 : persists s s1) by (apply persists_heap; reflexivity).
  eapply persists_trans; [exact H1|]. clearbody s1.
  destruct a as [dw|dw|dw old_x old_y].
  - unfold bind, lift. cbn.
    eapply persists_trans; [|apply (recreate_window_quiet dw)].
    apply persists_heap. reflexivity.
  - unfold bind, lift. cbn.
    eapply persists_trans; [apply delete_item_and_destroy_quiet|].
    apply (widgets_remove_quiet dw).
  - destruct (heap s1 !! dw); [|apply persists_refl]. cbn.
    apply (persists_update_dw dw _ (on_canvas _ s1)).
    intros; repeat split; auto.
Qed.

Lemma on_release_persists (dw : ref) (s : GUIBuilder) :
  persists s (on_release dw s).
Proof.
  apply persists_heap. unfold on_release.
  destruct (update_appearance_heap dw s) as (Hh & _).
  destruct (heap (update_appearance dw s) !! dw); [|exact Hh].
  destruct (bool_decide _); exact Hh.
Qed.

Lemma handle_persists (tk : Toolkit) (e : event) (s : GUIBuilder) :
  persists s (handle tk e s).
Proof.
  destruct e; cbn [handle].
  - apply persists_heap. reflexivity.
  - apply canvas_click_persists.
  - apply on_start_quiet.
  - apply on_drag_quiet.
  - apply on_release_persists.
  - apply select_quiet.
  - apply delete_item_and_destroy_quiet.
  - apply persists_heap. unfold bring_to_front.
    destruct (heap s !! dw); reflexivity.
  - apply persists_heap. unfold send_to_back.
    destruct (heap s !! dw); reflexivity.
  - apply update_property_quiet.
  - unfold new_project. destruct (_ && _); [apply persists_refl|].
    eapply persists_trans; [apply clear_canvas_persists|].
    apply persists_heap. reflexivity.
  - apply open_project_persists.
  - apply persists_heap. unfold _save_to_file.
    destruct (save_data tk s); reflexivity.
  - apply delete_selected_persists.
  - apply undo_persists.
  - apply redo_persists.
Qed.

(** [select] and every handler: no event of the view layer ever clears a
    [selected] attribute; [deselect] is never called, so a widget selected
    once stays selected through every later event. *)
Theorem selection_never_cleared (tk : Toolkit) (e : event) (s : GUIBuilder)
  (dw : ref) :
  is_selected dw s = Some true -> is_selected dw (handle tk e s) = Some true.
Proof.
  unfold is_selected. intros H.
  destruct (heap s !! dw) as [w|] eqn:Hw; [|discriminate].
  injection H as Hs.
  destruct (handle_persists tk e s dw w Hw) as (w' & -> & _ & Hsel & _).
  cbn. rewrite (Hsel Hs). reflexivity.
Qed.

Lemma selection_never_cleared_witness :
  is_selected 0 button_and_label = Some true /\
  is_selected 0 (handle tk86 (ContextMenu 1) button_and_label) = Some true.
Proof.
  split; [reflexivity|].
  apply (selection_never_cleared tk86 (ContextMenu 1) button_and_label 0).
  reflexivity.
Defined.

(** [destroy] and every handler: no event of the view layer gives a
    destroyed Tk widget back; an object whose widget was destroyed, by a
    deletion, an undone creation, the context menu or a cleared canvas,
    keeps a destroyed widget through every later event. *)
Theorem destroyed_never_revived (tk : Toolkit) (e : event) (s : GUIBuilder)
  (dw : ref) :
  destroyed dw s -> destroyed dw (handle tk e s).
Proof.
  unfold destroyed. intros H.
  destruct (heap s !! dw) as [w|] eqn:Hw; [|discriminate].
  injection H as Hd.
  destruct (handle_persists tk e s dw w Hw) as (w' & -> & _ & _ & Hdead).
  cbn in *. rewrite (Hdead Hd). reflexivity.
Qed.

Lemma destroyed_never_revived_witness :
  destroyed 0 button_restored /\
  destroyed 0 (handle tk86 MenuRedo (handle tk86 MenuUndo button_restored)).
Proof.
  split; [reflexivity|].
  apply (destroyed_never_revived tk86 MenuRedo).
  apply (destroyed_never_revived tk86 MenuUndo).
  reflexivity.
Defined.

(** ** The history never holds a deletion that can be undone *)

Lemma destroyed_mono (s s' : GUIBuilder) (dw : ref) :
  persists s s' -> destroyed dw s -> destroyed dw s'.
Proof.
  unfold destroyed. intros Hp H.
  destruct (heap s !! dw) as [w|] eqn:Hw; [|discriminate].
  injection H as Hd. destruct (Hp dw w Hw) as (w' & -> & _ & _ & Hdead).
  cbn in *. rewrite (Hdead Hd). reflexivity.
Qed.

Lemma destroyed_valid (s : GUIBuilder) (dw : ref) :
  destroyed dw s -> is_Some (heap s !! dw).
Proof.
  unfold destroyed. destruct (heap s !! dw); [eauto | discriminate].
Qed.

Lemma undoable_mono (s s' : GUIBuilder) (a : action) :
  persists s s' -> undoable s a -> undoable s' a.
Proof.
  intros Hp. destruct a as [dw|dw|]; cbn; [|apply destroyed_mono, Hp|auto].
  intros [w Hw]. destruct (Hp dw w Hw) as (w' & -> & _). eauto.
Qed.

Lemma redoable_mono (s s' : GUIBuilder) (a : action) :
  persists s s' -> redoable s a -> redoable s' a.
Proof.
  intros Hp. destruct a as [dw|dw|]; cbn; auto; apply destroyed_mono, Hp.
Qed.

Lemma history_mono (s s' : GUIBuilder) :
  persists s s' ->
  undo_stack s' = undo_stack s -> redo_stack s' = redo_stack s ->
  history_sound s -> history_sound s'.
Proof.
  intros Hp Hu Hr [H1 H2]. unfold history_sound. rewrite Hu, Hr. split.
  - eapply Forall_impl; [exact H1|]. intros a. apply undoable_mono, Hp.
  - eapply Forall_impl; [exact H2|]. intros a. apply redoable_mono, Hp.
Qed.

Lemma history_quiet (s s' : GUIBuilder) :
  quiet s s' -> history_sound s -> history_sound s'.
Proof. intros (Hp & Hu & Hr). apply history_mono; assumption. Qed.

Lemma history_pushed (s s' : GUIBuilder) (a : action) :
  persists s s' ->
  undo_stack s' = undo_stack s ++ [a] -> redo_stack s' = [] ->
  undoable s' a ->
  history_sound s -> history_sound s'.
Proof.
  intros Hp Hu Hr Ha [H1 _]. unfold history_sound. rewrite Hu, Hr.
  split; [|constructor]. apply Forall_app. split.
  - eapply Forall_impl; [exact H1|]. intros b. apply undoable_mono, Hp.
  - repeat constructor. exact Ha.
Qed.

Lemma place_widget_history (x y : Z) (s : GUIBuilder) :
  history_sound s -> history_sound (place_widget x y s).
Proof.
  intros H. destruct (active_widget s) as [wtype|] eqn:Ha;
    [|unfold place_widget; rewrite Ha; exact H].
  destruct (make_widget wtype) as [t|] eqn:Hm.
  - pose proof (place_widget_persists x y s) as Hp.
    destruct (place_widget_some x y s wtype t Ha Hm) as [c E].
    rewrite E in *.
    eapply (history_pushed s _ (Create (length (heap s)))); eauto.
    cbn. rewrite lookup_app_r by lia. rewrite Nat.sub_diag. cbn. eauto.
  - rewrite (place_widget_none x y s wtype Ha Hm). exact H.
Qed.

Lemma load_widget_history (tk : Toolkit) (wd : WidgetData) (s : GUIBuilder) :
  history_sound s -> history_sound (load_widget tk wd s).
Proof.
  intros H. pose proof (load_widget_persists tk wd s) as Hp.
  destruct (make_widget (wd_type wd)) as [t|] eqn:Hm.
  - destruct (load_widget_some tk wd s t Hm) as [c E]. rewrite E in *.
    eapply (history_pushed s _ (Create (length (heap s)))); eauto.
    cbn. rewrite lookup_app_r by lia. rewrite Nat.sub_diag. cbn. eauto.
  - eapply history_mono; [exact Hp| | |exact H];
      rewrite (load_widget_none tk wd s Hm);
      destruct (last (widgets s)); reflexivity.
Qed.

Lemma cleared_history (s : GUIBuilder) : history_sound (clear_canvas s).
Proof. split; constructor. Qed.

Lemma open_project_history (tk : Toolkit)
  (choice : option (string * option LayoutFile)) (s : GUIBuilder) :
  history_sound s -> history_sound (open_project tk choice s).
Proof.
  intros H. destruct choice as [[file_path [data|]]|]; cbn; [| |exact H].
  - assert (Hl : forall l s, history_sound s ->
      history_sound (fold_left (fun s wd => load_widget tk wd s) l s)).
    { induction l as [|wd l IH]; intros s1 H1; cbn; [exact H1|].
      apply IH, load_widget_history, H1. }
    apply Hl. split; constructor.
  - eapply history_quiet; [|exact H]. apply quiet_same; reflexivity.
Qed.

Lemma on_release_history (dw : ref) (s : GUIBuilder) :
  history_sound s -> history_sound (on_release dw s).
Proof.
  intros H. pose proof (on_release_persists dw s) as Hp. revert Hp.
  unfold on_release.
  destruct (update_appearance_heap dw s) as (Hh & Hu & Hr & _).
  destruct (heap (update_appearance dw s) !! dw) as [w|].
  - destruct (bool_decide _); intros Hp.
    + eapply (history_pushed s _ (Move dw (original_x w) (original_y w)));
        [exact Hp | cbn; rewrite Hu; reflexivity | reflexivity | exact I
        | exact H].
    + eapply history_mono; eauto.
  - intros Hp. eapply history_mono; eauto.
Qed.

Lemma delete_item_and_destroy_destroys (dw : ref) (s : GUIBuilder) :
  is_Some (heap s !! dw) -> destroyed dw (delete_item_and_destroy dw s).
Proof.
  intros [w Hw]. unfold destroyed.
  rewrite (delete_item_and_destroy_lookup dw s w Hw). reflexivity.
Qed.

Lemma delete_body_history (dw : ref) (s : GUIBuilder) :
  is_Some (heap s !! dw) -> history_sound s ->
  history_sound (run (lift (push_undo (Delete dw)) ;;;
                      lift (delete_item_and_destroy dw) ;;;
                      widgets_remove dw) s).
Proof.
  intros Hv H. pose proof (delete_body_persists dw s) as Hp. revert Hp.
  unfold run, bind, lift. cbn.
  set (s1 := delete_item_and_destroy dw (push_undo (Delete dw) s)).
  assert (Hd : destroyed dw s1) by (apply delete_item_and_destroy_destroys, Hv).
  destruct (delete_item_and_destroy_keeps dw (push_undo (Delete dw) s))
    as (_ & _ & _ & Hu & Hr & _). fold s1 in Hu, Hr.
  destruct (widgets_remove_quiet dw s1) as (Hq & Hu' & Hr').
  intros Hp.
  eapply (history_pushed s _ (Delete dw)); [exact Hp| | | |exact H].
  - unfold run in Hu'. rewrite Hu', Hu. reflexivity.
  - unfold run in Hr'. rewrite Hr', Hr. reflexivity.
  - apply (destroyed_mono s1); assumption.
Qed.

Lemma delete_selected_history (s : GUIBuilder) :
  history_sound s -> history_sound (run delete_selected s).
Proof.
  intros H. unfold delete_selected.
  apply (for_each_keeps_in (fun s' => history_sound s' /\ persists s s'));
    [|split; [exact H | apply persists_refl]].
  intros dw s1 Hin [H1 Hp]. split.
  - apply delete_body_history; [|exact H1].
    apply list_elem_of_filter in Hin. destruct Hin as [Hsel _].
    destruct (heap s !! dw) as [w|] eqn:Hw; [|discriminate].
    destruct (Hp dw w Hw) as (w' & -> & _). eauto.
  - eapply persists_trans; [exact Hp | apply delete_body_persists].
Qed.

Lemma undo_create_destroys (s : GUIBuilder) (rest : list action) (dw : ref) :
  undo_stack s = rest ++ [Create dw] -> is_Some (heap s !! dw) ->
  destroyed dw (run undo s).
Proof.
  intros Hu Hv. unfold run, undo. rewrite Hu, pop_snoc. cbn.
  unfold bind, lift. cbn.
  set (s1 := set_redo_stack _ _).
  eapply (destroyed_mono (delete_item_and_destroy dw s1));
    [apply (widgets_remove_quiet dw)|].
  apply delete_item_and_destroy_destroys. exact Hv.
Qed.

Lemma undo_history (s : GUIBuilder) :
  history_sound s -> history_sound (run undo s).
Proof.
  intros H. destruct (pop (undo_stack s)) as [[a rest]|] eqn:Hp.
  - apply pop_Some in Hp. destruct (undo_moves_top s rest a Hp) as [Hu Hr].
    pose proof (undo_persists s) as Hper. destruct H as [H1 H2].
    rewrite Hp in H1. apply Forall_app in H1. destruct H1 as [Hrest Ha].
    rewrite Forall_singleton in Ha.
    unfold history_sound. rewrite Hu, Hr. split.
    + eapply Forall_impl; [exact Hrest|]. intros b. apply undoable_mono, Hper.
    + apply Forall_app. split.
      * eapply Forall_impl; [exact H2|]. intros b. apply redoable_mono, Hper.
      * repeat constructor. destruct a as [dw|dw|]; cbn in *; [| |exact I].
        -- eapply undo_create_destroys; eassumption.
        -- eapply destroyed_mono; eassumption.
  - unfold run, undo. rewrite Hp. exact H.
Qed.

Lemma redo_history (s : GUIBuilder) :
  history_sound s -> history_sound (run redo s).
Proof.
  intros H. destruct (pop (redo_stack s)) as [[a rest]|] eqn:Hp.
  - apply pop_Some in Hp. destruct (redo_moves_top s rest a Hp) as [Hr Hu].
    pose proof (redo_persists s) as Hper. destruct H as [H1 H2].
    rewrite Hp in H2. apply Forall_app in H2. destruct H2 as [Hrest Ha].
    rewrite Forall_singleton in Ha.
    unfold history_sound. rewrite Hu, Hr. split.
    + apply Forall_app. split.
      * eapply Forall_impl; [exact H1|]. intros b. apply undoable_mono, Hper.
      * repeat constructor. destruct a as [dw|dw|]; cbn in *; [| |exact I].
        -- apply destroyed_valid. eapply destroyed_mono; eassumption.
        -- eapply destroyed_mono; eassumption.
    + eapply Forall_impl; [exact Hrest|]. intros b. apply redoable_mono, Hper.
  - unfold run, redo. rewrite Hp. exact H.
Qed.

Lemma handle_history (tk : Toolkit) (e : event) (s : GUIBuilder) :
  history_sound s -> history_sound (handle tk e s).
Proof.
  intros H. destruct e; cbn [handle].
  - eapply history_quiet; [|exact H]. apply quiet_same; reflexivity.
  - unfold canvas_click. destruct (truthy _); [apply place_widget_history, H|].
    repeat (case_match; try exact H).
    eapply history_quiet; [apply select_quiet | exact H].
  - eapply history_quiet; [apply on_start_quiet | exact H].
  - eapply history_quiet; [apply on_drag_quiet | exact H].
  - apply on_release_history, H.
  - eapply history_quiet; [apply select_quiet | exact H].
  - eapply history_quiet; [apply delete_item_and_destroy_quiet | exact H].
  - eapply history_quiet; [|exact H]. apply quiet_same;
      unfold bring_to_front; destruct (heap s !! dw); reflexivity.
  - eapply history_quiet; [|exact H]. apply quiet_same;
      unfold send_to_back; destruct (heap s !! dw); reflexivity.
  - eapply history_quiet; [apply update_property_quiet | exact H].
  - unfold new_project. destruct (_ && _); [exact H|]. split; constructor.
  - apply open_project_history, H.
  - eapply history_quiet; [|exact H]. apply quiet_same;
      unfold _save_to_file; destruct (save_data tk s); reflexivity.
  - apply delete_selected_history, H.
  - apply undo_history, H.
  - apply redo_history, H.
Qed.

Lemma reachable_history_sound (tk : Toolkit) (s : GUIBuilder) :
  reachable tk (fun _ => true) s -> history_sound s.
Proof.
  induction 1 as [|s e _ IH _]; [split; constructor|].
  apply handle_history, IH.
Qed.

Lemma redo_create_raises (dw : ref) (s : GUIBuilder) (rest : list action) :
  redo_stack s = rest ++ [Create dw] -> destroyed dw s ->
  (redo s).1 = Raise TclError /\
  widgets (run redo s) = widgets s ++ [dw] /\
  heap (run redo s) = heap s.
Proof.
  intros Hr Hd. unfold destroyed in Hd.
  destruct (heap s !! dw) as [w|] eqn:Hw; [|discriminate].
  injection Hd as Hd. cbn in Hd.
  unfold run, redo. rewrite Hr, pop_snoc. cbn.
  unfold bind, lift, recreate_window. cbn. rewrite Hw, Hd. cbn. auto.
Qed.

(** [delete_selected], [undo]: in every state the program can reach, an
    undo whose top action is a deletion raises [TclError]: the deleted
    object is put back in the widget list with its Tk widget destroyed.
    No deletion is ever undone cleanly. *)
Theorem undo_of_deletion_always_raises (tk : Toolkit) (s : GUIBuilder)
  (rest : list action) (dw : ref) :
  reachable tk (fun _ => true) s ->
  undo_stack s = rest ++ [Delete dw] ->
  (undo s).1 = Raise TclError /\
  widgets (run undo s) = widgets s ++ [dw] /\
  destroyed dw (run undo s).
Proof.
  intros Hr Hu. destruct (reachable_history_sound tk s Hr) as [H1 _].
  rewrite Hu in H1. apply Forall_app in H1. destruct H1 as [_ Ha].
  rewrite Forall_singleton in Ha. cbn in Ha.
  split; [|split].
  - unfold destroyed in Ha. destruct (heap s !! dw) as [w|] eqn:Hw; [|discriminate].
    injection Ha as Ha. apply (undo_delete_raises dw s rest w Hu Hw Ha).
  - unfold destroyed in Ha. destruct (heap s !! dw) as [w|] eqn:Hw; [|discriminate].
    injection Ha as Ha. apply (undo_delete_raises dw s rest w Hu Hw Ha).
  - eapply destroyed_mono; [apply undo_persists | exact Ha].
Qed.

Lemma undo_of_deletion_always_raises_witness :
  reachable tk86 (fun _ => true) button_deleted /\
  undo_stack button_deleted = [Create 0] ++ [Delete 0] /\
  (undo button_deleted).1 = Raise TclError /\
  widgets (run undo button_deleted) = widgets button_deleted ++ [0%nat] /\
  destroyed 0 (run undo button_deleted).
Proof.
  assert (Hr : reachable tk86 (fun _ => true) button_deleted).
  { unfold button_deleted.
    repeat (apply reachable_step; [|reflexivity]). apply reachable_init. }
  split; [exact Hr|]. split; [reflexivity|].
  apply (undo_of_deletion_always_raises tk86 button_deleted [Create 0] 0 Hr).
  reflexivity.
Defined.

(** [undo], [redo]: in every state the program can reach, a redo whose top
    action is a creation raises [TclError], the undo of the creation having
    destroyed the Tk widget; the object is put back in the widget list all
    the same. *)
Theorem redo_of_creation_always_raises (tk : Toolkit) (s : GUIBuilder)
  (rest : list action) (dw : ref) :
  reachable tk (fun _ => true) s ->
  redo_stack s = rest ++ [Create dw] ->
  (redo s).1 = Raise TclError /\
  widgets (run redo s) = widgets s ++ [dw] /\
  destroyed dw (run redo s).
Proof.
  intros Hr Hu. destruct (reachable_history_sound tk s Hr) as [_ H2].
  rewrite Hu in H2. apply Forall_app in H2. destruct H2 as [_ Ha].
  rewrite Forall_singleton in Ha. cbn in Ha.
  destruct (redo_create_raises dw s rest Hu Ha) as (H1 & H3 & _).
  split; [exact H1|]. split; [exact H3|].
  eapply destroyed_mono; [apply redo_persists | exact Ha].
Qed.

Lemma redo_of_creation_always_raises_witness :
  reachable tk86 (fun _ => true) button_unplaced /\
  redo_stack button_unplaced = [] ++ [Create 0] /\
  (redo button_unplaced).1 = Raise TclError /\
  widgets (run redo button_unplaced) = widgets button_unplaced ++ [0%nat] /\
  destroyed 0 (run redo button_unplaced).
Proof.
  assert (Hr : reachable tk86 (fun _ => true) button_unplaced).
  { unfold button_unplaced.
    repeat (apply reachable_step; [|reflexivity]). apply reachable_init. }
  split; [exact Hr|]. split; [reflexivity|].
  apply (redo_of_creation_always_raises tk86 button_unplaced [] 0 Hr).
  reflexivity.
Defined.

(** ** What is saved, and when saving fails *)

Lemma widget_record_fields (tk : Toolkit) (w : DraggableWidget) (r : WidgetData) :
  widget_record tk w = Ok r ->
  entry_summary r = summary w /\
  (fst <$> default [] (wd_properties r)) = saved_keys /\
  tk_alive (widget w) = true.
Proof.
  unfold widget_record.
  destruct (tk_alive (widget w)) eqn:Ha.
  2:{ unfold cget_or, keys. rewrite Ha. discriminate. }
  destruct (cget_or tk (widget w) "text" ""); [|discriminate].
  destruct (cget_or tk (widget w) "width" ""); [|discriminate].
  destruct (cget_or tk (widget w) "height" ""); [|discriminate].
  destruct (cget_or tk (widget w) "bg" ""); [|discriminate].
  destruct (cget_or tk (widget w) "fg" ""); [|discriminate].
  cbn. intros [= <-]. auto.
Qed.

Lemma widget_records_fields (tk : Toolkit) (h : list DraggableWidget)
  (l : list ref) :
  forall rs, widget_records tk h l = Ok rs ->
  Some <$> (entry_summary <$> rs) = (fun dw => summary <$> h !! dw) <$> l /\
  Forall (fun dw => (tk_alive ∘ widget) <$> h !! dw = Some true) l.
Proof.
  induction l as [|dw l IH]; intros rs; cbn.
  - intros [= <-]. split; [reflexivity | constructor].
  - destruct (h !! dw) as [w|] eqn:Hw; [|discriminate].
    destruct (widget_record tk w) as [r|] eqn:Hr; [|discriminate]. cbn.
    destruct (widget_records tk h l) as [rs'|]; [|discriminate]. cbn.
    intros [= <-]. destruct (IH rs' eq_refl) as [IH1 IH2].
    destruct (widget_record_fields tk w r Hr) as (Hs & _ & Ha).
    split.
    + cbn. rewrite Hs, IH1. reflexivity.
    + constructor; [rewrite Hw; cbn; rewrite Ha; reflexivity | exact IH2].
Qed.

(** [_save_to_file]: whenever a file is written, it lists the widgets of
    the document in their order with the type and the position each one
    has, whether on the grid or not, under the program's version string;
    and every widget of the document was alive. *)
Theorem save_writes_the_document (tk : Toolkit) (file_path : string)
  (s : GUIBuilder) (written : string * LayoutFile) :
  (_save_to_file tk file_path s).1 = Some written ->
  written.1 = file_path /\
  version written.2 = VERSION /\
  Some <$> (entry_summary <$> file_widgets written.2) = layout s /\
  Forall (fun dw => (tk_alive ∘ widget) <$> heap s !! dw = Some true)
         (widgets s).
Proof.
  unfold _save_to_file, save_data.
  destruct (widget_records tk (heap s) (widgets s)) as [rs|] eqn:Hrs;
    [|discriminate].
  cbn. intros [= <-]. cbn.
  destruct (widget_records_fields tk _ _ rs Hrs) as [H1 H2]. auto.
Qed.

Lemma save_writes_the_document_witness :
  (_save_to_file tk86 "layout.json" button_off_grid).1
    = Some ("layout.json", off_grid_file) /\
  ("layout.json", off_grid_file).1 = "layout.json" /\
  version off_grid_file = VERSION /\
  Some <$> (entry_summary <$> file_widgets off_grid_file)
    = layout button_off_grid /\
  Forall (fun dw => (tk_alive ∘ widget) <$> heap button_off_grid !! dw = Some true)
         (widgets button_off_grid).
Proof.
  split; [reflexivity|].
  apply (save_writes_the_document tk86 "layout.json" button_off_grid
           ("layout.json", off_grid_file)).
  reflexivity.
Defined.

Lemma widget_record_destroyed (tk : Toolkit) (w : DraggableWidget) :
  tk_alive (widget w) = false -> widget_record tk w = Raise TclError.
Proof.
  intros Ha. unfold widget_record, cget_or, keys. rewrite Ha. reflexivity.
Qed.

Lemma widget_records_destroyed (tk : Toolkit) (h : list DraggableWidget)
  (l : list ref) (dw : ref) :
  dw ∈ l -> (tk_alive ∘ widget) <$> h !! dw = Some false ->
  exists e, widget_records tk h l = Raise e.
Proof.
  intros Hin Hd. induction l as [|d l IH]; [inversion Hin|]. cbn.
  destruct (h !! d) as [w|] eqn:Hw; [|eauto].
  destruct (decide (d = dw)) as [->|Hne].
  - rewrite Hw in Hd. injection Hd as Hd. cbn in Hd.
    rewrite (widget_record_destroyed tk w Hd). cbn. eauto.
  - apply elem_of_cons in Hin. destruct Hin as [->|Hin]; [contradiction|].
    destruct (IH Hin) as [e ->].
    destruct (widget_record tk w); cbn; eauto.
Qed.

Lemma save_fails (tk : Toolkit) (file_path : string) (s : GUIBuilder)
  (dw : ref) :
  dw ∈ widgets s -> destroyed dw s ->
  _save_to_file tk file_path s
  = (None, show_error "Failed to save file" s).
Proof.
  intros Hin Hd. unfold _save_to_file, save_data.
  destruct (widget_records_destroyed tk (heap s) (widgets s) dw Hin Hd)
    as [e ->].
  reflexivity.
Qed.

(** [_save_to_file]: one destroyed widget in the document is enough for the
    save to fail as a whole: nothing is written, the error is shown, and
    the document is as before. *)
Theorem save_fails_on_destroyed_widget (tk : Toolkit) (file_path : string)
  (s : GUIBuilder) (dw : ref) :
  dw ∈ widgets s -> destroyed dw s ->
  (_save_to_file tk file_path s).1 = None /\
  errors (_save_to_file tk file_path s).2
    = errors s ++ ["Failed to save file"] /\
  layout (_save_to_file tk file_path s).2 = layout s.
Proof.
  intros Hin Hd. rewrite (save_fails tk file_path s dw Hin Hd). auto.
Qed.

Lemma save_fails_on_destroyed_widget_witness :
  0%nat ∈ widgets button_restored /\ destroyed 0 button_restored /\
  (_save_to_file tk86 "layout.json" button_restored).1 = None /\
  errors (_save_to_file tk86 "layout.json" button_restored).2
    = errors button_restored ++ ["Failed to save file"] /\
  layout (_save_to_file tk86 "layout.json" button_restored).2
    = layout button_restored.
Proof.
  assert (Hin : 0%nat ∈ widgets button_restored) by (vm_compute; right; left).
  split; [exact Hin|]. split; [reflexivity|].
  apply (save_fails_on_destroyed_widget tk86 "layout.json" button_restored 0 Hin).
  reflexivity.
Defined.

(** [DraggableWidget.delete] (the context menu's Delete): it destroys the
    Tk widget and its canvas window but does not take the object out of the
    builder's widget list and pushes nothing on the undo stack; from then
    on the document cannot be saved. *)
Theorem context_delete_blocks_save (tk : Toolkit) (file_path : string)
  (s : GUIBuilder) (dw : ref) :
  dw ∈ widgets s -> is_Some (heap s !! dw) ->
  widgets (handle tk (MenuDelete dw) s) = widgets s /\
  undo_stack (handle tk (MenuDelete dw) s) = undo_stack s /\
  destroyed dw (handle tk (MenuDelete dw) s) /\
  (_save_to_file tk file_path (handle tk (MenuDelete dw) s)).1 = None.
Proof.
  intros Hin Hv. cbn [handle].
  destruct (delete_item_and_destroy_keeps dw s) as (_ & _ & Hw & Hu & _).
  pose proof (delete_item_and_destroy_destroys dw s Hv) as Hd.
  split; [exact Hw|]. split; [exact Hu|]. split; [exact Hd|].
  rewrite (save_fails tk file_path _ dw); [reflexivity| |exact Hd].
  rewrite Hw. exact Hin.
Qed.

Lemma context_delete_blocks_save_witness :
  0%nat ∈ widgets button_placed /\ is_Some (heap button_placed !! 0%nat) /\
  widgets (handle tk86 (MenuDelete 0) button_placed) = widgets button_placed /\
  undo_stack (handle tk86 (MenuDelete 0) button_placed)
    = undo_stack button_placed /\
  destroyed 0 (handle tk86 (MenuDelete 0) button_placed) /\
  (_save_to_file tk86 "layout.json" (handle tk86 (MenuDelete 0) button_placed)).1
    = None.
Proof.
  assert (Hin : 0%nat ∈ widgets button_placed) by (vm_compute; left).
  assert (Hv : is_Some (heap button_placed !! 0%nat)) by (vm_compute; eauto).
  split; [exact Hin|]. split; [exact Hv|].
  apply (context_delete_blocks_save tk86 "layout.json" button_placed 0 Hin Hv).
Defined.

(** [_save_to_file]: the background is read with [cget('bg')] and the
    foreground with [cget('fg')], guarded by ['bg' in keys()] and
    ['fg' in keys()].  For a widget class that has no option named [bg]
    the saved background is the empty string whatever the widget's
    background is, and likewise for [fg]. *)
Theorem save_colours_need_short_names (tk : Toolkit) (w : DraggableWidget)
  (r : WidgetData) :
  widget_record tk w = Ok r ->
  ("bg" ∉ tk_keys tk (tk_class (widget w)) ->
   assoc "background" (default [] (wd_properties r)) = Some "") /\
  ("fg" ∉ tk_keys tk (tk_class (widget w)) ->
   assoc "foreground" (default [] (wd_properties r)) = Some "").
Proof.
  unfold widget_record.
  destruct (tk_alive (widget w)) eqn:Ha;
    [|unfold cget_or, keys; rewrite Ha; discriminate].
  destruct (cget_or tk (widget w) "text" ""); [|discriminate].
  destruct (cget_or tk (widget w) "width" ""); [|discriminate].
  destruct (cget_or tk (widget w) "height" ""); [|discriminate].
  destruct (cget_or tk (widget w) "bg" "") as [bg|] eqn:Hbg; [|discriminate].
  destruct (cget_or tk (widget w) "fg" "") as [fg|] eqn:Hfg; [|discriminate].
  cbn. intros [= <-]. cbn.
  unfold cget_or, keys in Hbg, Hfg. rewrite Ha in Hbg, Hfg. cbn in Hbg, Hfg.
  split; intros Hn.
  - rewrite bool_decide_eq_false_2 in Hbg by exact Hn.
    injection Hbg as <-. reflexivity.
  - rewrite bool_decide_eq_false_2 in Hfg by exact Hn.
    injection Hfg as <-. reflexivity.
Qed.

Lemma save_colours_need_short_names_witness :
  widget_record tk86 red_label = Ok red_label_record /\
  cget tk86 (widget red_label) "background" = Ok "red" /\
  ("bg" ∉ tk_keys tk86 (tk_class (widget red_label)) ->
   assoc "background" (default [] (wd_properties red_label_record)) = Some "") /\
  ("fg" ∉ tk_keys tk86 (tk_class (widget red_label)) ->
   assoc "foreground" (default [] (wd_properties red_label_record)) = Some "").
Proof.
  split; [reflexivity|]. split; [reflexivity|].
  apply (save_colours_need_short_names tk86 red_label red_label_record).
  reflexivity.
Defined.

(** ** The property editor *)

Lemma cget_Ok_inv (tk : Toolkit) (t : TkWidget) (opt v : string) :
  cget tk t opt = Ok v ->
  tk_alive t = true /\ opt ∈ tk_keys tk (tk_class t).
Proof.
  unfold cget. destruct (tk_alive t); cbn; [|discriminate].
  destruct (bool_decide _) eqn:E; [|discriminate].
  intros _. split; [reflexivity | apply bool_decide_eq_true in E; exact E].
Qed.

Lemma cget_Ok (tk : Toolkit) (t : TkWidget) (opt : string) :
  tk_alive t = true -> opt ∈ tk_keys tk (tk_class t) ->
  exists v, cget tk t opt = Ok v.
Proof.
  intros Ha Hin. unfold cget. rewrite Ha. cbn.
  rewrite bool_decide_eq_true_2 by exact Hin. eauto.
Qed.

(** [PropertyEditor.load_properties]: the tree is filled exactly when the
    widget is alive and its class has every option the method reads, that
    is [text], [bg], [fg], [width] and [height], and [show] for an entry
    and [wrap] for a text; one option missing and the method raises, the
    editor window staying empty. *)
Theorem editor_fills_iff_all_options (tk : Toolkit) (w : DraggableWidget) :
  (exists rows, load_properties tk w = Ok rows) <->
  tk_alive (widget w) = true /\
  Forall (fun opt => opt ∈ tk_keys tk (tk_class (widget w))) (editor_options w).
Proof.
  unfold load_properties, editor_options. split.
  - destruct (cget tk (widget w) "text") eqn:E1; [|intros [? [=]]].
    destruct (cget tk (widget w) "bg") eqn:E2; [|intros [? [=]]].
    destruct (cget tk (widget w) "fg") eqn:E3; [|intros [? [=]]].
    destruct (cget tk (widget w) "width") eqn:E4; [|intros [? [=]]].
    destruct (cget tk (widget w) "height") eqn:E5; [|intros [? [=]]].
    cbn [rbind].
    apply cget_Ok_inv in E1, E2, E3, E4, E5.
    destruct E1 as [Ha H1], E2 as [_ H2], E3 as [_ H3], E4 as [_ H4],
      E5 as [_ H5].
    intros Hex. split; [exact Ha|].
    repeat (apply Forall_cons; split; [assumption|]).
    destruct (decide (widget_type w = "Button")); [constructor|].
    destruct (decide (widget_type w = "Entry")).
    { destruct (cget tk (widget w) "show") eqn:E6; [|destruct Hex as [? [=]]].
      apply cget_Ok_inv in E6. repeat constructor. apply E6. }
    destruct (decide (widget_type w = "Text")); [|constructor].
    destruct (cget tk (widget w) "wrap") eqn:E6; [|destruct Hex as [? [=]]].
    apply cget_Ok_inv in E6. repeat constructor. apply E6.
  - intros [Ha HF]. apply Forall_app in HF. destruct HF as [HF HX].
    repeat (apply Forall_cons in HF; destruct HF as [? HF]).
    destruct (cget_Ok tk (widget w) "text" Ha) as [v1 ->]; [assumption|].
    destruct (cget_Ok tk (widget w) "bg" Ha) as [v2 ->]; [assumption|].
    destruct (cget_Ok tk (widget w) "fg" Ha) as [v3 ->]; [assumption|].
    destruct (cget_Ok tk (widget w) "width" Ha) as [v4 ->]; [assumption|].
    destruct (cget_Ok tk (widget w) "height" Ha) as [v5 ->]; [assumption|].
    cbn [rbind].
    destruct (decide (widget_type w = "Button")); [eauto|].
    destruct (decide (widget_type w = "Entry")).
    { rewrite Forall_singleton in HX.
      destruct (cget_Ok tk (widget w) "show" Ha HX) as [v6 ->]. cbn. eauto. }
    destruct (decide (widget_type w = "Text")); [|eauto].
    rewrite Forall_singleton in HX.
    destruct (cget_Ok tk (widget w) "wrap" Ha HX) as [v6 ->]. cbn. eauto.
Qed.








(** ** Stacking order on the canvas *)

Lemma tag_raise_perm (i : nat) (c : Canvas) :
  items (tag_raise i c) ≡ₚ items c.
Proof.
  cbn. rewrite Permutation_app_comm. apply filter_app_complement.
Qed.

Lemma tag_lower_perm (i : nat) (c : Canvas) :
  items (tag_lower i c) ≡ₚ items c.
Proof. cbn. apply filter_app_complement. Qed.

Lemma tag_raise_top (i : nat) (c : Canvas) (it : CanvasItem) :
  it ∈ items c -> item_id it = i ->
  exists top, last (items (tag_raise i c)) = Some top /\ item_id top = i.
Proof.
  intros Hin Hid. cbn.
  set (B := filter (fun it => item_id it = i) (items c)).
  assert (HB : B ≠ []).
  { intros E. assert (it ∈ B) as H by (apply list_elem_of_filter; auto).
    rewrite E in H. inversion H. }
  apply last_is_Some in HB. destruct HB as [top Htop].
  exists top. split.
  - apply last_app_Some. left. exact Htop.
  - apply last_Some_elem_of, list_elem_of_filter in Htop. apply Htop.
Qed.

Lemma tag_lower_bottom (i : nat) (c : Canvas) (it : CanvasItem) :
  it ∈ items c -> item_id it = i ->
  exists bottom, head (items (tag_lower i c)) = Some bottom /\ item_id bottom = i.
Proof.
  intros Hin Hid. cbn.
  set (B := filter (fun it => item_id it = i) (items c)).
  assert (HB : B ≠ []).
  { intros E. assert (it ∈ B) as H by (apply list_elem_of_filter; auto).
    rewrite E in H. inversion H. }
  destruct B as [|bottom B'] eqn:EB; [contradiction|].
  exists bottom. split; [reflexivity|].
  assert (bottom ∈ filter (fun it => item_id it = i) (items c)) as H
    by (fold B; rewrite EB; left).
  apply list_elem_of_filter in H. apply H.
Qed.

(** [bring_to_front], [send_to_back]: both only restack the canvas.  The
    window of the widget goes on top of, or below, all the others, the
    canvas keeping the same items; the builder's widget list is not
    reordered, so the saved file and the generated code come out as
    before. *)
Theorem restacking_is_not_saved (tk : Toolkit) (dw : ref) (s : GUIBuilder)
  (w : DraggableWidget) (it : CanvasItem) :
  heap s !! dw = Some w ->
  it ∈ items (canvas s) -> item_id it = dw_id w ->
  (exists top, last (items (canvas (bring_to_front dw s))) = Some top /\
               item_id top = dw_id w) /\
  (exists bottom, head (items (canvas (send_to_back dw s))) = Some bottom /\
                  item_id bottom = dw_id w) /\
  items (canvas (bring_to_front dw s)) ≡ₚ items (canvas s) /\
  items (canvas (send_to_back dw s)) ≡ₚ items (canvas s) /\
  save_data tk (bring_to_front dw s) = save_data tk s /\
  save_data tk (send_to_back dw s) = save_data tk s /\
  code_lines tk (bring_to_front dw s) = code_lines tk s /\
  code_lines tk (send_to_back dw s) = code_lines tk s.
Proof.
  intros Hw Hin Hid. unfold bring_to_front, send_to_back. rewrite Hw.
  split; [apply (tag_raise_top _ _ it Hin Hid)|].
  split; [apply (tag_lower_bottom _ _ it Hin Hid)|].
  split; [apply tag_raise_perm|]. split; [apply tag_lower_perm|].
  repeat split.
Qed.

Lemma restacking_is_not_saved_witness :
  heap button_and_label !! 0%nat
    = Some (set_selected true button0) /\
  {| item_id := 1; item_x := 20; item_y := 60; item_window := 0;
     item_width := 2; item_tagged := true |} ∈ items (canvas button_and_label) /\
  1%nat = dw_id (set_selected true button0) /\
  (exists top,
     last (items (canvas (bring_to_front 0 button_and_label))) = Some top /\
     item_id top = dw_id (set_selected true button0)) /\
  (exists bottom,
     head (items (canvas (send_to_back 0 button_and_label))) = Some bottom /\
     item_id bottom = dw_id (set_selected true button0)) /\
  items (canvas (bring_to_front 0 button_and_label))
    ≡ₚ items (canvas button_and_label) /\
  items (canvas (send_to_back 0 button_and_label))
    ≡ₚ items (canvas button_and_label) /\
  save_data tk86 (bring_to_front 0 button_and_label)
    = save_data tk86 button_and_label /\
  save_data tk86 (send_to_back 0 button_and_label)
    = save_data tk86 button_and_label /\
  code_lines tk86 (bring_to_front 0 button_and_label)
    = code_lines tk86 button_and_label /\
  code_lines tk86 (send_to_back 0 button_and_label)
    = code_lines tk86 button_and_label.
Proof.
  assert (Hin :
    {| item_id := 1; item_x := 20; item_y := 60; item_window := 0;
       item_width := 2; item_tagged := true |} ∈ items (canvas button_and_label))
    by (vm_compute; right; left).
  split; [reflexivity|]. split; [exact Hin|]. split; [reflexivity|].
  apply (restacking_is_not_saved tk86 0 button_and_label
           (set_selected true button0) _ eq_refl Hin eq_refl).
Defined.

(** ** What selecting shows *)

Lemma itemconfig_loop (ids : list nat) :
  forall c,
  items (fold_left (fun c item => itemconfig_width item 1 c) ids c)
  = (fun it => if bool_decide (item_id it ∈ ids) then with_width 1 it else it)
      <$> items c.
Proof.
  induction ids as [|i ids IH]; intros c; cbn [fold_left].
  - symmetry. etransitivity; [|apply list_fmap_id].
    apply list_fmap_ext. intros _ it _.
    rewrite bool_decide_eq_false_2 by apply not_elem_of_nil. reflexivity.
  - rewrite IH. cbn. rewrite <- list_fmap_compose.
    apply list_fmap_ext. intros _ it _. cbn.
    destruct (decide (item_id it = i)) as [E|E]; cbn.
    + rewrite (bool_decide_eq_true_2 (item_id it ∈ i :: ids))
        by (rewrite E; left).
      destruct (bool_decide _); reflexivity.
    + destruct (decide (item_id it ∈ ids)) as [Hin|Hn].
      * rewrite !bool_decide_eq_true_2; [reflexivity| right; exact Hin | exact Hin].
      * rewrite !bool_decide_eq_false_2; [reflexivity| | exact Hn].
        intros H. apply elem_of_cons in H. destruct H; contradiction.
Qed.

Lemma select_canvas (dw : ref) (s : GUIBuilder) (w : DraggableWidget) :
  heap s !! dw = Some w ->
  canvas (select dw s) =
    tag_raise (dw_id w)
      (itemconfig_width (dw_id w) 2
         (fold_left (fun c item => itemconfig_width item 1 c)
                    (find_withtag_widget (canvas s)) (canvas s))).
Proof.
  intros Hw. unfold select, update_appearance, update_dw, on_canvas. cbn.
  rewrite list_lookup_alter_eq, Hw. cbn.
  rewrite list_lookup_alter_eq, Hw. cbn. reflexivity.
Qed.

(** [select], [update_appearance]: after a widget is selected, its canvas
    window is the only one drawn as selected: it has outline width 2 and
    every other window tagged ["widget"] has width 1, whatever had been
    selected before. *)
Theorem select_highlights_only_self (dw : ref) (s : GUIBuilder)
  (w : DraggableWidget) :
  heap s !! dw = Some w ->
  Forall (fun it =>
            if decide (item_id it = dw_id w) then item_width it = 2
            else item_tagged it = true -> item_width it = 1)
         (items (canvas (select dw s))).
Proof.
  intros Hw. rewrite (select_canvas dw s w Hw), tag_raise_perm.
  cbn [itemconfig_width on_item items]. rewrite itemconfig_loop.
  rewrite <- list_fmap_compose. apply Forall_fmap, Forall_forall.
  intros it Hin. cbn.
  destruct (bool_decide (item_id it ∈ find_withtag_widget (canvas s))) eqn:Hb;
    cbn; repeat (destruct (decide _); cbn in * ); try congruence; try reflexivity.
  intros Ht. exfalso. apply bool_decide_eq_false in Hb. apply Hb.
  unfold find_withtag_widget. apply list_elem_of_fmap_2.
  apply list_elem_of_filter. auto.
Qed.

Lemma select_highlights_only_self_witness :
  heap button_and_label !! 1%nat
    = Some (fresh_dw (tk_new "ttk.Label" [("text", "Label")]) "Label" 100 100 2) /\
  Forall (fun it =>
            if decide (item_id it = 2%nat) then item_width it = 2
            else item_tagged it = true -> item_width it = 1)
         (items (canvas (select 1 button_and_label))).
Proof.
  split; [reflexivity|].
  apply (select_highlights_only_self 1 button_and_label
           (fresh_dw (tk_new "ttk.Label" [("text", "Label")]) "Label" 100 100 2)).
  reflexivity.
Defined.

(** ** The grid under the widgets *)

Lemma py_range0_elem (stop v : Z) :
  0 <= v < stop -> v mod GRID_SIZE = 0 -> v ∈ py_range0 stop GRID_SIZE.
Proof.
  intros Hv Hm. unfold py_range0, GRID_SIZE in *.
  assert (E : v = 20 * (v / 20))
    by (rewrite (Z.div_mod v 20) at 1 by discriminate; lia).
  set (k := v / 20) in *. clearbody k.
  apply list_elem_of_fmap. exists (Z.to_nat k). split; [lia|].
  apply elem_of_seq. split; [lia|]. cbn.
  assert (k + 1 <= (stop + 20 - 1) / 20)
    by (apply Z.div_le_lower_bound; lia).
  lia.
Qed.

(** [draw_grid], [place_widget], [on_drag]: with the grid shown, every
    snapped position inside the canvas lies where a vertical and a
    horizontal grid line cross. *)
Theorem snapped_points_on_grid_lines (width height x y : Z) (g : Grid) :
  0 <= snap x < width -> 0 <= snap y < height ->
  (snap x, 0, snap x, height) ∈ grid_lines (show_grid width height g) /\
  (0, snap y, width, snap y) ∈ grid_lines (show_grid width height g).
Proof.
  intros Hx Hy. unfold show_grid, draw_grid. cbn. split.
  - apply elem_of_app. left.
    apply (list_elem_of_fmap_2 (fun x => (x, 0, x, height))).
    apply py_range0_elem; [exact Hx | apply snap_aligned].
  - apply elem_of_app. right.
    apply (list_elem_of_fmap_2 (fun y => (0, y, width, y))).
    apply py_range0_elem; [exact Hy | apply snap_aligned].
Qed.

Lemma snapped_points_on_grid_lines_witness :
  0 <= snap 23 < 800 /\ 0 <= snap 57 < 600 /\
  (snap 23, 0, snap 23, 600)
    ∈ grid_lines (show_grid 800 600 {| grid_visible := false; grid_lines := [] |}) /\
  (0, snap 57, 800, snap 57)
    ∈ grid_lines (show_grid 800 600 {| grid_visible := false; grid_lines := [] |}).
Proof.
  assert (Hx : 0 <= snap 23 < 800) by (change (snap 23) with 20; lia).
  assert (Hy : 0 <= snap 57 < 600) by (change (snap 57) with 60; lia).
  split; [exact Hx|]. split; [exact Hy|].
  apply (snapped_points_on_grid_lines 800 600 23 57 _ Hx Hy).
Defined.

(** ** Where a save goes *)

(** [save_project], [save_project_as], [open_project], [new_project]: after
    a file is opened, or saved under a name, "Save" writes to that path
    without asking; after a new project it asks for a name again. *)
Theorem save_goes_to_current_file (tk : Toolkit) (file_path : string)
  (data : LayoutFile) (choice : option string) (s : GUIBuilder) :
  file_path ≠ "" ->
  save_project tk choice (open_project tk (Some (file_path, Some data)) s)
    = _save_to_file tk file_path
        (open_project tk (Some (file_path, Some data)) s) /\
  save_project tk choice (save_project_as tk (Some file_path) s).2
    = _save_to_file tk file_path (save_project_as tk (Some file_path) s).2 /\
  save_project tk choice (new_project true s)
    = save_project_as tk choice (new_project true s).
Proof.
  intros Hne.
  assert (Ht : truthy (Some file_path) = true)
    by (cbn; rewrite bool_decide_eq_false_2 by exact Hne; reflexivity).
  assert (Hload : forall l s0,
    current_file (fold_left (fun s wd => load_widget tk wd s) l s0)
    = current_file s0).
  { induction l as [|wd l IH]; intros s0; cbn [fold_left]; [reflexivity|].
    rewrite IH. destruct (make_widget (wd_type wd)) as [t|] eqn:Hm.
    - destruct (load_widget_some tk wd s0 t Hm) as [c ->]. reflexivity.
    - rewrite (load_widget_none tk wd s0 Hm).
      destruct (last (widgets s0)); reflexivity. }
  split; [|split].
  - unfold save_project. cbn [open_project]. rewrite Hload.
    cbn [current_file set_current_file]. rewrite Ht. reflexivity.
  - unfold save_project, save_project_as. rewrite Ht.
    destruct (_save_to_file tk file_path s) as [written s1].
    cbn [snd current_file set_current_file]. rewrite Ht. reflexivity.
  - unfold save_project, new_project. rewrite andb_false_r. reflexivity.
Qed.

Lemma save_goes_to_current_file_witness :
  "layout.json" ≠ "" /\
  save_project tk86 None
    (open_project tk86 (Some ("layout.json", Some one_button_file)) init)
    = _save_to_file tk86 "layout.json"
        (open_project tk86 (Some ("layout.json", Some one_button_file)) init) /\
  save_project tk86 None (save_project_as tk86 (Some "layout.json") init).2
    = _save_to_file tk86 "layout.json"
        (save_project_as tk86 (Some "layout.json") init).2 /\
  save_project tk86 None (new_project true init)
    = save_project_as tk86 None (new_project true init).
Proof.
  split; [discriminate|].
  apply (save_goes_to_current_file tk86 "layout.json" one_button_file None init).
  discriminate.
Defined.

(** ** An entry of unknown type in a file *)

(** [load_widget]: an entry whose type has no constructor adds no widget,
    and the loop that follows applies its properties to the last widget of
    the list, the one the preceding entry created. *)
Theorem unknown_entry_configures_previous (tk : Toolkit) (wd : WidgetData)
  (s : GUIBuilder) (dw : ref) (w : DraggableWidget) :
  wd_type wd ∉ SUPPORTED_WIDGETS ->
  last (widgets s) = Some dw -> heap s !! dw = Some w ->
  widgets (load_widget tk wd s) = widgets s /\
  undo_stack (load_widget tk wd s) = undo_stack s /\
  heap (load_widget tk wd s) !! dw
    = Some (apply_options tk (default [] (wd_properties wd)) w).
Proof.
  intros Hn Hl Hw.
  assert (Hm : make_widget (wd_type wd) = None).
  { destruct (make_widget (wd_type wd)) eqn:E; [|reflexivity].
    destruct Hn. apply make_widget_supported. eauto. }
  rewrite (load_widget_none tk wd s Hm), Hl. cbn.
  rewrite list_lookup_alter_eq, Hw. auto.
Qed.

Lemma unknown_entry_configures_previous_witness :
  ("Gauge" ∉ SUPPORTED_WIDGETS) /\
  last (widgets button_placed) = Some 0%nat /\
  heap button_placed !! 0%nat = Some button0 /\
  widgets (load_widget tk86
             {| wd_type := "Gauge"; wd_x := 80; wd_y := 80;
                wd_properties := Some [("text", "Oops")] |} button_placed)
    = widgets button_placed /\
  undo_stack (load_widget tk86
                {| wd_type := "Gauge"; wd_x := 80; wd_y := 80;
                   wd_properties := Some [("text", "Oops")] |} button_placed)
    = undo_stack button_placed /\
  heap (load_widget tk86
          {| wd_type := "Gauge"; wd_x := 80; wd_y := 80;
             wd_properties := Some [("text", "Oops")] |} button_placed) !! 0%nat
    = Some (apply_options tk86 [("text", "Oops")] button0).
Proof.
  assert (Hn : "Gauge" ∉ SUPPORTED_WIDGETS).
  { intros H. apply make_widget_supported in H. destruct H as [? [=]]. }
  split; [exact Hn|]. split; [reflexivity|]. split; [reflexivity|].
  apply (unknown_entry_configures_previous tk86
           {| wd_type := "Gauge"; wd_x := 80; wd_y := 80;
              wd_properties := Some [("text", "Oops")] |}
           button_placed 0 button0 Hn eq_refl eq_refl).
Defined.

(** The file with a button and a gauge: one widget, a button labelled with
    the gauge's text. *)
Example gauge_text_on_button :
  layout (open_project tk86 (Some ("layout.json", Some button_then_bogus_file)) init)
    = [Some ("Button", 40, 40)] /\
  property tk86 0 "text"
    (open_project tk86 (Some ("layout.json", Some button_then_bogus_file)) init)
    = Some (Ok "Oops").
Proof. vm_compute. auto. Qed.

(** ** Exporting *)

Lemma widget_code_destroyed (tk : Toolkit) (i : nat) (w : DraggableWidget) :
  tk_alive (widget w) = false ->
  widget_type w ∈ ["Button"; "Label"] ->
  widget_code tk i w = Raise TclError.
Proof.
  intros Ha Ht. unfold widget_code, cget_or, keys. rewrite Ha.
  rewrite !elem_of_cons, elem_of_nil in Ht.
  destruct Ht as [E|[E|[]]]; rewrite E.
  - destruct (decide ("Button" = "Button")); [reflexivity | contradiction].
  - destruct (decide ("Label" = "Button")); [discriminate|].
    destruct (decide ("Label" = "Label")); [reflexivity | contradiction].
Qed.

Lemma widgets_code_destroyed (tk : Toolkit) (h : list DraggableWidget)
  (l : list ref) (dw : ref) (w : DraggableWidget) :
  dw ∈ l -> h !! dw = Some w -> tk_alive (widget w) = false ->
  widget_type w ∈ ["Button"; "Label"] ->
  forall i, exists e, widgets_code tk h i l = Raise e.
Proof.
  intros Hin Hw Ha Ht. induction l as [|d l IH]; [inversion Hin|].
  intros i. cbn. destruct (h !! d) as [w'|] eqn:Hw'; [|eauto].
  destruct (decide (d = dw)) as [->|Hne].
  - rewrite Hw in Hw'. injection Hw' as <-.
    rewrite (widget_code_destroyed tk i w Ha Ht). cbn. eauto.
  - apply elem_of_cons in Hin. destruct Hin as [->|Hin]; [contradiction|].
    destruct (IH Hin (S i)) as [e ->].
    destruct (widget_code tk i w'); cbn; eauto.
Qed.

(** [export_python]: the file is opened for writing before the code is
    generated.  With a destroyed button or label in the document the
    generation raises, and the export leaves an empty file at the chosen
    path, whatever was there before, shows the error and touches no other
    file. *)
Theorem failed_export_empties_file (tk : Toolkit) (file_path : string)
  (fs : gmap string string) (s : GUIBuilder) (dw : ref) (w : DraggableWidget) :
  file_path ≠ "" ->
  dw ∈ widgets s -> heap s !! dw = Some w ->
  tk_alive (widget w) = false -> widget_type w ∈ ["Button"; "Label"] ->
  (export_python tk (Some file_path) true fs s).1 !! file_path = Some "" /\
  (forall other, other ≠ file_path ->
     (export_python tk (Some file_path) true fs s).1 !! other = fs !! other) /\
  errors (export_python tk (Some file_path) true fs s).2
    = errors s ++ ["Failed to export code"].
Proof.
  intros Hne Hin Hw Ha Ht. unfold export_python.
  assert (Htr : truthy (Some file_path) = true)
    by (cbn; rewrite bool_decide_eq_false_2 by exact Hne; reflexivity).
  rewrite Htr. unfold generate_python_code, code_lines.
  destruct (widgets_code_destroyed tk (heap s) (widgets s) dw w Hin Hw Ha Ht 0%nat)
    as [e ->].
  cbn. split; [apply lookup_insert_eq|]. split; [|reflexivity].
  intros other Ho. apply lookup_insert_ne. congruence.
Qed.

Lemma failed_export_empties_file_witness :
  "gui.py" ≠ "" /\
  0%nat ∈ widgets button_restored /\
  heap button_restored !! 0%nat
    = Some (set_widget (destroy (widget button0)) (set_selected true button0)) /\
  tk_alive (widget (set_widget (destroy (widget button0))
                      (set_selected true button0))) = false /\
  widget_type (set_widget (destroy (widget button0)) (set_selected true button0))
    ∈ ["Button"; "Label"] /\
  (export_python tk86 (Some "gui.py") true {["gui.py" := "print('old')"]}
     button_restored).1 !! "gui.py" = Some "" /\
  (forall other, other ≠ "gui.py" ->
     (export_python tk86 (Some "gui.py") true {["gui.py" := "print('old')"]}
        button_restored).1 !! other
     = ({["gui.py" := "print('old')"]} : gmap string string) !! other) /\
  errors (export_python tk86 (Some "gui.py") true {["gui.py" := "print('old')"]}
            button_restored).2
    = errors button_restored ++ ["Failed to export code"].
Proof.
  assert (Hin : 0%nat ∈ widgets button_restored) by (vm_compute; right; left).
  assert (Ht : widget_type (set_widget (destroy (widget button0))
                              (set_selected true button0))
               ∈ ["Button"; "Label"]) by left.
  split; [discriminate|]. split; [exact Hin|]. split; [reflexivity|].
  split; [reflexivity|]. split; [exact Ht|].
  apply (failed_export_empties_file tk86 "gui.py" _ button_restored 0
           (set_widget (destroy (widget button0)) (set_selected true button0)));
    first [discriminate | exact Hin | exact Ht | reflexivity].
Defined.

(** ** A new project *)

Lemma clear_loop_destroys (l : list ref) :
  forall s, Forall (fun dw => is_Some (heap s !! dw)) l ->
  Forall (fun dw =>
            destroyed dw (fold_left (fun s dw => delete_item_and_destroy dw s) l s))
         l.
Proof.
  induction l as [|dw l IH]; intros s Hv; [constructor|].
  apply Forall_cons in Hv. destruct Hv as [Hdw Hv]. cbn [fold_left].
  constructor.
  - eapply destroyed_mono; [apply clear_loop_persists|].
    apply delete_item_and_destroy_destroys, Hdw.
  - apply IH. eapply Forall_impl; [exact Hv|]. cbn. intros d [w Hw].
    destruct (delete_item_and_destroy_quiet dw s) as (Hp & _).
    destruct (Hp d w Hw) as (w' & -> & _). eauto.
Qed.

(** [new_project], [clear_canvas]: a refused confirmation leaves everything
    as it is; an accepted one empties the document, forgets the file name
    and destroys the Tk widget of every widget the document held. *)
Theorem new_project_destroys_document (s : GUIBuilder) :
  wf s ->
  (widgets s ≠ [] -> new_project false s = s) /\
  widgets (new_project true s) = [] /\
  current_file (new_project true s) = None /\
  Forall (fun dw => destroyed dw (new_project true s)) (widgets s).
Proof.
  intros Hwf. split; [|split; [|split]].
  - intros Hne. unfold new_project.
    rewrite bool_decide_eq_false_2 by exact Hne. reflexivity.
  - unfold new_project. rewrite andb_false_r. reflexivity.
  - unfold new_project. rewrite andb_false_r. reflexivity.
  - unfold new_project. rewrite andb_false_r.
    assert (Hv : Forall (fun dw => is_Some (heap s !! dw)) (widgets s)).
    { eapply Forall_impl; [exact Hwf|]. cbn. intros dw Hlt.
      apply lookup_lt_is_Some. exact Hlt. }
    apply (clear_loop_destroys (widgets s) s Hv).
Qed.

Lemma new_project_destroys_document_witness :
  wf button_and_label /\
  (widgets button_and_label ≠ [] ->
   new_project false button_and_label = button_and_label) /\
  widgets (new_project true button_and_label) = [] /\
  current_file (new_project true button_and_label) = None /\
  Forall (fun dw => destroyed dw (new_project true button_and_label))
         (widgets button_and_label).
Proof.
  assert (Hwf : wf button_and_label) by (repeat constructor).
  split; [exact Hwf|].
  apply (new_project_destroys_document button_and_label Hwf).
Defined.

(** ** One placement statement per widget *)

Lemma widget_code_shape (tk : Toolkit) (i : nat) (w : DraggableWidget)
  (block : list string) :
  widget_code tk i w = Ok block ->
  exists construction,
    block = construction ++ [placement_line i w; ""] /\
    (length construction <= 1)%nat.
Proof.
  unfold widget_code, placement_line.
  destruct (decide (widget_type w = "Button")).
  { destruct (cget_or tk (widget w) "text" "Button"); [|discriminate].
    cbn. intros [= <-]. eexists [_]. split; [reflexivity | cbn; lia]. }
  destruct (decide (widget_type w = "Label")).
  { destruct (cget_or tk (widget w) "text" "Label"); [|discriminate].
    cbn. intros [= <-]. eexists [_]. split; [reflexivity | cbn; lia]. }
  destruct (decide (widget_type w = "Entry")).
  { cbn. intros [= <-]. eexists [_]. split; [reflexivity | cbn; lia]. }
  cbn. intros [= <-]. exists []. split; [reflexivity | cbn; lia].
Qed.

Lemma widgets_code_shape (tk : Toolkit) (h : list DraggableWidget)
  (l : list ref) :
  forall i body, widgets_code tk h i l = Ok body ->
  exists blocks,
    body = concat blocks /\
    Forall2 (fun kd block =>
               exists w construction,
                 h !! kd.2 = Some w /\
                 block = construction ++ [placement_line kd.1 w; ""] /\
                 (length construction <= 1)%nat)
            (zip (seq i (length l)) l) blocks.
Proof.
  induction l as [|dw l IH]; intros i body; cbn.
  - intros [= <-]. exists []. split; [reflexivity | constructor].
  - destruct (h !! dw) as [w|] eqn:Hw; [|discriminate].
    destruct (widget_code tk i w) as [block|] eqn:Hb; [|discriminate]. cbn.
    destruct (widgets_code tk h (S i) l) as [rest|] eqn:Hr; [|discriminate].
    cbn. intros [= <-].
    destruct (IH (S i) rest Hr) as (blocks & -> & HF).
    destruct (widget_code_shape tk i w block Hb) as (c & -> & Hc).
    exists ((c ++ [placement_line i w; ""]) :: blocks).
    split; [reflexivity|]. constructor; [|exact HF].
    exists w, c. auto.
Qed.

(** [generate_python_code]: whenever code is generated, it is the fixed
    seven-line prologue, one block per widget in document order, and the
    fixed four-line epilogue; the block of the widget at position [k] ends
    with the placement of [widget_k] at the widget's stored position and an
    empty line, after at most one construction line. *)
Theorem one_placement_per_widget (tk : Toolkit) (s : GUIBuilder)
  (code : list string) :
  code_lines tk s = Ok code ->
  exists blocks,
    code =
      ["import tkinter as tk";
       "from tkinter import ttk";
       "";
       "def create_gui():";
       "    root = tk.Tk()";
       "    root.title('Generated GUI')";
       ""] ++ concat blocks ++
      ["    root.mainloop()";
       "";
       "if __name__ == '__main__':";
       "    create_gui()"] /\
    Forall2 (fun kd block =>
               exists w construction,
                 heap s !! kd.2 = Some w /\
                 block = construction ++ [placement_line kd.1 w; ""] /\
                 (length construction <= 1)%nat)
            (zip (seq 0 (length (widgets s))) (widgets s)) blocks.
Proof.
  unfold code_lines.
  destruct (widgets_code tk (heap s) 0 (widgets s)) as [body|] eqn:Hb;
    [|discriminate].
  cbn [rbind]. intros [= <-].
  destruct (widgets_code_shape tk _ _ 0%nat body Hb) as (blocks & -> & HF).
  exists blocks. split; [reflexivity | exact HF].
Qed.

Lemma one_placement_per_widget_witness :
  code_lines tk86 text_placed =
    Ok ["import tkinter as tk";
        "from tkinter import ttk";
        "";
        "def create_gui():";
        "    root = tk.Tk()";
        "    root.title('Generated GUI')";
        "";
        "    widget_0.place(x=20, y=60)";
        "";
        "    root.mainloop()";
        "";
        "if __name__ == '__main__':";
        "    create_gui()"] /\
  exists blocks,
    ["import tkinter as tk";
     "from tkinter import ttk";
     "";
     "def create_gui():";
     "    root = tk.Tk()";
     "    root.title('Generated GUI')";
     "";
     "    widget_0.place(x=20, y=60)";
     "";
     "    root.mainloop()";
     "";
     "if __name__ == '__main__':";
     "    create_gui()"] =
      ["import tkinter as tk";
       "from tkinter import ttk";
       "";
       "def create_gui():";
       "    root = tk.Tk()";
       "    root.title('Generated GUI')";
       ""] ++ concat blocks ++
      ["    root.mainloop()";
       "";
       "if __name__ == '__main__':";
       "    create_gui()"] /\
    Forall2 (fun kd block =>
               exists w construction,
                 heap text_placed !! kd.2 = Some w /\
                 block = construction ++ [placement_line kd.1 w; ""] /\
                 (length construction <= 1)%nat)
            (zip (seq 0 (length (widgets text_placed))) (widgets text_placed))
            blocks.
Proof.
  split; [reflexivity|].
  apply (one_placement_per_widget tk86 text_placed). reflexivity.
Defined.

(** ** The types in the store *)

Lemma config_class (tk : Toolkit) (t t' : TkWidget) (prop value : string) :
  config tk t prop value = Ok t' -> tk_class t' = tk_class t.
Proof.
  unfold config. destruct (_ && _); [|discriminate]. intros [= <-]. reflexivity.
Qed.

Lemma catalogued_set_widget (t : TkWidget) (w : DraggableWidget) :
  tk_class t = tk_class (widget w) -> catalogued w -> catalogued (set_widget t w).
Proof.
  intros Hc (Hp & t0 & Hm & Ht). split; [exact Hp|].
  exists t0. cbn. split; [exact Hm | congruence].
Qed.

Lemma try_config_catalogued (tk : Toolkit) (prop value : string)
  (w : DraggableWidget) :
  catalogued w -> catalogued (try_config tk prop value w).
Proof.
  intros H. unfold try_config.
  destruct (config tk (widget w) prop value) as [t|] eqn:E; [|exact H].
  apply catalogued_set_widget; [eapply config_class, E | exact H].
Qed.

Lemma apply_options_catalogued (tk : Toolkit) (props : list (string * string)) :
  forall w, catalogued w -> catalogued (apply_options tk props w).
Proof.
  unfold apply_options. induction props as [|pv props IH]; intros w H; cbn;
    [exact H | apply IH, try_config_catalogued, H].
Qed.

Lemma fresh_dw_catalogued (t : TkWidget) (wtype : string) (x y : Z) (i : nat) :
  make_widget wtype = Some t -> catalogued (fresh_dw t wtype x y i).
Proof. intros Hm. split; [reflexivity|]. exists t. auto. Qed.

Lemma update_dw_store (dw : ref) (f : DraggableWidget -> DraggableWidget)
  (s : GUIBuilder) :
  (forall w, heap s !! dw = Some w -> catalogued w -> catalogued (f w)) ->
  Forall catalogued (heap s) -> Forall catalogued (heap (update_dw dw f s)).
Proof. intros Hf H. cbn. apply Forall_alter; assumption. Qed.

Lemma select_store (dw : ref) (s : GUIBuilder) :
  Forall catalogued (heap s) -> Forall catalogued (heap (select dw s)).
Proof. intros H. rewrite select_heap. apply Forall_alter; auto. Qed.

Lemma delete_item_and_destroy_store (dw : ref) (s : GUIBuilder) :
  Forall catalogued (heap s) ->
  Forall catalogued (heap (delete_item_and_destroy dw s)).
Proof.
  intros H. unfold delete_item_and_destroy.
  destruct (heap s !! dw); [|exact H].
  apply (update_dw_store dw _ (on_canvas _ s)); [|exact H].
  intros w' _. apply catalogued_set_widget. reflexivity.
Qed.

Lemma place_widget_store (x y : Z) (s : GUIBuilder) :
  Forall catalogued (heap s) -> Forall catalogued (heap (place_widget x y s)).
Proof.
  intros H. destruct (active_widget s) as [wtype|] eqn:Ha;
    [|unfold place_widget; rewrite Ha; exact H].
  destruct (make_widget wtype) as [t|] eqn:Hm.
  - destruct (place_widget_some x y s wtype t Ha Hm) as [c ->]. cbn.
    apply Forall_app. split; [exact H|].
    apply Forall_singleton, fresh_dw_catalogued, Hm.
  - rewrite (place_widget_none x y s wtype Ha Hm). exact H.
Qed.

Lemma load_widget_store (tk : Toolkit) (wd : WidgetData) (s : GUIBuilder) :
  Forall catalogued (heap s) -> Forall catalogued (heap (load_widget tk wd s)).
Proof.
  intros H. destruct (make_widget (wd_type wd)) as [t|] eqn:Hm.
  - destruct (load_widget_some tk wd s t Hm) as [c ->]. cbn.
    apply Forall_app. split; [exact H|].
    apply Forall_singleton, apply_options_catalogued, fresh_dw_catalogued, Hm.
  - rewrite (load_widget_none tk wd s Hm).
    destruct (last (widgets s)); [|exact H].
    apply (update_dw_store _ _ (set_active_widget _ s)); [|exact H].
    intros w _. apply apply_options_catalogued.
Qed.

Lemma clear_canvas_store (s : GUIBuilder) :
  Forall catalogued (heap s) -> Forall catalogued (heap (clear_canvas s)).
Proof.
  intros H. unfold clear_canvas. cbn.
  assert (Hl : forall l s, Forall catalogued (heap s) ->
    Forall catalogued
      (heap (fold_left (fun s dw => delete_item_and_destroy dw s) l s))).
  { induction l as [|dw l IH]; intros s1 H1; cbn; [exact H1|].
    apply IH, delete_item_and_destroy_store, H1. }
  apply Hl, H.
Qed.

Lemma history_step_store (a : action) (s : GUIBuilder) :
  Forall catalogued (heap s) ->
  Forall catalogued
    (heap (run (lift (delete_item_and_destroy
                        match a with Create dw | Delete dw | Move dw _ _ => dw end)
                ;;; widgets_remove
                      match a with Create dw | Delete dw | Move dw _ _ => dw end)
               s)) /\
  Forall catalogued
    (heap (run (lift (fun s =>
                        set_widgets
                          (widgets s ++
                           [match a with Create dw | Delete dw | Move dw _ _ => dw end])
                          s)
                ;;; recreate_window
                      match a with Create dw | Delete dw | Move dw _ _ => dw end)
               s)).
Proof.
  intros H. set (dw := match a with Create d | Delete d | Move d _ _ => d end).
  split; unfold run, bind, lift; cbn.
  - unfold widgets_remove.
    pose proof (delete_item_and_destroy_store dw s H) as H1.
    destruct (list_remove dw (widgets (delete_item_and_destroy dw s))); exact H1.
  - unfold recreate_window. cbn.
    destruct (heap s !! dw) as [w|]; [|exact H].
    destruct (tk_alive (widget w)); cbn; [|exact H].
    apply Forall_alter; [exact H|]. auto.
Qed.

Lemma move_store (dw : ref) (old_x old_y : Z) (f : Canvas -> Canvas)
  (s : GUIBuilder) :
  Forall catalogued (heap s) ->
  Forall catalogued
    (heap (update_dw dw (fun w => set_y old_y (set_x old_x w)) (on_canvas f s))).
Proof. intros H. cbn. apply Forall_alter; [exact H|]. auto. Qed.

Lemma undo_store (s : GUIBuilder) :
  Forall catalogued (heap s) -> Forall catalogued (heap (run undo s)).
Proof.
  intros H. unfold run, undo.
  destruct (pop (undo_stack s)) as [[a rest]|]; [|exact H].
  set (s1 := set_redo_stack _ _).
  assert (H1 : Forall catalogued (heap s1)) by exact H. clearbody s1.
  destruct a as [dw|dw|dw old_x old_y].
  - apply (history_step_store (Create dw) s1 H1).
  - apply (history_step_store (Delete dw) s1 H1).
  - destruct (heap s1 !! dw); [|exact H1]. apply (move_store dw), H1.
Qed.

Lemma redo_store (s : GUIBuilder) :
  Forall catalogued (heap s) -> Forall catalogued (heap (run redo s)).
Proof.
  intros H. unfold run, redo.
  destruct (pop (redo_stack s)) as [[a rest]|]; [|exact H].
  set (s1 := set_undo_stack _ _).
  assert (H1 : Forall catalogued (heap s1)) by exact H. clearbody s1.
  destruct a as [dw|dw|dw old_x old_y].
  - apply (history_step_store (Create dw) s1 H1).
  - apply (history_step_store (Delete dw) s1 H1).
  - destruct (heap s1 !! dw); [|exact H1]. apply (move_store dw), H1.
Qed.

Lemma handle_store (tk : Toolkit) (e : event) (s : GUIBuilder) :
  Forall catalogued (heap s) -> Forall catalogued (heap (handle tk e s)).
Proof.
  intros H. destruct e; cbn [handle].
  - exact H.
  - unfold canvas_click. destruct (truthy _); [apply place_widget_store, H|].
    repeat (case_match; try exact H). apply select_store, H.
  - unfold on_start. apply select_store, update_dw_store; [|exact H]. auto.
  - unfold run, on_drag. destruct (heap s !! dw) as [w|]; [|exact H].
    destruct (start_x w), (start_y w); try exact H.
    case_match; [|exact H]. apply (move_store dw), H.
  - unfold on_release. destruct (update_appearance_heap dw s) as (Hh & _).
    destruct (heap (update_appearance dw s) !! dw); [|rewrite Hh; exact H].
    destruct (bool_decide _); cbn; rewrite Hh; exact H.
  - apply select_store, H.
  - apply delete_item_and_destroy_store, H.
  - unfold bring_to_front. destruct (heap s !! dw); exact H.
  - unfold send_to_back. destruct (heap s !! dw); exact H.
  - unfold update_property. destruct row as [prop|]; [|exact H].
    destruct (heap s !! dw) as [w|] eqn:Hw; [|exact H].
    destruct (decide (prop = "x")).
    { destruct (py_int new_value); [|exact H].
      apply (update_dw_store dw _ (on_canvas _ s)); [|exact H]. auto. }
    destruct (decide (prop = "y")).
    { destruct (py_int new_value); [|exact H].
      apply (update_dw_store dw _ (on_canvas _ s)); [|exact H]. auto. }
    destruct (config tk (widget w) prop new_value) as [t|] eqn:Hc; [|exact H].
    apply update_dw_store; [|exact H]. intros w' Hw'.
    rewrite Hw in Hw'. injection Hw' as <-.
    apply catalogued_set_widget. eapply config_class, Hc.
  - unfold new_project. destruct (_ && _); [exact H|].
    apply (clear_canvas_store s H).
  - destruct choice as [[file_path [data|]]|]; cbn; try exact H.
    assert (Hl : forall l s, Forall catalogued (heap s) ->
      Forall catalogued (heap (fold_left (fun s wd => load_widget tk wd s) l s))).
    { induction l as [|wd l IH]; intros s1 H1; cbn; [exact H1|].
      apply IH, load_widget_store, H1. }
    apply Hl. apply (clear_canvas_store s H).
  - unfold _save_to_file. destruct (save_data tk s); exact H.
  - unfold delete_selected.
    apply (for_each_keeps (fun s => Forall catalogued (heap s))); [|exact H].
    intros dw s1 H1. unfold run, bind, lift. cbn. unfold widgets_remove.
    pose proof (delete_item_and_destroy_store dw (push_undo (Delete dw) s1) H1)
      as H2.
    destruct (list_remove dw _); exact H2.
  - apply undo_store, H.
  - apply redo_store, H.
Qed.

Lemma reachable_store (tk : Toolkit) (s : GUIBuilder) :
  reachable tk (fun _ => true) s -> Forall catalogued (heap s).
Proof.
  induction 1 as [|s e _ IH _]; [constructor | apply handle_store, IH].
Qed.

(** [place_widget], [load_widget] and every handler: whatever the user does
    and whatever files are loaded, every widget object the program holds is
    of one of the thirteen supported types, with the Tk class that
    [place_widget] constructs for that type; and its [properties] attribute
    is still the empty dictionary of [__init__], the properties living in
    the Tk widget alone. *)
Theorem types_stay_in_catalogue (tk : Toolkit) (s : GUIBuilder) (dw : ref)
  (w : DraggableWidget) :
  reachable tk (fun _ => true) s ->
  heap s !! dw = Some w ->
  widget_type w ∈ SUPPORTED_WIDGETS /\
  (exists t, make_widget (widget_type w) = Some t /\
             tk_class (widget w) = tk_class t) /\
  properties w = [].
Proof.
  intros Hr Hw. pose proof (reachable_store tk s Hr) as H.
  rewrite Forall_lookup in H. destruct (H dw w Hw) as (Hp & t & Hm & Hc).
  split; [apply make_widget_supported; eauto|]. split; [eauto | exact Hp].
Qed.

Lemma types_stay_in_catalogue_witness :
  reachable tk86 (fun _ => true) button_deleted /\
  heap button_deleted !! 0%nat
    = Some (set_widget (destroy (widget button0)) (set_selected true button0)) /\
  widget_type (set_widget (destroy (widget button0)) (set_selected true button0))
    ∈ SUPPORTED_WIDGETS /\
  (exists t,
     make_widget (widget_type (set_widget (destroy (widget button0))
                                 (set_selected true button0))) = Some t /\
     tk_class (widget (set_widget (destroy (widget button0))
                         (set_selected true button0))) = tk_class t) /\
  properties (set_widget (destroy (widget button0)) (set_selected true button0))
    = [].
Proof.
  assert (Hr : reachable tk86 (fun _ => true) button_deleted).
  { unfold button_deleted.
    repeat (apply reachable_step; [|reflexivity]). apply reachable_init. }
  split; [exact Hr|]. split; [reflexivity|].
  apply (types_stay_in_catalogue tk86 button_deleted 0 _ Hr). reflexivity.
Defined.

(** ** Saving and loading back, on and off the grid *)

Lemma widget_records_types (tk : Toolkit) (h : list DraggableWidget)
  (l : list ref) :
  Forall catalogued h ->
  forall rs, widget_records tk h l = Ok rs ->
  Forall (fun r => wd_type r ∈ SUPPORTED_WIDGETS) rs.
Proof.
  intros Hh. induction l as [|dw l IH]; intros rs; cbn.
  - intros [= <-]. constructor.
  - destruct (h !! dw) as [w|] eqn:Hw; [|discriminate].
    destruct (widget_record tk w) as [r|] eqn:Hr; [|discriminate]. cbn.
    destruct (widget_records tk h l) as [rs'|]; [|discriminate]. cbn.
    intros [= <-]. constructor; [|apply IH; reflexivity].
    destruct (widget_record_fields tk w r Hr) as (Hs & _).
    rewrite Forall_lookup in Hh. destruct (Hh dw w Hw) as (_ & t & Hm & _).
    injection Hs as Ht _ _. rewrite Ht. apply make_widget_supported. eauto.
Qed.

Lemma filter_all {A} (P : A -> Prop) `{!forall a, Decision (P a)} (l : list A) :
  Forall P l -> filter P l = l.
Proof.
  induction 1 as [|a l Ha _ IH]; [reflexivity|].
  rewrite filter_cons, decide_True by exact Ha. rewrite IH. reflexivity.
Qed.

(** [_save_to_file], [open_project]: any document the program can reach,
    once saved, loads back with as many widgets, of the same types, in the
    same order, each at its saved position snapped to the grid; no entry of
    a saved file is ever skipped for its type. *)
Theorem saved_document_loads_snapped (tk : Toolkit) (s s0 : GUIBuilder)
  (data : LayoutFile) (file_path : string) :
  reachable tk (fun _ => true) s ->
  save_data tk s = Ok data ->
  layout (open_project tk (Some (file_path, Some data)) s0)
    = (fun e : option (string * Z * Z) => snapped_summary <$> e) <$> layout s /\
  length (file_widgets data) = length (widgets s) /\
  Forall (fun r => wd_type r ∈ SUPPORTED_WIDGETS) (file_widgets data).
Proof.
  intros Hr. unfold save_data.
  destruct (widget_records tk (heap s) (widgets s)) as [rs|] eqn:Hrs;
    [|discriminate].
  cbn [rbind]. intros [= <-]. cbn [file_widgets].
  pose proof (widget_records_types tk _ _ (reachable_store tk s Hr) rs Hrs) as Ht.
  destruct (widget_records_fields tk _ _ rs Hrs) as [Hl _].
  destruct (open_project_effect tk file_path
              {| version := VERSION; file_widgets := rs |} s0) as (-> & _).
  split; [|split; [|exact Ht]].
  - unfold layout in *. rewrite <- Hl. unfold expected_layout. cbn.
    rewrite (filter_all _ rs Ht), <- !list_fmap_compose.
    apply list_fmap_ext. intros _ r _. reflexivity.
  - apply (f_equal length) in Hl. unfold layout in Hl.
    rewrite !length_fmap in Hl. exact Hl.
Qed.

Lemma saved_document_loads_snapped_witness :
  reachable tk86 (fun _ => true)
    (handle tk86 (EditProperty 0 (Some "x") "7")
       (handle tk86 (CanvasClick 23 57 None)
          (handle tk86 (ToolboxButton "Button") init))) /\
  save_data tk86
    (handle tk86 (EditProperty 0 (Some "x") "7")
       (handle tk86 (CanvasClick 23 57 None)
          (handle tk86 (ToolboxButton "Button") init))) = Ok off_grid_file /\
  layout (open_project tk86 (Some ("layout.json", Some off_grid_file)) init)
    = (fun e : option (string * Z * Z) => snapped_summary <$> e) <$>
        layout (handle tk86 (EditProperty 0 (Some "x") "7")
                  (handle tk86 (CanvasClick 23 57 None)
                     (handle tk86 (ToolboxButton "Button") init))) /\
  length (file_widgets off_grid_file)
    = length (widgets (handle tk86 (EditProperty 0 (Some "x") "7")
                         (handle tk86 (CanvasClick 23 57 None)
                            (handle tk86 (ToolboxButton "Button") init)))) /\
  Forall (fun r => wd_type r ∈ SUPPORTED_WIDGETS) (file_widgets off_grid_file).
Proof.
  assert (Hr : reachable tk86 (fun _ => true)
    (handle tk86 (EditProperty 0 (Some "x") "7")
       (handle tk86 (CanvasClick 23 57 None)
          (handle tk86 (ToolboxButton "Button") init)))).
  { repeat (apply reachable_step; [|reflexivity]). apply reachable_init. }
  split; [exact Hr|]. split; [reflexivity|].
  apply (saved_document_loads_snapped tk86 _ init off_grid_file "layout.json" Hr).
  reflexivity.
Defined.
